(** * Verification of the face-attendance desktop application

    A shallow embedding of [attendance.py]: the module-level helpers
    ([float_to_decimal], [initialize_aws_resources]) and the callbacks of
    [FaceAttendanceApp] that talk to the face-collection service and to the
    table store.  Callbacks are functions in a state-and-exception monad over
    the fields of [self] that the code reads back, with a chronological log of
    everything the code does to the outside world: remote requests, message
    boxes, console output, widget updates, files written. *)

From Stdlib Require Import ZArith QArith Lia Ascii.
From Stdlib Require Import Qabs Lqa.
From stdpp Require Import base strings list gmap pretty.
Close Scope Q_scope.

Set Default Proof Using "Type".
#[local] Set Warnings "-register-all".

(** * Python values *)

(** A [decimal.Decimal], kept as the text it was constructed from: the code
    only ever builds one as [Decimal(str(x))], and the table store client
    builds the ones it returns from the number's wire text. *)
Inductive decimal := Decimal (text : string).

Global Instance decimal_eq_dec : EqDecision decimal.
Proof. solve_decision. Defined.

(** The Python objects [float_to_decimal] can be handed.  A float is a
    rational (every finite double is one); a dict is its item list in
    insertion order, with arbitrary hashable keys; tuples and sets are the
    containers that are neither [dict] nor [list]. *)
Inductive pyval :=
| PyNone
| PyBool (b : bool)
| PyInt (n : Z)
| PyFloat (x : Q)
| PyStr (s : string)
| PyDecimal (d : decimal)
| PyList (items : list pyval)
| PyTuple (items : list pyval)
| PySet (items : list pyval)
| PyDict (items : list (pyval * pyval)).

(** [isinstance(obj, float)], [isinstance(obj, dict)], [isinstance(obj, list)] *)
Definition is_float (v : pyval) : bool :=
  match v with PyFloat _ => true | _ => false end.

Definition is_dict (v : pyval) : bool :=
  match v with PyDict _ => true | _ => false end.

Definition is_list (v : pyval) : bool :=
  match v with PyList _ => true | _ => false end.

(** [float_to_decimal(obj)], lines 28-36; [str] is Python's [str] on floats. *)
Fixpoint float_to_decimal (str : Q -> string) (obj : pyval) : pyval :=
  match obj with
  | PyFloat x => PyDecimal (Decimal (str x))
  | PyDict items =>
      PyDict (List.map (fun kv => (kv.1, float_to_decimal str kv.2)) items)
  | PyList items => PyList (List.map (float_to_decimal str) items)
  | _ => obj
  end.

(** A float occurs somewhere in the object: the object itself, an element of
    a container, a key or a value of a dict, at any depth. *)
Fixpoint has_float (v : pyval) : bool :=
  match v with
  | PyFloat _ => true
  | PyList l | PyTuple l | PySet l => existsb has_float l
  | PyDict kvs => existsb (fun kv => has_float kv.1 || has_float kv.2) kvs
  | _ => false
  end.

(** A float occurs at a place the conversion does not reach: inside a tuple or
    a set, or in (or under) a dict key. *)
Fixpoint has_unreached_float (v : pyval) : bool :=
  match v with
  | PyList l => existsb has_unreached_float l
  | PyTuple l | PySet l => existsb has_float l
  | PyDict kvs =>
      existsb (fun kv => has_float kv.1 || has_unreached_float kv.2) kvs
  | _ => false
  end.

(** The objects a JSON document decodes to: scalars, lists, and dicts whose
    keys are strings. *)
Fixpoint json_like (v : pyval) : bool :=
  match v with
  | PyList l => forallb json_like l
  | PyTuple _ | PySet _ => false
  | PyDict kvs =>
      forallb (fun kv => match kv.1 with PyStr _ => true | _ => false end
                         && json_like kv.2) kvs
  | _ => true
  end.

(** Library functions of Python (and of OpenCV) whose results the code passes
    on without looking inside them. *)
Record pylib := {
  (** [str(x)] of a float *)
  str_float : Q -> string;
  (** [float(d)] of a Decimal *)
  float_of_decimal : decimal -> Q;
  (** [format(x, '.1f')] and [format(x, '.2f')] of a float, by the digits *)
  format_f : nat -> Q -> string;
  (** [str(d)] and [bool(d)] of a Decimal *)
  str_decimal : decimal -> string;
  bool_of_decimal : decimal -> bool;
  (** float division and multiplication *)
  float_div : Q -> Q -> Q;
  float_mul : Q -> Q -> Q;
  (** [s.strip()] *)
  str_strip : string -> string;
  (** [cv2.imencode('.jpg', image)[1].tobytes()] *)
  imencode_jpg : string -> string;
  (** [str(frame.shape)] *)
  shape_text : string -> string;
  (** [Image.fromarray(cv2.cvtColor(frame, cv2.COLOR_BGR2RGB)).size]: the
      width and the height of a frame *)
  image_size : string -> Z * Z;
}.

(** * Data of the remote services *)

(** An exception, by the text [str(e)] gives. *)
Definition exn := string.

(** The outcome of a call: a value, or an exception raised. *)
Inductive reply (A : Type) :=
| Returns (a : A)
| Raises (e : exn).
Arguments Returns {A} a.
Arguments Raises {A} e.

(** An attribute value of a table-store item, as the client hands it over. *)
Inductive attr :=
| AStr (s : string)
| ANum (d : decimal)
| ABool (b : bool)
| ANull.

Global Instance attr_eq_dec : EqDecision attr.
Proof. solve_decision. Defined.

(** An item of a table: a dict from attribute names to values. *)
Abbreviation item := (gmap string attr).

(** A frame of the camera or a picture loaded from disk. *)
Definition image := string.

(** One entry of [FaceDetails]: the two fields of its ['Quality'] the code
    reads, each possibly absent. *)
Record face_detail := {
  Brightness : option Q;
  Sharpness : option Q;
}.

(** One entry of [FaceRecords], by its ['Face']. *)
Record face_record := {
  FaceId : string;
  Confidence : Q;
}.

(** One entry of [FaceMatches]. *)
Record face_match := {
  Similarity : Q;
  ExternalImageId : option string;
}.

Inductive key_type := HASH | RANGE.

Global Instance key_type_eq_dec : EqDecision key_type.
Proof. solve_decision. Defined.

(** The keyword arguments of [dynamodb.create_table]. *)
Record table_spec := {
  TableName : string;
  KeySchema : list (string * key_type);
  AttributeDefinitions : list (string * string);
  ProvisionedThroughput : Z * Z;
}.

Global Instance table_spec_eq_dec : EqDecision table_spec.
Proof. solve_decision. Defined.

(** The requests the program sends, each indexed by what it answers. *)
Inductive request : Type -> Type :=
| tables_all : request (list string)
| create_table (spec : table_spec) : request unit
| wait_table_exists (name : string) : request unit
| list_collections : request (list string)
| create_collection (CollectionId : string) : request unit
| detect_faces (Image : string) (Attributes : list string) :
    request (list face_detail)
| index_faces (CollectionId : string) (Image : string)
    (ExternalImageId : string) (DetectionAttributes : list string)
    (QualityFilter : string) : request (list face_record)
| search_faces_by_image (CollectionId : string) (Image : string)
    (MaxFaces : Z) (FaceMatchThreshold : Z) : request (list face_match)
| get_item (table : string) (user_id : string) : request (option item)
| put_item (table : string) (Item : item) : request unit
| scan (table : string) (begins_with_timestamp : option string) :
    request (list item)
| scan_count (table : string) : request Z.

(** * The desktop *)

Record datetime := {
  year : Z; month : Z; day : Z;
  hour : Z; minute : Z; second : Z; microsecond : Z;
}.

(** A [ttk.Scale]: its range and its value. *)
Record scale := {
  from_ : Q;
  to : Q;
  scale_value : Q;
}.

(** A read-only [ttk.Combobox]: its list of values and its text. *)
Record combobox := {
  values : list attr;
  combo_text : string;
}.

(** A [cv2.VideoCapture]. *)
Record capture := {
  capture_index : Z;
  isOpened : bool;
}.

(** A row of a [ttk.Treeview]. *)
Definition row := list attr.

(** The widgets the callbacks write to, by the attribute (or local variable)
    that holds them. *)
Inductive widget :=
| register_status | face_detected_label | register_camera_label
| register_reset_btn | register_btn | register_start_camera_btn
| register_capture_btn
| attendance_camera_label | attendance_start_camera_btn
| attendance_capture_btn | results_frame | processing_label
| status_frame | info_frame
| verify_camera_label | verify_start_camera_btn | verify_capture_btn
| verify_results
| report_present_card | report_late_card | report_absent_card
| card_total_users | card_present_today | card_absent_today
| card_attendance_rate.

Global Instance widget_eq_dec : EqDecision widget.
Proof. solve_decision. Defined.

(** A [threading.Thread] running [update_camera] for a display label: whether
    it still runs, and its local frame counter. *)
Record thread := {
  thread_label : widget;
  is_alive : bool;
  frame_count : nat;
}.

(** A [tk.PhotoImage] of a frame, with the size [resize_image] gave it when
    the display label has a size. *)
Record photo := {
  photo_of : image;
  resized_to : option (Z * Z);
}.

(** What is handed to [after], [after_idle] and to a button as its command. *)
Inductive callback :=
| cb_update_dashboard_stats
| cb_update_camera_display (label : widget) (imgtk : photo)
| cb_check_face_in_image (frame : image) (label : widget)
| cb_start_camera (label : widget)
| cb_stop_camera (label : widget)
| cb_select_register_tab
| cb_reset_attendance.

(** The value of a widget option. *)
Inductive option_value :=
| OText (s : string)
| OCommand (c : callback)
| OImage (p : option photo).

(** What a callback does to the outside world, in the order it does it. *)
Inductive event :=
| Request (n : nat) {A : Type} (r : request A)
| showerror (title message : string)
| showinfo (title message : string)
| askyesno (title message : string)
| asksaveasfilename (initialfile : string)
| print (text : string)
| print_exc
| config (w : widget) (options : list (string * option_value))
| Label (parent : widget) (text : string)
| Button (parent : widget) (text : string) (command : callback)
| Frame (parent : widget) (name : widget)
| destroy (w : widget)
| destroy_children (w : widget)
| update
| open_file (path : string)
| write_file (path content : string)
| after (ms : Z) (c : callback)
| after_idle (c : callback)
| Thread_start (id : nat)
| VideoCapture (index : Z)
| camera_read
| camera_release.

(** The world outside the program, seen from it: what the [n]-th thing the
    program asks of it gives.  A remote request is answered or raises; the
    clock shows a time; the operator answers a question or picks a file; the
    file system opens a file for writing or raises, and takes what is written
    or raises; a camera opens or not and delivers a frame or not; a call of
    OpenCV, Pillow or ImageTk on a frame goes through or raises; a widget has
    a size; a join returns with the thread finished or on its timeout. *)
Record env := {
  answer : forall A : Type, nat -> request A -> reply A;
  clock : nat -> datetime;
  operator_yes : nat -> bool;
  operator_path : nat -> string;
  file_opens : nat -> reply unit;
  file_written : nat -> reply unit;
  camera_opens : nat -> Z -> reply bool;
  camera_frame : nat -> reply (option image);
  image_call : nat -> reply unit;
  winfo_size : nat -> Z * Z;
  fps_text : nat -> string;
  py_sorted : list attr -> reply (list attr);
  py_set_len : list attr -> nat;
  fromisoformat : string -> option datetime;
  strptime_ymd : string -> bool;
  json_dumps_records : list face_record -> string;
  json_dumps_matches : list face_match -> string;
}.

(** The fields of [self] the callbacks read back, the log of what they did,
    and the number of things asked of the world so far. *)
Record app := {
  trace : list event;
  tick : nat;
  debug_mode_var : bool;
  register_user_id : string;
  register_name : string;
  register_email : string;
  register_department : string;
  quality_threshold : scale;
  register_captured_image : option image;
  match_threshold : scale;
  attendance_captured_image : option image;
  verify_user_id : combobox;
  verify_captured_image : option image;
  users_table : list row;
  attendance_table : list row;
  report_date_var : string;
  is_camera_running : bool;
  camera : option capture;
  current_frame : option image;
  camera_thread : option nat;
  threads : list thread;
}.

(** Assignments to one field of [self]. *)
Definition set_trace (v : list event) (s : app) : app :=
  {| trace := v; tick := tick s; debug_mode_var := debug_mode_var s;
  register_user_id := register_user_id s; register_name := register_name s;
  register_email := register_email s; register_department :=
  register_department s; quality_threshold := quality_threshold s;
  register_captured_image := register_captured_image s; match_threshold :=
  match_threshold s; attendance_captured_image := attendance_captured_image s;
  verify_user_id := verify_user_id s; verify_captured_image :=
  verify_captured_image s; users_table := users_table s; attendance_table :=
  attendance_table s; report_date_var := report_date_var s; is_camera_running
  := is_camera_running s; camera := camera s; current_frame := current_frame
  s; camera_thread := camera_thread s; threads := threads s |}.

Definition set_tick (v : nat) (s : app) : app :=
  {| trace := trace s; tick := v; debug_mode_var := debug_mode_var s;
  register_user_id := register_user_id s; register_name := register_name s;
  register_email := register_email s; register_department :=
  register_department s; quality_threshold := quality_threshold s;
  register_captured_image := register_captured_image s; match_threshold :=
  match_threshold s; attendance_captured_image := attendance_captured_image s;
  verify_user_id := verify_user_id s; verify_captured_image :=
  verify_captured_image s; users_table := users_table s; attendance_table :=
  attendance_table s; report_date_var := report_date_var s; is_camera_running
  := is_camera_running s; camera := camera s; current_frame := current_frame
  s; camera_thread := camera_thread s; threads := threads s |}.

Definition set_register_user_id (v : string) (s : app) : app :=
  {| trace := trace s; tick := tick s; debug_mode_var := debug_mode_var s;
  register_user_id := v; register_name := register_name s; register_email :=
  register_email s; register_department := register_department s;
  quality_threshold := quality_threshold s; register_captured_image :=
  register_captured_image s; match_threshold := match_threshold s;
  attendance_captured_image := attendance_captured_image s; verify_user_id :=
  verify_user_id s; verify_captured_image := verify_captured_image s;
  users_table := users_table s; attendance_table := attendance_table s;
  report_date_var := report_date_var s; is_camera_running := is_camera_running
  s; camera := camera s; current_frame := current_frame s; camera_thread :=
  camera_thread s; threads := threads s |}.

Definition set_register_name (v : string) (s : app) : app :=
  {| trace := trace s; tick := tick s; debug_mode_var := debug_mode_var s;
  register_user_id := register_user_id s; register_name := v; register_email
  := register_email s; register_department := register_department s;
  quality_threshold := quality_threshold s; register_captured_image :=
  register_captured_image s; match_threshold := match_threshold s;
  attendance_captured_image := attendance_captured_image s; verify_user_id :=
  verify_user_id s; verify_captured_image := verify_captured_image s;
  users_table := users_table s; attendance_table := attendance_table s;
  report_date_var := report_date_var s; is_camera_running := is_camera_running
  s; camera := camera s; current_frame := current_frame s; camera_thread :=
  camera_thread s; threads := threads s |}.

Definition set_register_email (v : string) (s : app) : app :=
  {| trace := trace s; tick := tick s; debug_mode_var := debug_mode_var s;
  register_user_id := register_user_id s; register_name := register_name s;
  register_email := v; register_department := register_department s;
  quality_threshold := quality_threshold s; register_captured_image :=
  register_captured_image s; match_threshold := match_threshold s;
  attendance_captured_image := attendance_captured_image s; verify_user_id :=
  verify_user_id s; verify_captured_image := verify_captured_image s;
  users_table := users_table s; attendance_table := attendance_table s;
  report_date_var := report_date_var s; is_camera_running := is_camera_running
  s; camera := camera s; current_frame := current_frame s; camera_thread :=
  camera_thread s; threads := threads s |}.

Definition set_register_department (v : string) (s : app) : app :=
  {| trace := trace s; tick := tick s; debug_mode_var := debug_mode_var s;
  register_user_id := register_user_id s; register_name := register_name s;
  register_email := register_email s; register_department := v;
  quality_threshold := quality_threshold s; register_captured_image :=
  register_captured_image s; match_threshold := match_threshold s;
  attendance_captured_image := attendance_captured_image s; verify_user_id :=
  verify_user_id s; verify_captured_image := verify_captured_image s;
  users_table := users_table s; attendance_table := attendance_table s;
  report_date_var := report_date_var s; is_camera_running := is_camera_running
  s; camera := camera s; current_frame := current_frame s; camera_thread :=
  camera_thread s; threads := threads s |}.

Definition set_register_captured_image (v : option image) (s : app) : app :=
  {| trace := trace s; tick := tick s; debug_mode_var := debug_mode_var s;
  register_user_id := register_user_id s; register_name := register_name s;
  register_email := register_email s; register_department :=
  register_department s; quality_threshold := quality_threshold s;
  register_captured_image := v; match_threshold := match_threshold s;
  attendance_captured_image := attendance_captured_image s; verify_user_id :=
  verify_user_id s; verify_captured_image := verify_captured_image s;
  users_table := users_table s; attendance_table := attendance_table s;
  report_date_var := report_date_var s; is_camera_running := is_camera_running
  s; camera := camera s; current_frame := current_frame s; camera_thread :=
  camera_thread s; threads := threads s |}.

Definition set_verify_user_id (v : combobox) (s : app) : app :=
  {| trace := trace s; tick := tick s; debug_mode_var := debug_mode_var s;
  register_user_id := register_user_id s; register_name := register_name s;
  register_email := register_email s; register_department :=
  register_department s; quality_threshold := quality_threshold s;
  register_captured_image := register_captured_image s; match_threshold :=
  match_threshold s; attendance_captured_image := attendance_captured_image s;
  verify_user_id := v; verify_captured_image := verify_captured_image s;
  users_table := users_table s; attendance_table := attendance_table s;
  report_date_var := report_date_var s; is_camera_running := is_camera_running
  s; camera := camera s; current_frame := current_frame s; camera_thread :=
  camera_thread s; threads := threads s |}.

Definition set_users_table (v : list row) (s : app) : app :=
  {| trace := trace s; tick := tick s; debug_mode_var := debug_mode_var s;
  register_user_id := register_user_id s; register_name := register_name s;
  register_email := register_email s; register_department :=
  register_department s; quality_threshold := quality_threshold s;
  register_captured_image := register_captured_image s; match_threshold :=
  match_threshold s; attendance_captured_image := attendance_captured_image s;
  verify_user_id := verify_user_id s; verify_captured_image :=
  verify_captured_image s; users_table := v; attendance_table :=
  attendance_table s; report_date_var := report_date_var s; is_camera_running
  := is_camera_running s; camera := camera s; current_frame := current_frame
  s; camera_thread := camera_thread s; threads := threads s |}.

Definition set_attendance_table (v : list row) (s : app) : app :=
  {| trace := trace s; tick := tick s; debug_mode_var := debug_mode_var s;
  register_user_id := register_user_id s; register_name := register_name s;
  register_email := register_email s; register_department :=
  register_department s; quality_threshold := quality_threshold s;
  register_captured_image := register_captured_image s; match_threshold :=
  match_threshold s; attendance_captured_image := attendance_captured_image s;
  verify_user_id := verify_user_id s; verify_captured_image :=
  verify_captured_image s; users_table := users_table s; attendance_table :=
  v; report_date_var := report_date_var s; is_camera_running :=
  is_camera_running s; camera := camera s; current_frame := current_frame s;
  camera_thread := camera_thread s; threads := threads s |}.

Definition set_is_camera_running (v : bool) (s : app) : app :=
  {| trace := trace s; tick := tick s; debug_mode_var := debug_mode_var s;
  register_user_id := register_user_id s; register_name := register_name s;
  register_email := register_email s; register_department :=
  register_department s; quality_threshold := quality_threshold s;
  register_captured_image := register_captured_image s; match_threshold :=
  match_threshold s; attendance_captured_image := attendance_captured_image s;
  verify_user_id := verify_user_id s; verify_captured_image :=
  verify_captured_image s; users_table := users_table s; attendance_table :=
  attendance_table s; report_date_var := report_date_var s; is_camera_running
  := v; camera := camera s; current_frame := current_frame s; camera_thread :=
  camera_thread s; threads := threads s |}.

Definition set_camera (v : option capture) (s : app) : app :=
  {| trace := trace s; tick := tick s; debug_mode_var := debug_mode_var s;
  register_user_id := register_user_id s; register_name := register_name s;
  register_email := register_email s; register_department :=
  register_department s; quality_threshold := quality_threshold s;
  register_captured_image := register_captured_image s; match_threshold :=
  match_threshold s; attendance_captured_image := attendance_captured_image s;
  verify_user_id := verify_user_id s; verify_captured_image :=
  verify_captured_image s; users_table := users_table s; attendance_table :=
  attendance_table s; report_date_var := report_date_var s; is_camera_running
  := is_camera_running s; camera := v; current_frame := current_frame s;
  camera_thread := camera_thread s; threads := threads s |}.

Definition set_current_frame (v : option image) (s : app) : app :=
  {| trace := trace s; tick := tick s; debug_mode_var := debug_mode_var s;
  register_user_id := register_user_id s; register_name := register_name s;
  register_email := register_email s; register_department :=
  register_department s; quality_threshold := quality_threshold s;
  register_captured_image := register_captured_image s; match_threshold :=
  match_threshold s; attendance_captured_image := attendance_captured_image s;
  verify_user_id := verify_user_id s; verify_captured_image :=
  verify_captured_image s; users_table := users_table s; attendance_table :=
  attendance_table s; report_date_var := report_date_var s; is_camera_running
  := is_camera_running s; camera := camera s; current_frame := v;
  camera_thread := camera_thread s; threads := threads s |}.

Definition set_camera_thread (v : option nat) (s : app) : app :=
  {| trace := trace s; tick := tick s; debug_mode_var := debug_mode_var s;
  register_user_id := register_user_id s; register_name := register_name s;
  register_email := register_email s; register_department :=
  register_department s; quality_threshold := quality_threshold s;
  register_captured_image := register_captured_image s; match_threshold :=
  match_threshold s; attendance_captured_image := attendance_captured_image s;
  verify_user_id := verify_user_id s; verify_captured_image :=
  verify_captured_image s; users_table := users_table s; attendance_table :=
  attendance_table s; report_date_var := report_date_var s; is_camera_running
  := is_camera_running s; camera := camera s; current_frame := current_frame
  s; camera_thread := v; threads := threads s |}.

Definition set_threads (v : list thread) (s : app) : app :=
  {| trace := trace s; tick := tick s; debug_mode_var := debug_mode_var s;
  register_user_id := register_user_id s; register_name := register_name s;
  register_email := register_email s; register_department :=
  register_department s; quality_threshold := quality_threshold s;
  register_captured_image := register_captured_image s; match_threshold :=
  match_threshold s; attendance_captured_image := attendance_captured_image s;
  verify_user_id := verify_user_id s; verify_captured_image :=
  verify_captured_image s; users_table := users_table s; attendance_table :=
  attendance_table s; report_date_var := report_date_var s; is_camera_running
  := is_camera_running s; camera := camera s; current_frame := current_frame
  s; camera_thread := camera_thread s; threads := v |}.
(** What the operator and the other callbacks set. *)
Definition set_attendance_captured_image (v : option image) (s : app) : app :=
  {| trace := trace s; tick := tick s; debug_mode_var := debug_mode_var s;
  register_user_id := register_user_id s; register_name := register_name s;
  register_email := register_email s; register_department :=
  register_department s; quality_threshold := quality_threshold s;
  register_captured_image := register_captured_image s; match_threshold :=
  match_threshold s; attendance_captured_image := v; verify_user_id :=
  verify_user_id s; verify_captured_image := verify_captured_image s;
  users_table := users_table s; attendance_table := attendance_table s;
  report_date_var := report_date_var s; is_camera_running := is_camera_running
  s; camera := camera s; current_frame := current_frame s; camera_thread :=
  camera_thread s; threads := threads s |}.

Definition set_verify_captured_image (v : option image) (s : app) : app :=
  {| trace := trace s; tick := tick s; debug_mode_var := debug_mode_var s;
  register_user_id := register_user_id s; register_name := register_name s;
  register_email := register_email s; register_department :=
  register_department s; quality_threshold := quality_threshold s;
  register_captured_image := register_captured_image s; match_threshold :=
  match_threshold s; attendance_captured_image := attendance_captured_image s;
  verify_user_id := verify_user_id s; verify_captured_image := v; users_table
  := users_table s; attendance_table := attendance_table s; report_date_var :=
  report_date_var s; is_camera_running := is_camera_running s; camera :=
  camera s; current_frame := current_frame s; camera_thread := camera_thread
  s; threads := threads s |}.

Definition set_debug_mode_var (v : bool) (s : app) : app :=
  {| trace := trace s; tick := tick s; debug_mode_var := v; register_user_id
  := register_user_id s; register_name := register_name s; register_email :=
  register_email s; register_department := register_department s;
  quality_threshold := quality_threshold s; register_captured_image :=
  register_captured_image s; match_threshold := match_threshold s;
  attendance_captured_image := attendance_captured_image s; verify_user_id :=
  verify_user_id s; verify_captured_image := verify_captured_image s;
  users_table := users_table s; attendance_table := attendance_table s;
  report_date_var := report_date_var s; is_camera_running := is_camera_running
  s; camera := camera s; current_frame := current_frame s; camera_thread :=
  camera_thread s; threads := threads s |}.

Definition set_report_date_var (v : string) (s : app) : app :=
  {| trace := trace s; tick := tick s; debug_mode_var := debug_mode_var s;
  register_user_id := register_user_id s; register_name := register_name s;
  register_email := register_email s; register_department :=
  register_department s; quality_threshold := quality_threshold s;
  register_captured_image := register_captured_image s; match_threshold :=
  match_threshold s; attendance_captured_image := attendance_captured_image s;
  verify_user_id := verify_user_id s; verify_captured_image :=
  verify_captured_image s; users_table := users_table s; attendance_table :=
  attendance_table s; report_date_var := v; is_camera_running :=
  is_camera_running s; camera := camera s; current_frame := current_frame s;
  camera_thread := camera_thread s; threads := threads s |}.

Definition set_quality_threshold (v : scale) (s : app) : app :=
  {| trace := trace s; tick := tick s; debug_mode_var := debug_mode_var s;
  register_user_id := register_user_id s; register_name := register_name s;
  register_email := register_email s; register_department :=
  register_department s; quality_threshold := v; register_captured_image :=
  register_captured_image s; match_threshold := match_threshold s;
  attendance_captured_image := attendance_captured_image s; verify_user_id :=
  verify_user_id s; verify_captured_image := verify_captured_image s;
  users_table := users_table s; attendance_table := attendance_table s;
  report_date_var := report_date_var s; is_camera_running := is_camera_running
  s; camera := camera s; current_frame := current_frame s; camera_thread :=
  camera_thread s; threads := threads s |}.

Definition set_match_threshold (v : scale) (s : app) : app :=
  {| trace := trace s; tick := tick s; debug_mode_var := debug_mode_var s;
  register_user_id := register_user_id s; register_name := register_name s;
  register_email := register_email s; register_department :=
  register_department s; quality_threshold := quality_threshold s;
  register_captured_image := register_captured_image s; match_threshold := v;
  attendance_captured_image := attendance_captured_image s; verify_user_id :=
  verify_user_id s; verify_captured_image := verify_captured_image s;
  users_table := users_table s; attendance_table := attendance_table s;
  report_date_var := report_date_var s; is_camera_running := is_camera_running
  s; camera := camera s; current_frame := current_frame s; camera_thread :=
  camera_thread s; threads := threads s |}.

(** * The monad of callbacks

    A callback takes the application state to an outcome and a new state; an
    exception leaves the state as it was when raised. *)
Definition M (A : Type) : Type := app -> reply A * app.

Definition ret {A : Type} (a : A) : M A := fun s => (Returns a, s).

Definition bind {A B : Type} (m : M A) (f : A -> M B) : M B := fun s =>
  match m s with
  | (Returns a, s') => f a s'
  | (Raises e, s') => (Raises e, s')
  end.

Declare Scope M_scope.
Delimit Scope M_scope with M.
Bind Scope M_scope with M.
Notation "x ← y ; z" := (bind y (fun x => z))
  (at level 20, y at level 100, z at level 200, only parsing) : M_scope.
Notation "x ;; z" := (bind x (fun _ => z))
  (at level 100, z at level 200, only parsing, right associativity) : M_scope.
Open Scope M_scope.

Definition raise {A : Type} (e : exn) : M A := fun s => (Raises e, s).

(** [try: m  except Exception as e: h e] *)
Definition try_except {A : Type} (m : M A) (h : exn -> M A) : M A := fun s =>
  match m s with
  | (Returns a, s') => (Returns a, s')
  | (Raises e, s') => h e s'
  end.

Definition get {A : Type} (f : app -> A) : M A := fun s => (Returns (f s), s).

Definition modify (f : app -> app) : M unit := fun s => (Returns tt, f s).

Definition log (e : event) : M unit :=
  modify (fun s => set_trace (trace s ++ [e]) s).

(** The number of the next thing asked of the world. *)
Definition next_tick : M nat := fun s =>
  (Returns (tick s), set_tick (S (tick s)) s).

Definition lift {A : Type} (r : reply A) : M A := fun s => (r, s).

(** [for x in l: body x] *)
Fixpoint for_each {A : Type} (l : list A) (body : A -> M unit) : M unit :=
  match l with
  | [] => ret tt
  | x :: r => body x;; for_each r body
  end.

(** [if self.debug_mode_var.get(): m] *)
Definition if_debug (m : M unit) : M unit :=
  d ← get debug_mode_var;
  if d then m else ret tt.

(** The events of a run, after those already logged. *)
Definition events_since (s s' : app) : list event :=
  drop (length (trace s)) (trace s').

(** * Pure helpers *)

(** [int(x)] of a float: truncation toward zero. *)
Definition py_int (x : Q) : Z := Z.quot (Qnum x) (Z.pos (Qden x)).

(** [x < y] on floats *)
Definition float_lt (x y : Q) : bool := negb (Qle_bool y x).

(** The line feed. *)
Definition LF : string := String "010"%char "".

(** [s.upper()] on ASCII letters *)
Definition ascii_upper (c : ascii) : ascii :=
  let n := nat_of_ascii c in
  if (97 <=? n)%nat && (n <=? 122)%nat then ascii_of_nat (n - 32) else c.

Fixpoint str_upper (s : string) : string :=
  match s with
  | EmptyString => EmptyString
  | String c r => String (ascii_upper c) (str_upper r)
  end.

(** [f"{n:0{w}d}"] for a number that is not negative *)
Definition zpad (w : nat) (n : Z) : string :=
  let s := pretty n in
  String.string_of_list_ascii (replicate (w - String.length s) "0"%char) +:+ s.

(** [t.isoformat()] *)
Definition isoformat (t : datetime) : string :=
  zpad 4 (year t) +:+ "-" +:+ zpad 2 (month t) +:+ "-" +:+ zpad 2 (day t)
  +:+ "T" +:+ zpad 2 (hour t) +:+ ":" +:+ zpad 2 (minute t) +:+ ":"
  +:+ zpad 2 (second t)
  +:+ (if (microsecond t =? 0)%Z then "" else "." +:+ zpad 6 (microsecond t)).

(** [t.strftime("%Y-%m-%d")], [t.strftime("%H:%M:%S")],
    [t.strftime("%Y-%m-%d %H:%M")] *)
Definition strftime_ymd (t : datetime) : string :=
  zpad 4 (year t) +:+ "-" +:+ zpad 2 (month t) +:+ "-" +:+ zpad 2 (day t).

Definition strftime_hms (t : datetime) : string :=
  zpad 2 (hour t) +:+ ":" +:+ zpad 2 (minute t) +:+ ":" +:+ zpad 2 (second t).

Definition strftime_ymd_hm (t : datetime) : string :=
  strftime_ymd t +:+ " " +:+ zpad 2 (hour t) +:+ ":" +:+ zpad 2 (minute t).

(** The attendance status of an hour of the day, lines 1765-1769. *)
Definition attendance_status (hour : Z) : string :=
  if (9 <=? hour)%Z then "late" else "present".

(** The quality filter of a quality threshold, lines 1474-1484. *)
Definition quality_filter_of (quality_threshold : Z) : string :=
  if (90 <=? quality_threshold)%Z then "HIGH"
  else if (70 <=? quality_threshold)%Z then "MEDIUM"
  else if (50 <=? quality_threshold)%Z then "LOW"
  else "NONE".

(** The sliders as [init_register_tab] (lines 439-440) and
    [init_attendance_tab] (lines 529-530) build them. *)
Definition init_quality_threshold : scale :=
  {| from_ := 70; to := 99; scale_value := 80 |}.

Definition init_match_threshold : scale :=
  {| from_ := 50; to := 99; scale_value := 70 |}.

(** A slider's value lies in its range: the operator can drag it no
    further. *)
Definition in_range (sc : scale) : Prop :=
  (from_ sc <= scale_value sc)%Q /\ (scale_value sc <= to sc)%Q.

(** Module constants, lines 19-21. *)
Definition COLLECTION_ID : string := "FaceAttendanceCollection".
Definition USERS_TABLE : string := "FaceAttendanceUsers".
Definition ATTENDANCE_TABLE : string := "FaceAttendanceRecords".

(** The keyword arguments of the two [create_table] calls, lines 45-50 and
    55-66. *)
Definition users_table_spec : table_spec :=
  {| TableName := USERS_TABLE;
     KeySchema := [("user_id", HASH)];
     AttributeDefinitions := [("user_id", "S")];
     ProvisionedThroughput := (5, 5)%Z |}.

Definition attendance_table_spec : table_spec :=
  {| TableName := ATTENDANCE_TABLE;
     KeySchema := [("user_id", HASH); ("timestamp", RANGE)];
     AttributeDefinitions := [("user_id", "S"); ("timestamp", "S")];
     ProvisionedThroughput := (5, 5)%Z |}.

(** The header of the exported report, line 2112. *)
Definition CSV_HEADER : string := "User ID,Name,Time,Status,Confidence".

(** [d[key]] on an item: a [KeyError] when the key is absent. *)
Definition getitem (d : item) (key : string) : reply attr :=
  match d !! key with
  | Some v => Returns v
  | None => Raises ("'" +:+ key +:+ "'")
  end.

(** [min(x, y)] on floats: the first of the two unless the second is less. *)
Definition float_min (x y : Q) : Q := if float_lt y x then y else x.

(** The size [resize_image(img, target_width, target_height)] asks
    [img.resize] for, lines 1208-1222, for an image of the given size; a
    dimension of zero raises [ZeroDivisionError]. *)
Definition resize_image (L : pylib) (size : Z * Z)
    (target_width target_height : Z) : reply (Z * Z) :=
  let '(width, height) := size in
  if (width =? 0)%Z then Raises "division by zero" else
  if (height =? 0)%Z then Raises "division by zero" else
  let ratio :=
    float_min (float_div L (inject_Z target_width) (inject_Z width))
      (float_div L (inject_Z target_height) (inject_Z height)) in
  let max_height := (target_height - 50)%Z in
  let ratio :=
    if float_lt (inject_Z max_height) (float_mul L (inject_Z height) ratio)
    then float_div L (inject_Z max_height) (inject_Z height)
    else ratio in
  Returns (py_int (float_mul L (inject_Z width) ratio),
           py_int (float_mul L (inject_Z height) ratio)).

(** * The callbacks *)

Section callbacks.
Context (L : pylib) (E : env).

(** A remote request: logged with its number, then answered by the world. *)
Definition call {A : Type} (r : request A) : M A :=
  n ← next_tick;
  log (Request n r);;
  lift (answer E A n r).

(** [datetime.now()] *)
Definition now : M datetime :=
  n ← next_tick;
  ret (clock E n).

(** [messagebox.askyesno(title, message)] *)
Definition ask_yes_no (title message : string) : M bool :=
  n ← next_tick;
  log (askyesno title message);;
  ret (operator_yes E n).

(** [str(v)] of an attribute value, as an f-string and Tk render it. *)
Definition py_str (v : attr) : string :=
  match v with
  | AStr s => s
  | ANum d => str_decimal L d
  | ABool b => if b then "True" else "False"
  | ANull => "None"
  end.

(** [bool(v)] of an attribute value *)
Definition truthy (v : attr) : bool :=
  match v with
  | AStr s => negb (bool_decide (s = ""))
  | ANum d => bool_of_decimal L d
  | ABool b => b
  | ANull => false
  end.

(** [float(Decimal(str(q))) if isinstance(q, float) else float(q)] of
    [quality.get(key, 0)], lines 1460-1467. *)
Definition quality_value (q : option Q) : Q :=
  match q with
  | Some x => float_of_decimal L (Decimal (str_float L x))
  | None => 0%Q
  end.

Definition low_quality (face : face_detail) : bool :=
  float_lt (quality_value (Brightness face)) 30
  || float_lt (quality_value (Sharpness face)) 30.

(** The text [(Brightness: b, Sharpness: s)] of the quality messages. *)
Definition quality_text (face : face_detail) : string :=
  "(Brightness: " +:+ format_f L 1 (quality_value (Brightness face))
  +:+ ", Sharpness: " +:+ format_f L 1 (quality_value (Sharpness face))
  +:+ ")".

(** [initialize_aws_resources()], lines 39-81. *)
Definition initialize_aws_resources : M bool :=
  table_names ← call tables_all;
  (if bool_decide (USERS_TABLE ∈ table_names) then ret tt else
     call (create_table users_table_spec);;
     call (wait_table_exists USERS_TABLE);;
     log (print ("Created " +:+ USERS_TABLE +:+ " table")));;
  (if bool_decide (ATTENDANCE_TABLE ∈ table_names) then ret tt else
     call (create_table attendance_table_spec);;
     call (wait_table_exists ATTENDANCE_TABLE);;
     log (print ("Created " +:+ ATTENDANCE_TABLE +:+ " table")));;
  try_except
    (collections ← call list_collections;
     (if bool_decide (COLLECTION_ID ∈ collections) then ret tt else
        call (create_collection COLLECTION_ID);;
        log (print ("Created " +:+ COLLECTION_ID +:+ " collection")));;
     ret true)
    (fun e =>
       log (print ("Error creating collection: " +:+ e));;
       log (showerror "Error" ("Failed to initialize AWS resources: " +:+ e));;
       ret false).

(** The [except] clause of [detect_faces_in_image], lines 1238-1244. *)
Definition detect_faces_in_image_except (e : exn) : M (list face_detail) :=
  if_debug (log (print ("Error detecting faces: " +:+ e));; log print_exc);;
  ret [].

(** [detect_faces_in_image(image)], lines 1225-1244. *)
Definition detect_faces_in_image (img : image) : M (list face_detail) :=
  try_except
    (call (detect_faces (imencode_jpg L img) ["ALL"]))
    detect_faces_in_image_except.

(** [check_face_in_image(image, label_widget)], lines 1247-1271. *)
Definition check_face_in_image (img : image) (label_widget : widget) : M bool :=
  faces ← detect_faces_in_image img;
  match faces with
  | [] =>
      log (config label_widget
             [("text", OText "No face detected"); ("foreground", OText "red")]);;
      ret false
  | face :: more =>
      match more with
      | _ :: _ =>
          log (config label_widget
                 [("text", OText ("Multiple faces detected ("
                                  +:+ pretty (length faces) +:+ ")"));
                  ("foreground", OText "orange")]);;
          ret true
      | [] =>
          log (config label_widget
                 [("text", OText ((if low_quality face
                                   then "Low quality face "
                                   else "Face detected ") +:+ quality_text face));
                  ("foreground",
                   OText (if low_quality face then "orange" else "green"))]);;
          ret true
      end
  end.

(** [reset_register_image()], lines 1307-1313. *)
Definition reset_register_image : M unit :=
  modify (set_register_captured_image None);;
  log (config register_camera_label [("image", OImage None)]);;
  log (config register_reset_btn [("state", OText "disabled")]);;
  log (config register_btn [("state", OText "disabled")]);;
  log (config register_status [("text", OText "")]);;
  log (config face_detected_label [("text", OText "")]).

(** The [except] clause of [load_verify_users], lines 804-809. *)
Definition load_verify_users_except (e : exn) : M unit :=
  if_debug (log (print ("Error loading users for verification: " +:+ e));;
            log print_exc).

(** [load_verify_users()], lines 792-809. *)
Definition load_verify_users : M unit :=
  try_except
    (items ← call (scan USERS_TABLE None);
     user_ids ← lift (py_sorted E
                        (List.map (fun user => default (AStr "") (user !! "user_id"))
                           items));
     combo ← get verify_user_id;
     modify (set_verify_user_id
               {| values := user_ids; combo_text := combo_text combo |});;
     match user_ids with
     | [] => ret tt
     | first :: _ =>
         modify (set_verify_user_id
                   {| values := user_ids; combo_text := py_str first |})
     end)
    load_verify_users_except.

(** The date cell of a user's row, lines 1861-1869. *)
Definition formatted_date (user : item) : attr :=
  let created_at := default (AStr "") (user !! "created_at") in
  if truthy created_at then
    match created_at with
    | AStr s =>
        match fromisoformat E s with
        | Some t => AStr (strftime_ymd_hm t)
        | None => created_at
        end
    | _ => created_at
    end
  else AStr "".

(** The row [load_users] inserts for a user, lines 1871-1877. *)
Definition user_row (user : item) : row :=
  [ default (AStr "") (user !! "user_id");
    default (AStr "") (user !! "name");
    default (AStr "") (user !! "email");
    default (AStr "") (user !! "department");
    formatted_date user ].

(** The [except] clause of [load_users], lines 1882-1888. *)
Definition load_users_except (e : exn) : M unit :=
  log (showerror "Error" ("Failed to load users: " +:+ e));;
  if_debug (log (print ("Error loading users: " +:+ e));; log print_exc).

(** The [try] block of [load_users], lines 1856-1880. *)
Definition load_users_try : M unit :=
  items ← call (scan USERS_TABLE None);
  for_each items (fun user =>
    rows ← get users_table;
    modify (set_users_table (rows ++ [user_row user])));;
  load_verify_users.

(** [load_users()], lines 1850-1888. *)
Definition load_users : M unit :=
  modify (set_users_table []);;
  try_except load_users_try load_users_except.

(** The text of the attendance-rate card, lines 323-326 and 343. *)
Definition attendance_rate_text (present_count : nat) (user_count : Z) : string :=
  (if (0 <? user_count)%Z then
     format_f L 1
       (float_of_decimal L
          (Decimal (str_float L
             (float_mul L
                (float_div L (inject_Z (Z.of_nat present_count))
                   (inject_Z user_count))
                100%Q))))
   else format_f L 1 0%Q) +:+ "%".

(** The [except] clause of [update_dashboard_stats], lines 344-349. *)
Definition update_dashboard_stats_except (e : exn) : M unit :=
  if_debug (log (print ("Error updating dashboard stats: " +:+ e));;
            log print_exc).

(** [for item in items: present_users.add(item['user_id'])], lines 315-317 *)
Fixpoint collect_user_ids (items : list item) : reply (list attr) :=
  match items with
  | [] => Returns []
  | it :: rest =>
      match getitem it "user_id" with
      | Raises e => Raises e
      | Returns u =>
          match collect_user_ids rest with
          | Raises e => Raises e
          | Returns us => Returns (u :: us)
          end
      end
  end.

(** [update_dashboard_stats()], lines 297-352. *)
Definition update_dashboard_stats : M unit :=
  try_except
    (user_count ← call (scan_count USERS_TABLE);
     t ← now;
     items ← call (scan ATTENDANCE_TABLE (Some (strftime_ymd t)));
     present_users ← lift (collect_user_ids items);
     let present_count := py_set_len E present_users in
     let absent_count := Z.max 0 (user_count - Z.of_nat present_count) in
     log (config card_total_users [("text", OText (pretty user_count))]);;
     log (config card_present_today [("text", OText (pretty present_count))]);;
     log (config card_absent_today [("text", OText (pretty absent_count))]);;
     log (config card_attendance_rate
            [("text", OText (attendance_rate_text present_count user_count))]))
    update_dashboard_stats_except;;
  log (after 60000 cb_update_dashboard_stats).

(** The [except] clause of [register_user], lines 1546-1552. *)
Definition register_user_except (e : exn) : M unit :=
  log (config register_status [("text", OText ("Error: " +:+ e))]);;
  if_debug (log (print ("Registration error details: " +:+ e));; log print_exc).

(** The [try] block of [register_user], lines 1421-1544, for the stripped
    form fields and the captured image. *)
Definition register_user_try
    (user_id name email department : string) (img : image) : M unit :=
  let img_bytes := imencode_jpg L img in
  slider ← get quality_threshold;
  let quality_threshold := py_int (scale_value slider) in
  if_debug
    (log (print ("Sending image to AWS Rekognition (size: "
                 +:+ pretty (String.length img_bytes) +:+ " bytes)"));;
     log (print ("Quality threshold: " +:+ pretty quality_threshold +:+ "%")));;
  response ← call (get_item USERS_TABLE user_id);
  match response with
  | Some _ =>
      log (config register_status
             [("text", OText ("User ID " +:+ user_id +:+ " already exists"))])
  | None =>
  face_details ← detect_faces_in_image img;
  match face_details with
  | [] =>
      log (config register_status
             [("text", OText "No face detected in the image. Please try again.")]);;
      if_debug (log (print "No faces detected in the image"))
  | face :: more =>
  match more with
  | _ :: _ =>
    log (config register_status
           [("text", OText "Multiple faces detected. Please use an image with only one face.")]);;
    if_debug (log (print ("Multiple faces detected: "
                          +:+ pretty (length face_details))))
  | [] =>
  go_on ← (if low_quality face then
             ask_yes_no "Low Quality Face"
               ("The face image has low quality " +:+ quality_text face +:+ "."
                +:+ LF
                +:+ "This may affect recognition accuracy. Continue anyway?")
           else ret true);
  if negb go_on then ret tt else
  let quality_filter := quality_filter_of quality_threshold in
  rekognition_response ←
    call (index_faces COLLECTION_ID img_bytes user_id ["ALL"] quality_filter);
  if_debug (log (print ("Rekognition response: "
                        +:+ json_dumps_records E rekognition_response)));;
  match rekognition_response with
  | [] =>
      log (config register_status
             [("text", OText "No face detected or face quality too low. Please try again.")]);;
      if_debug (log (print "No faces indexed by Rekognition"))
  | record :: _ =>
  let face_id := FaceId record in
  let confidence_decimal := Decimal (str_float L (Confidence record)) in
  if_debug (log (print ("Face detected with confidence: "
                        +:+ str_float L (float_of_decimal L confidence_decimal)
                        +:+ "%, Face ID: " +:+ face_id)));;
  t ← now;
  call (put_item USERS_TABLE
          (list_to_map
             [("user_id", AStr user_id); ("name", AStr name);
              ("email", AStr email); ("department", AStr department);
              ("face_id", AStr face_id); ("confidence", ANum confidence_decimal);
              ("created_at", AStr (isoformat t))]));;
  modify (set_register_user_id "");;
  modify (set_register_name "");;
  modify (set_register_email "");;
  modify (set_register_department "");;
  reset_register_image;;
  log (showinfo "Success" ("User " +:+ name +:+ " registered successfully!"));;
  load_users;;
  update_dashboard_stats
  end end end end.

(** [register_user()], lines 1405-1552. *)
Definition register_user : M unit :=
  user_id ← get (fun s => str_strip L (register_user_id s));
  name ← get (fun s => str_strip L (register_name s));
  email ← get (fun s => str_strip L (register_email s));
  department ← get (fun s => str_strip L (register_department s));
  if bool_decide (user_id = "") || bool_decide (name = "")
     || bool_decide (email = "") || bool_decide (department = "") then
    log (config register_status [("text", OText "Please fill in all fields")])
  else
  captured ← get register_captured_image;
  match captured with
  | None =>
      log (config register_status [("text", OText "Please capture an image first")])
  | Some img =>
      try_except (register_user_try user_id name email department img)
        register_user_except
  end.

(** The first match whose face carries the user's identifier, lines
    1598-1602; a match without the field raises [KeyError]. *)
Fixpoint find_user_match (user_id : string) (matches : list face_match) :
    reply (option face_match) :=
  match matches with
  | [] => Returns None
  | m :: rest =>
      match ExternalImageId m with
      | None => Raises "'ExternalImageId'"
      | Some u =>
          if bool_decide (u = user_id) then Returns (Some m)
          else find_user_match user_id rest
      end
  end.

(** [m['Face']['ExternalImageId']] *)
Definition external_image_id (m : face_match) : reply string :=
  match ExternalImageId m with
  | Some u => Returns u
  | None => Raises "'ExternalImageId'"
  end.

(** [f"{float(Decimal(str(x))):.2f}%"] of a similarity *)
Definition percent_2f (d : decimal) : string :=
  format_f L 2 (float_of_decimal L d) +:+ "%".

(** The [except] clause of [verify_face], lines 1651-1657. *)
Definition verify_face_except (e : exn) : M unit :=
  log (config verify_results
         [("text", OText ("Error: " +:+ e)); ("foreground", OText "red")]);;
  if_debug (log (print ("Verification error: " +:+ e));; log print_exc).

(** The [try] block of [verify_face], lines 1566-1649. *)
Definition verify_face_try (user_id : string) (img : image) : M unit :=
  let img_bytes := imencode_jpg L img in
  if_debug
    (log (print ("Sending image to AWS Rekognition for verification (size: "
                 +:+ pretty (String.length img_bytes) +:+ " bytes)")));;
  face_details ← detect_faces_in_image img;
  match face_details with
  | [] =>
      log (config verify_results
             [("text", OText "No face detected in the image. Please try again.")])
  | _ :: more =>
  match more with
  | _ :: _ =>
    log (config verify_results
           [("text", OText "Multiple faces detected. Please use an image with only one face.")])
  | [] =>
  search_response ← call (search_faces_by_image COLLECTION_ID img_bytes 10 50);
  if_debug (log (print ("Search response: "
                        +:+ json_dumps_matches E search_response)));;
  user_match ← lift (find_user_match user_id search_response);
  match user_match with
  | Some m =>
      let confidence_decimal := Decimal (str_float L (Similarity m)) in
      user_response ← call (get_item USERS_TABLE user_id);
      match user_response with
      | Some user =>
          let name := default (AStr "Unknown") (user !! "name") in
          if negb (float_lt (float_of_decimal L confidence_decimal) 80) then
            log (config verify_results
                   [("text", OText (" VERIFIED: " +:+ py_str name +:+ " ("
                                    +:+ user_id +:+ ")" +:+ LF +:+ "Confidence: "
                                    +:+ percent_2f confidence_decimal));
                    ("foreground", OText "green")])
          else
            log (config verify_results
                   [("text", OText (" POSSIBLE MATCH: " +:+ py_str name +:+ " ("
                                    +:+ user_id +:+ ")" +:+ LF +:+ "Confidence: "
                                    +:+ percent_2f confidence_decimal));
                    ("foreground", OText "orange")])
      | None =>
          log (config verify_results
                 [("text", OText (" User data not found for " +:+ user_id +:+ LF
                                  +:+ "Match confidence: "
                                  +:+ percent_2f confidence_decimal));
                  ("foreground", OText "orange")])
      end
  | None =>
      log (config verify_results
             [("text", OText (" NOT VERIFIED: No match found for " +:+ user_id));
              ("foreground", OText "red")]);;
      match search_response with
      | [] => ret tt
      | other_match :: _ =>
          other_id ← lift (external_image_id other_match);
          let other_confidence_decimal :=
            Decimal (str_float L (Similarity other_match)) in
          log (config verify_results
                 [("text", OText (" NOT VERIFIED: No match found for " +:+ user_id
                                  +:+ LF +:+ LF +:+ "Possible match with "
                                  +:+ other_id +:+ " ("
                                  +:+ percent_2f other_confidence_decimal +:+ ")"));
                  ("foreground", OText "red")])
      end
  end
  end end.

(** [verify_face()], lines 1555-1657. *)
Definition verify_face : M unit :=
  captured ← get verify_captured_image;
  match captured with
  | None => log (showinfo "Info" "Please capture or load an image first")
  | Some img =>
      user_id ← get (fun s => combo_text (verify_user_id s));
      if bool_decide (user_id = "") then
        log (showinfo "Info" "Please select a user to verify against")
      else
        try_except (verify_face_try user_id img) verify_face_except
  end.

(** The [except] clause of [process_attendance], lines 1835-1847. *)
Definition process_attendance_except (e : exn) : M unit :=
  log (destroy processing_label);;
  log (Label results_frame ("Error processing attendance: " +:+ e));;
  if_debug (log (print ("Attendance processing error: " +:+ e));; log print_exc).

(** The record [process_attendance] writes, lines 1776-1782. *)
Definition attendance_record
    (user_id : string) (name : attr) (t : datetime) (confidence : decimal) : item :=
  list_to_map
    [("user_id", AStr user_id); ("name", name);
     ("timestamp", AStr (isoformat t));
     ("status", AStr (attendance_status (hour t)));
     ("confidence", ANum confidence)].

(** The [try] block of [process_attendance], lines 1673-1833. *)
Definition process_attendance_try (img : image) : M unit :=
  let img_bytes := imencode_jpg L img in
  if_debug
    (log (print ("Sending image to AWS Rekognition for face search (size: "
                 +:+ pretty (String.length img_bytes) +:+ " bytes)")));;
  slider ← get match_threshold;
  let match_threshold := py_int (scale_value slider) in
  face_details ← detect_faces_in_image img;
  match face_details with
  | [] =>
      log (destroy processing_label);;
      log (Label results_frame "No face detected in the image");;
      log (Label results_frame "Please capture a clear image with a face.")
  | _ :: _ =>
  search_response ←
    call (search_faces_by_image COLLECTION_ID img_bytes 1 match_threshold);
  if_debug (log (print ("Search response: "
                        +:+ json_dumps_matches E search_response)));;
  log (destroy processing_label);;
  match search_response with
  | [] =>
      log (Label results_frame "No matching face found");;
      log (Label results_frame "This person is not registered in the system.");;
      log (Button results_frame "Register New User" cb_select_register_tab)
  | m :: _ =>
  user_id ← lift (external_image_id m);
  let confidence_decimal := Decimal (str_float L (Similarity m)) in
  if_debug (log (print ("Match found: User ID: " +:+ user_id +:+ ", Confidence: "
                        +:+ str_float L (float_of_decimal L confidence_decimal)
                        +:+ "%")));;
  user_response ← call (get_item USERS_TABLE user_id);
  match user_response with
  | None => log (Label results_frame "Error: User data not found")
  | Some user =>
  t ← now;
  let status := attendance_status (hour t) in
  name ← lift (getitem user "name");
  call (put_item ATTENDANCE_TABLE
          (attendance_record user_id name t confidence_decimal));;
  if_debug (log (print ("Attendance recorded for " +:+ py_str name
                        +:+ " with status: " +:+ status)));;
  log (Frame results_frame status_frame);;
  log (Label status_frame (str_upper status));;
  log (Label status_frame ("at " +:+ strftime_hms t));;
  log (Frame results_frame info_frame);;
  log (Label info_frame "Name:");;
  log (Label info_frame (py_str name));;
  log (Label info_frame "User ID:");;
  log (Label info_frame user_id);;
  log (Label info_frame "Department:");;
  department ← lift (getitem user "department");
  log (Label info_frame (py_str department));;
  log (Label info_frame "Confidence:");;
  log (Label info_frame (percent_2f confidence_decimal));;
  log (Label results_frame "Attendance recorded successfully!");;
  log (Button results_frame "Record Another" cb_reset_attendance);;
  update_dashboard_stats
  end end end.

(** [process_attendance()], lines 1660-1847. *)
Definition process_attendance : M unit :=
  captured ← get attendance_captured_image;
  match captured with
  | None => ret tt
  | Some img =>
      log (destroy_children results_frame);;
      log (Label results_frame "Processing...");;
      log update;;
      try_except (process_attendance_try img) process_attendance_except
  end.

(** The time cell of an attendance record, lines 2049-2057 and 2116-2124. *)
Definition formatted_time (record : item) : attr :=
  let timestamp := default (AStr "") (record !! "timestamp") in
  if truthy timestamp then
    match timestamp with
    | AStr s =>
        match fromisoformat E s with
        | Some t => AStr (strftime_hms t)
        | None => timestamp
        end
    | _ => timestamp
    end
  else AStr "".

(** The confidence cell, lines 2060-2064 and 2127-2131: a Decimal goes
    through [float]; an absent one is the integer [0]; a bool is formatted as
    the integer it is; [format] raises on a string and on [None]. *)
Definition confidence_display (record : item) : reply string :=
  match record !! "confidence" with
  | None => Returns "0.00%"
  | Some (ANum d) => Returns (percent_2f d)
  | Some (ABool b) => Returns (if b then "1.00%" else "0.00%")
  | Some (AStr _) => Raises "Unknown format code 'f' for object of type 'str'"
  | Some ANull => Raises "unsupported format string passed to NoneType.__format__"
  end.

(** The row [load_attendance_report] inserts for a record, lines 2067-2073. *)
Definition attendance_row (record : item) (confidence : string) : row :=
  [ default (AStr "") (record !! "user_id");
    default (AStr "") (record !! "name");
    formatted_time record;
    default (AStr "") (record !! "status");
    AStr confidence ].

(** The user identifiers of the records of one status, lines 2027-2034. *)
Definition users_with_status (status : string) (records : list item) : list attr :=
  List.map (fun record => default ANull (record !! "user_id"))
    (List.filter
       (fun record => bool_decide (record !! "status" = Some (AStr status)))
       records).

(** The [except] clause of [load_attendance_report], lines 2075-2081. *)
Definition load_attendance_report_except (e : exn) : M unit :=
  log (showerror "Error" ("Failed to load attendance report: " +:+ e));;
  if_debug (log (print ("Error loading attendance report: " +:+ e));;
            log print_exc).

(** The [try] block of [load_attendance_report], lines 1999-2073. *)
Definition load_attendance_report_try : M unit :=
  date_str ← get report_date_var;
  if negb (strptime_ymd E date_str) then
    log (showerror "Error" "Invalid date format. Please use YYYY-MM-DD")
  else
  records ← call (scan ATTENDANCE_TABLE (Some date_str));
  all_users ← call (scan USERS_TABLE None);
  let present_count := py_set_len E (users_with_status "present" records) in
  let late_count := py_set_len E (users_with_status "late" records) in
  let total_users := length all_users in
  let absent_count :=
    (Z.of_nat total_users - Z.of_nat present_count - Z.of_nat late_count)%Z in
  log (config report_present_card [("text", OText (pretty present_count))]);;
  log (config report_late_card [("text", OText (pretty late_count))]);;
  log (config report_absent_card [("text", OText (pretty absent_count))]);;
  for_each records (fun record =>
    confidence ← lift (confidence_display record);
    rows ← get attendance_table;
    modify (set_attendance_table (rows ++ [attendance_row record confidence]))).

(** [load_attendance_report()], lines 1993-2081. *)
Definition load_attendance_report : M unit :=
  modify (set_attendance_table []);;
  try_except load_attendance_report_try load_attendance_report_except.

(** The text [export_attendance_report] appends for a record, lines
    2133-2134. *)
Definition csv_line (record : item) (confidence : string) : string :=
  py_str (default (AStr "") (record !! "user_id")) +:+ ","
  +:+ py_str (default (AStr "") (record !! "name")) +:+ ","
  +:+ py_str (formatted_time record) +:+ ","
  +:+ py_str (default (AStr "") (record !! "status")) +:+ ","
  +:+ confidence.

(** The loop over the records, lines 2114-2134: the text it appends to the
    header line, or the exception the first bad record raises. *)
Fixpoint csv_rows (records : list item) : reply string :=
  match records with
  | [] => Returns ""
  | record :: rest =>
      match confidence_display record with
      | Raises e => Raises e
      | Returns confidence =>
          match csv_rows rest with
          | Raises e => Raises e
          | Returns tail => Returns (csv_line record confidence +:+ LF +:+ tail)
          end
      end
  end.

(** The [except] clause of [export_attendance_report], lines 2142-2148. *)
Definition export_attendance_report_except (e : exn) : M unit :=
  log (showerror "Error" ("Failed to export report: " +:+ e));;
  if_debug (log (print ("Error exporting report: " +:+ e));; log print_exc).

(** The [try] block of [export_attendance_report], lines 2085-2140.
    [open(file_path, 'w')], line 2137, makes the file or empties it, or
    raises; [open_file] is logged when it went through.  [f.write] and the
    close at the end of the [with] block, line 2138, then put the text in the
    file, or raise with the file left as far as it was written: [write_file] is
    logged when they went through. *)
Definition export_attendance_report_try : M unit :=
  date_str ← get report_date_var;
  records ← call (scan ATTENDANCE_TABLE (Some date_str));
  match records with
  | [] => log (showinfo "Info" "No records to export")
  | _ :: _ =>
  n ← next_tick;
  log (asksaveasfilename ("attendance_" +:+ date_str +:+ ".csv"));;
  let file_path := operator_path E n in
  if bool_decide (file_path = "") then ret tt else
  rows ← lift (csv_rows records);
  let csv_content := CSV_HEADER +:+ LF +:+ rows in
  k ← next_tick;
  lift (file_opens E k);;
  log (open_file file_path);;
  j ← next_tick;
  lift (file_written E j);;
  log (write_file file_path csv_content);;
  log (showinfo "Success" ("Report exported to " +:+ file_path))
  end.

(** [export_attendance_report()], lines 2083-2148. *)
Definition export_attendance_report : M unit :=
  try_except export_attendance_report_try export_attendance_report_except.

(** * The camera *)

(** [cv2.VideoCapture(index)] *)
Definition open_capture (index : Z) : M capture :=
  n ← next_tick;
  log (VideoCapture index);;
  opened ← lift (camera_opens E n index);
  ret {| capture_index := index; isOpened := opened |}.

(** [self.camera.read()]: a frame, or [None] when [ret] is false *)
Definition read_camera : M (option image) :=
  n ← next_tick;
  log camera_read;;
  lift (camera_frame E n).

(** [self.camera.release(); self.camera = None] *)
Definition release_camera : M unit :=
  log camera_release;;
  modify (set_camera None).

(** The three buttons of a display label: the start button and the capture
    button of its tab, lines 1077-1100 and 1130-1144. *)
Definition start_button (display_label : widget) : widget :=
  if bool_decide (display_label = register_camera_label)
  then register_start_camera_btn
  else if bool_decide (display_label = attendance_camera_label)
  then attendance_start_camera_btn
  else verify_start_camera_btn.

Definition capture_button (display_label : widget) : widget :=
  if bool_decide (display_label = register_camera_label)
  then register_capture_btn
  else if bool_decide (display_label = attendance_camera_label)
  then attendance_capture_btn
  else verify_capture_btn.

Definition tab_label (display_label : widget) : widget :=
  if bool_decide (display_label = register_camera_label)
  then register_camera_label
  else if bool_decide (display_label = attendance_camera_label)
  then attendance_camera_label
  else verify_camera_label.

Definition tab_name (display_label : widget) : string :=
  if bool_decide (display_label = register_camera_label) then "Register"
  else if bool_decide (display_label = attendance_camera_label) then "Attendance"
  else "Verification".

(** [threading.Thread(target=self.update_camera, args=(display_label,))],
    made a daemon and started, lines 1103-1105. *)
Definition spawn_camera_thread (display_label : widget) : M unit :=
  running ← get threads;
  let id := length running in
  modify (set_threads
            (running ++ [{| thread_label := display_label; is_alive := true;
                            frame_count := 0 |}]));;
  modify (set_camera_thread (Some id));;
  log (Thread_start id).

(** The [except] clause of [start_camera], lines 1107-1116. *)
Definition start_camera_except (e : exn) : M unit :=
  log (showerror "Camera Error" ("Error starting camera: " +:+ e));;
  if_debug (log (print ("Camera error details: " +:+ e));; log print_exc);;
  cam ← get camera;
  match cam with
  | Some _ => release_camera
  | None => ret tt
  end.

(** The [try] block of [start_camera], lines 1050-1105. *)
Definition start_camera_try (display_label : widget) : M unit :=
  first ← open_capture 0;
  modify (set_camera (Some first));;
  (if isOpened first then ret tt else
     if_debug (log (print "Camera index 0 failed, trying index 1..."));;
     second ← open_capture 1;
     modify (set_camera (Some second)));;
  cam ← get camera;
  if negb (from_option isOpened false cam) then
    log (showerror "Error"
           "Could not open camera. Please check your camera connection.")
  else
  test_frame ← read_camera;
  match test_frame with
  | None =>
      log (showerror "Error"
             "Camera opened but could not read frames. Please check your camera.");;
      release_camera
  | Some frame =>
      if_debug (log (print ("Camera initialized successfully. Frame size: "
                            +:+ shape_text L frame)));;
      modify (set_is_camera_running true);;
      log (config (start_button display_label)
             [("text", OText "Stop Camera");
              ("command", OCommand (cb_stop_camera (tab_label display_label)))]);;
      log (config (capture_button display_label) [("state", OText "normal")]);;
      if_debug (log (print (tab_name display_label
                            +:+ " capture button enabled")));;
      spawn_camera_thread display_label
  end.

(** [start_camera(display_label)], lines 1045-1116. *)
Definition start_camera (display_label : widget) : M unit :=
  running ← get is_camera_running;
  if running then ret tt else
  try_except (start_camera_try display_label) start_camera_except.

(** [stop_camera], up to the join: line 1119. *)
Definition stop_camera_begin : M unit :=
  modify (set_is_camera_running false).

(** [stop_camera], after the join: lines 1125-1144. *)
Definition stop_camera_finish (display_label : widget) : M unit :=
  cam ← get camera;
  match cam with
  | Some _ => release_camera
  | None => ret tt
  end;;
  log (config (start_button display_label)
         [("text", OText "Start Camera");
          ("command", OCommand (cb_start_camera (tab_label display_label)))]);;
  log (config (capture_button display_label) [("state", OText "disabled")]).

(** [update_camera_display(display_label, imgtk)], lines 1202-1205: what the
    interface thread runs when it comes to the posted callback. *)
Definition update_camera_display (display_label : widget) (imgtk : photo) : M unit :=
  log (config display_label [("image", OImage (Some imgtk))]).

(** A call of OpenCV, Pillow or ImageTk on a frame. *)
Definition image_op : M unit :=
  n ← next_tick;
  lift (image_call E n).

(** [img.resize(size, Image.LANCZOS)], line 1222: Pillow raises [ValueError]
    for a size that is not positive. *)
Definition img_resize (size : Z * Z) : M unit :=
  if (size.1 <? 1)%Z || (size.2 <? 1)%Z
  then raise "height and width must be > 0"
  else image_op.

(** One pass through the [try] block of the loop of [update_camera], lines
    1152-1190, with the thread's frame counter: the new counter, or [None]
    on [break].  The frame goes through [cv2.cvtColor], [Image.fromarray],
    [resize_image] when the display label has a size, and
    [ImageTk.PhotoImage], each of which can raise. *)
Definition update_camera_try (display_label : widget) (count : nat) :
    M (option nat) :=
  got ← read_camera;
  match got with
  | Some frame =>
      modify (set_current_frame (Some frame));;
      image_op;;
      image_op;;
      n ← next_tick;
      let '(display_width, display_height) := winfo_size E n in
      resized ←
        (if (1 <? display_width)%Z && (1 <? display_height)%Z then
           size ← lift (resize_image L (image_size L frame)
                           display_width display_height);
           img_resize size;;
           ret (Some size)
         else ret None);
      image_op;;
      let imgtk := {| photo_of := frame; resized_to := resized |} in
      log (after_idle (cb_update_camera_display display_label imgtk));;
      (if bool_decide (display_label = register_camera_label)
          && (count mod 10 =? 0)%nat
       then log (after_idle (cb_check_face_in_image frame face_detected_label))
       else ret tt);;
      let count' := S count in
      debugging ← get debug_mode_var;
      (if (count' mod 30 =? 0)%nat && debugging then
         k ← next_tick;
         log (print ("Camera FPS: " +:+ fps_text E k))
       else ret tt);;
      ret (Some count')
  | None =>
      if_debug (log (print "Failed to read frame from camera"));;
      ret None
  end.

(** The [except] clause inside the loop, lines 1192-1196. *)
Definition update_camera_except (e : exn) : M (option nat) :=
  if_debug (log (print ("Error in camera thread: " +:+ e)));;
  ret None.

(** Leaving the loop, lines 1198-1200; the thread is then finished. *)
Definition update_camera_exit (id : nat) : M unit :=
  if_debug (log (print "Camera thread stopped"));;
  modify (fun s =>
    set_threads
      (alter (fun th => {| thread_label := thread_label th; is_alive := false;
                           frame_count := frame_count th |}) id (threads s))
      s).

(** One turn of the loop of [update_camera] in thread [id], from the test of
    the [while] to the next test, lines 1150-1200. *)
Definition update_camera_turn (id : nat) : M unit :=
  running ← get threads;
  match running !! id with
  | None => ret tt
  | Some th =>
      if negb (is_alive th) then ret tt else
      flag ← get is_camera_running;
      cam ← get camera;
      if flag && bool_decide (is_Some cam) then
        next ← try_except (update_camera_try (thread_label th) (frame_count th))
                 update_camera_except;
        match next with
        | Some count' =>
            modify (fun s =>
              set_threads
                (alter (fun th => {| thread_label := thread_label th;
                                     is_alive := is_alive th;
                                     frame_count := count' |})
                   id (threads s))
                s)
        | None => update_camera_exit id
        end
      else update_camera_exit id
  end.

(** [update_camera] in thread [id], run for at most [turns] turns of its
    loop. *)
Fixpoint update_camera (turns : nat) (id : nat) : M unit :=
  match turns with
  | O => ret tt
  | S turns' => update_camera_turn id;; update_camera turns' id
  end.

End callbacks.

(** * The interface thread and the camera threads together

    The interface thread runs one callback at a time.  [stop_camera] waits in
    [join(timeout=1.0)] (line 1123) when the last thread started is still
    alive; the join returns when that thread has finished, or on its timeout
    with the thread still running.  A camera thread takes its turns of the
    loop at any moment. *)
Inductive ui_state :=
| Idle
| Joining (display_label : widget).

Record system := {
  the_app : app;
  ui : ui_state;
}.

Inductive action :=
| Start (display_label : widget)
| Stop (display_label : widget)
| JoinReturns (timed_out : bool)
| Turn (id : nat).

(** [self.camera_thread and self.camera_thread.is_alive()], line 1122 *)
Definition camera_thread_alive (s : app) : bool :=
  match camera_thread s with
  | Some id => from_option is_alive false (threads s !! id)
  | None => false
  end.

(** The system after an action, when the action can happen. *)
Definition perform (L : pylib) (E : env) (a : action) (sys : system) :
    option system :=
  match a, ui sys with
  | Start display_label, Idle =>
      Some {| the_app := (start_camera L E display_label (the_app sys)).2;
              ui := Idle |}
  | Stop display_label, Idle =>
      Some {| the_app := (stop_camera_begin (the_app sys)).2;
              ui := Joining display_label |}
  | JoinReturns timed_out, Joining display_label =>
      if bool_decide (timed_out = camera_thread_alive (the_app sys)) then
        Some {| the_app := (stop_camera_finish display_label (the_app sys)).2;
                ui := Idle |}
      else None
  | Turn id, _ =>
      Some {| the_app := (update_camera_turn L E id (the_app sys)).2;
              ui := ui sys |}
  | _, _ => None
  end.

Fixpoint run (L : pylib) (E : env) (acts : list action) (sys : system) :
    option system :=
  match acts with
  | [] => Some sys
  | a :: rest =>
      match perform L E a sys with
      | Some sys' => run L E rest sys'
      | None => None
      end
  end.

(** The camera threads that are running. *)
Definition alive_threads (s : app) : nat :=
  length (List.filter is_alive (threads s)).

Definition is_timeout (a : action) : bool :=
  match a with JoinReturns true => true | _ => false end.

(** * Kinds of events *)

(** A message box is on the screen. *)
Definition is_dialog (e : event) : bool :=
  match e with
  | showerror _ _ | showinfo _ _ | askyesno _ _ => true
  | _ => false
  end.

Definition is_print (e : event) : bool :=
  match e with print _ | print_exc => true | _ => false end.

Definition is_request (e : event) : bool :=
  match e with Request _ _ => true | _ => false end.

(** A request that changes the face collection or a table. *)
Definition is_mutation (e : event) : bool :=
  match e with
  | Request _ (index_faces _ _ _ _ _) | Request _ (put_item _ _)
  | Request _ (create_table _) | Request _ (create_collection _) => true
  | _ => false
  end.

Definition is_create_table (e : event) : option table_spec :=
  match e with Request _ (create_table spec) => Some spec | _ => None end.

(** The event changes a widget: an option set, a child made or destroyed. *)
Definition is_widget_change (e : event) : bool :=
  match e with
  | config _ _ | Label _ _ | Button _ _ _ | Frame _ _ | destroy _
  | destroy_children _ => true
  | _ => false
  end.

(** The lines of a text: the pieces between its line feeds. *)
Fixpoint lines_from (current : string) (s : string) : list string :=
  match s with
  | EmptyString => [current]
  | String c rest =>
      if bool_decide (c = "010"%char) then current :: lines_from "" rest
      else lines_from (current +:+ String c "") rest
  end.

Definition lines (s : string) : list string := lines_from "" s.

Fixpoint has_line_feed (s : string) : bool :=
  match s with
  | EmptyString => false
  | String c rest => bool_decide (c = "010"%char) || has_line_feed rest
  end.

(** * Sample objects and a sample world, for concrete runs *)

(** [(1.5,)] and [{1.5: "a"}] *)
Definition tuple_with_float : pyval := PyTuple [PyFloat (3 # 2)].

Definition dict_with_float_key : pyval := PyDict [(PyFloat (3 # 2), PyStr "a")].

(** [{"Confidence": 99.5, "Faces": [{"Similarity": 87.25}, None]}] *)
Definition json_response : pyval :=
  PyDict [(PyStr "Confidence", PyFloat (199 # 2));
          (PyStr "Faces",
           PyList [PyDict [(PyStr "Similarity", PyFloat (349 # 4))]; PyNone])].

(** A stand-in for the library: the concrete runs below do not depend on what
    it prints. *)
Definition sample_lib : pylib :=
  {| str_float := fun x => pretty (Qnum x) +:+ "/" +:+ pretty (Z.pos (Qden x));
     float_of_decimal := fun _ => 50%Q;
     format_f := fun _ x => pretty (py_int x);
     str_decimal := fun d => match d with Decimal text => text end;
     bool_of_decimal := fun _ => true;
     float_div := Qdiv;
     float_mul := Qmult;
     str_strip := fun s => s;
     imencode_jpg := fun img => img;
     shape_text := fun _ => "(480, 640, 3)";
     image_size := fun _ => (640, 480)%Z |}.

(** A service with nothing in it, which answers every request. *)
Definition empty_service (A : Type) (n : nat) (r : request A) : reply A :=
  match r in request T return reply T with
  | tables_all => Returns []
  | create_table _ => Returns tt
  | wait_table_exists _ => Returns tt
  | list_collections => Returns []
  | create_collection _ => Returns tt
  | detect_faces _ _ => Returns []
  | index_faces _ _ _ _ _ => Returns []
  | search_faces_by_image _ _ _ _ => Returns []
  | get_item _ _ => Returns None
  | put_item _ _ => Returns tt
  | scan _ _ => Returns []
  | scan_count _ => Returns 0%Z
  end.

(** A service that cannot be reached. *)
Definition unreachable_service (A : Type) (n : nat) (r : request A) : reply A :=
  Raises "Could not connect to the endpoint URL".

(** Ten past ten on the second of May 2024. *)
Definition morning : datetime :=
  {| year := 2024; month := 5; day := 2; hour := 10; minute := 10; second := 0;
     microsecond := 0 |}.

(** A world around a service: the operator agrees and saves to
    [report.csv]; the disk takes the file; the camera opens and delivers
    frames; a date is accepted when it is [2024-05-02]. *)
Definition sample_env (service : forall A : Type, nat -> request A -> reply A) : env :=
  {| answer := service;
     clock := fun _ => morning;
     operator_yes := fun _ => true;
     operator_path := fun _ => "report.csv";
     file_opens := fun _ => Returns tt;
     file_written := fun _ => Returns tt;
     camera_opens := fun _ _ => Returns true;
     camera_frame := fun _ => Returns (Some "frame");
     image_call := fun _ => Returns tt;
     winfo_size := fun _ => (640, 480)%Z;
     fps_text := fun _ => "30.0";
     py_sorted := fun l => Returns l;
     py_set_len := fun l => length (remove_dups l);
     fromisoformat := fun _ => None;
     strptime_ymd := fun s => bool_decide (s = "2024-05-02");
     json_dumps_records := fun _ => "{}";
     json_dumps_matches := fun _ => "{}" |}.

(** The application as [__init__] leaves it, lines 108-115, with the sliders
    and the report date the tabs set up. *)
Definition initial_app : app :=
  {| trace := []; tick := 0; debug_mode_var := false;
     register_user_id := ""; register_name := ""; register_email := "";
     register_department := "";
     quality_threshold := init_quality_threshold;
     register_captured_image := None;
     match_threshold := init_match_threshold;
     attendance_captured_image := None;
     verify_user_id := {| values := []; combo_text := "" |};
     verify_captured_image := None;
     users_table := []; attendance_table := [];
     report_date_var := "2024-05-02";
     is_camera_running := false; camera := None; current_frame := None;
     camera_thread := None; threads := [] |}.

(** The register form filled in, with a captured picture. *)
Definition filled_form : app :=
  set_register_captured_image (Some "picture")
    (set_register_user_id "u1"
       (set_register_name "Ada"
          (set_register_email "ada@example.org"
             (set_register_department "IT" initial_app)))).

(** * Judgements on callbacks *)

(** Whatever state satisfying [I] the callback starts in, it only adds events
    satisfying [P] to the log, and it keeps [I]. *)
Definition emits {A : Type} (I : app -> Prop) (P : event -> Prop) (m : M A) : Prop :=
  forall s, I s ->
    I (m s).2 /\ exists evs, trace (m s).2 = trace s ++ evs /\ Forall P evs.

(** [I] does not look at the log nor at the count of things asked. *)
Definition stable (I : app -> Prop) : Prop :=
  forall s, I s -> (forall t, I (set_trace t s)) /\ (forall n, I (set_tick n s)).

(** No exception leaves the callback. *)
Definition safe {A : Type} (m : M A) : Prop :=
  forall s, exists a, (m s).1 = Returns a.

(** The cap and the threshold of a face search request. *)
Definition search_arguments (e : event) : option (Z * Z) :=
  match e with
  | Request _ (search_faces_by_image _ _ MaxFaces FaceMatchThreshold) =>
      Some (MaxFaces, FaceMatchThreshold)
  | _ => None
  end.

(** The quality filter of a face indexing request. *)
Definition index_quality_filter (e : event) : option string :=
  match e with
  | Request _ (index_faces _ _ _ _ QualityFilter) => Some QualityFilter
  | _ => None
  end.

(** The record of a write to the attendance table. *)
Definition attendance_written (e : event) : option item :=
  match e with
  | Request _ (put_item table Item) =>
      if bool_decide (table = ATTENDANCE_TABLE) then Some Item else None
  | _ => None
  end.

(** A user's item, and a service that knows her: it sees one good face in
    every picture, matches it to her, and holds her item. *)
Definition ada : item :=
  list_to_map
    [("user_id", AStr "u1"); ("name", AStr "Ada"); ("email", AStr "ada@example.org");
     ("department", AStr "IT")].

Definition good_face : face_detail :=
  {| Brightness := Some 80%Q; Sharpness := Some 80%Q |}.

Definition one_user_service (A : Type) (n : nat) (r : request A) : reply A :=
  match r in request T return reply T with
  | tables_all => Returns [USERS_TABLE; ATTENDANCE_TABLE]
  | list_collections => Returns [COLLECTION_ID]
  | detect_faces _ _ => Returns [good_face]
  | index_faces _ _ _ _ _ => Returns [{| FaceId := "f-1"; Confidence := 99%Q |}]
  | search_faces_by_image _ _ _ _ =>
      Returns [{| Similarity := 95%Q; ExternalImageId := Some "u1" |}]
  | get_item _ user_id =>
      Returns (if bool_decide (user_id = "u1") then Some ada else None)
  | scan table _ =>
      Returns (if bool_decide (table = USERS_TABLE) then [ada] else [])
  | scan_count _ => Returns 1%Z
  | r => empty_service _ n r
  end.

(** A picture is there for the attendance tab. *)
Definition picture_taken : app :=
  set_attendance_captured_image (Some "picture") initial_app.

(** The register form filled in for a user the service does not know. *)
Definition new_user_form : app := set_register_user_id "u2" filled_form.

(** What [detect_faces_in_image] returns when its request is the [n]-th thing
    asked: the faces the service reports, or none when the request raises. *)
Definition detected (L : pylib) (E : env) (n : nat) (img : image) :
    list face_detail :=
  match answer E _ n (detect_faces (imencode_jpg L img) ["ALL"]) with
  | Returns faces => faces
  | Raises _ => []
  end.

(** The event sets the text of the register tab's status label. *)
Definition sets_register_status (e : event) : Prop :=
  exists text, e = config register_status [("text", OText text)].

(** An exception raised in a [try] block is caught by its [except] clause,
    which returns [result] after the events [shown], followed, when the debug
    toggle is on and only then, by the events [console]. *)
Definition reports_failure {A : Type} (f_try : M A) (f_except : exn -> M A)
    (result : A) (shown console : exn -> list event) : Prop :=
  forall s e s1, f_try s = (Raises e, s1) ->
    (try_except f_try f_except s).1 = Returns result
    /\ events_since s1 (try_except f_try f_except s).2
       = shown e ++ (if debug_mode_var s1 then console e else []).

(** A picture is there for the verification tab, and a user is selected. *)
Definition verify_ready : app :=
  set_verify_user_id {| values := [AStr "u1"]; combo_text := "u1" |}
    (set_verify_captured_image (Some "picture") initial_app).

(** The rows [load_attendance_report] has inserted when its loop ends: one
    per record, in order, up to the first record whose confidence cannot be
    formatted. *)
Fixpoint report_rows (L : pylib) (E : env) (records : list item) : list row :=
  match records with
  | [] => []
  | record :: rest =>
      match confidence_display L record with
      | Returns confidence =>
          attendance_row L E record confidence :: report_rows L E rest
      | Raises _ => []
      end
  end.

(** The confidence of the record can be formatted. *)
Definition formattable (L : pylib) (record : item) : Prop :=
  exists confidence, confidence_display L record = Returns confidence.

(** The report tab with a date that is none. *)
Definition bad_date : app := set_report_date_var "yesterday" initial_app.

(** The text of some lines, each ended by a line feed. *)
Fixpoint concat_lines (ls : list string) : string :=
  match ls with
  | [] => ""
  | l :: rest => l +:+ LF +:+ concat_lines rest
  end.

(** The confidence cells of some records, when each can be formatted. *)
Definition confidences (L : pylib) (records : list item) (cells : list string) : Prop :=
  Forall2 (fun record cell => confidence_display L record = Returns cell)
    records cells.

(** The content [export_attendance_report] writes for some records. *)
Definition csv_content (L : pylib) (E : env) (records : list item)
    (cells : list string) : string :=
  CSV_HEADER +:+ LF +:+ concat_lines (zip_with (csv_line L E) records cells).

(** An attendance record whose name holds a line feed, and a table store
    whose attendance table holds these records. *)
Definition two_line_name : item :=
  list_to_map
    [("user_id", AStr "u1"); ("name", AStr ("A" +:+ LF +:+ "B"));
     ("timestamp", AStr "10:10"); ("status", AStr "late")].

Definition report_service (records : list item)
    (A : Type) (n : nat) (r : request A) : reply A :=
  match r in request T return reply T with
  | scan table _ =>
      Returns (if bool_decide (table = ATTENDANCE_TABLE) then records else [])
  | r => empty_service _ n r
  end.

(** An attendance record as [process_attendance] writes it. *)
Definition ada_late : item :=
  attendance_record "u1" (AStr "Ada") morning (Decimal "95.5").

(** The run sent a request to create the table. *)
Definition creates (spec : table_spec) (evs : list event) : Prop :=
  exists e, In e evs /\ is_create_table e = Some spec.

(** A table store with no table, which refuses to create one. *)
Definition denied_service (A : Type) (n : nat) (r : request A) : reply A :=
  match r in request T return reply T with
  | create_table _ => Raises "AccessDeniedException"
  | r => empty_service _ n r
  end.

(** The only camera thread that may be running is the last one started, and
    none runs while the interface thread is between callbacks with the
    camera flag off. *)
Definition one_camera_thread (sys : system) : Prop :=
  (forall id th, threads (the_app sys) !! id = Some th -> is_alive th = true ->
     camera_thread (the_app sys) = Some id)
  /\ (ui sys = Idle -> is_camera_running (the_app sys) = false ->
      forall id th, threads (the_app sys) !! id = Some th -> is_alive th = false).

(** The application just built, the interface thread between callbacks. *)
Definition initial_system : system := {| the_app := initial_app; ui := Idle |}.

(** A session at the register tab: the camera started, two frames shown,
    the camera stopped with the thread leaving its loop during the join, and
    the camera started again. *)
Definition camera_session : list action :=
  [ Start register_camera_label; Turn 0; Turn 0;
    Stop register_camera_label; Turn 0; JoinReturns false;
    Start register_camera_label; Turn 1 ].

(** The same with a thread that does not come to the test of its loop in the
    second the join waits: the join returns on its timeout, the camera is
    started again, and then both threads take turns. *)
Definition stalled_camera_session : list action :=
  [ Start register_camera_label; Turn 0;
    Stop register_camera_label; JoinReturns true;
    Start register_camera_label; Turn 0; Turn 1 ].

(** * More of the program: searching the users, the size of a picture

    What the properties at the end of the file need besides the callbacks
    above: kinds of events, [search_users], [resize_image], and a few more
    worlds to run them in. *)

(** A float occurs at a place the conversion reaches: the object itself, an
    element of a list, a value of a dict, at any depth through lists and dict
    values. *)
Fixpoint has_reached_float (v : pyval) : bool :=
  match v with
  | PyFloat _ => true
  | PyList l => existsb has_reached_float l
  | PyDict kvs => existsb (fun kv => has_reached_float kv.2) kvs
  | _ => false
  end.

(** A request about the tables as a whole: the listing, a creation, a wait. *)
Definition is_table_request {A : Type} (q : request A) : bool :=
  match q with
  | tables_all | create_table _ | wait_table_exists _ => true
  | _ => false
  end.

(** The collections a request to create one names. *)
Definition is_create_collection (e : event) : option string :=
  match e with Request _ (create_collection id) => Some id | _ => None end.

(** The item [register_user] stores for a user, lines 1520-1528. *)
Definition user_record (user_id name email department face_id : string)
    (confidence : decimal) (t : datetime) : item :=
  list_to_map
    [("user_id", AStr user_id); ("name", AStr name);
     ("email", AStr email); ("department", AStr department);
     ("face_id", AStr face_id); ("confidence", ANum confidence);
     ("created_at", AStr (isoformat t))].

(** The table and the item of a write. *)
Definition written_item (e : event) : option (string * item) :=
  match e with
  | Request _ (put_item table Item) => Some (table, Item)
  | _ => None
  end.

(** The item has every key attribute of the table, as a string. *)
Definition has_key_attributes (spec : table_spec) (it : item) : bool :=
  forallb (fun key => match it !! key.1 with Some (AStr _) => true | _ => false end)
    (KeySchema spec)
  && forallb (fun key => bool_decide ((key.1, "S") ∈ AttributeDefinitions spec))
       (KeySchema spec).


(** A write goes to one of the two tables of the program, with the key
    attributes of that table. *)
Definition keyed (e : event) : Prop :=
  forall table it, written_item e = Some (table, it) ->
    exists spec,
      In spec [users_table_spec; attendance_table_spec]
      /\ TableName spec = table
      /\ has_key_attributes spec it = true.

(** A callback is scheduled with [after]. *)
Definition is_after (e : event) : bool :=
  match e with after _ _ => true | _ => false end.

(** The verdict label says the face is the selected user's. *)
Definition is_verified (e : event) : Prop :=
  exists text,
    e = config verify_results
          [("text", OText text); ("foreground", OText "green")].

(** A library that reads every stored similarity as 95. *)
Definition sure_lib : pylib :=
  {| str_float := str_float sample_lib;
     float_of_decimal := fun _ => 95%Q;
     format_f := format_f sample_lib;
     str_decimal := str_decimal sample_lib;
     bool_of_decimal := bool_of_decimal sample_lib;
     float_div := float_div sample_lib;
     float_mul := float_mul sample_lib;
     str_strip := str_strip sample_lib;
     imencode_jpg := imencode_jpg sample_lib;
     shape_text := shape_text sample_lib;
     image_size := image_size sample_lib |}.

(** The form of the register tab is filled in. *)
Definition form_filled (L : pylib) (s : app) : Prop :=
  str_strip L (register_user_id s) <> ""
  /\ str_strip L (register_name s) <> ""
  /\ str_strip L (register_email s) <> ""
  /\ str_strip L (register_department s) <> "".

(** A face in a poor light, its sharpness not measured. *)
Definition dim_face : face_detail :=
  {| Brightness := Some 20%Q; Sharpness := None |}.

(** A service that sees that face in every picture and knows nobody. *)
Definition dim_service (A : Type) (n : nat) (r : request A) : reply A :=
  match r in request T return reply T with
  | detect_faces _ _ => Returns [dim_face]
  | r => empty_service _ n r
  end.

(** The world [E] with another operator: the answers to the questions and
    the paths picked are the ones given. *)
Definition with_operator (yes : nat -> bool) (path : nat -> string) (E : env) :
    env :=
  {| answer := answer E;
     clock := clock E;
     operator_yes := yes;
     operator_path := path;
     file_opens := file_opens E;
     file_written := file_written E;
     camera_opens := camera_opens E;
     camera_frame := camera_frame E;
     image_call := image_call E;
     winfo_size := winfo_size E;
     fps_text := fps_text E;
     py_sorted := py_sorted E;
     py_set_len := py_set_len E;
     fromisoformat := fromisoformat E;
     strptime_ymd := strptime_ymd E;
     json_dumps_records := json_dumps_records E;
     json_dumps_matches := json_dumps_matches E |}.

(** An operator who declines, in front of the dim picture. *)
Definition wary_env : env :=
  with_operator (fun _ => false) (fun _ => "") (sample_env dim_service).

(** An operator who closes the file dialog, with one record to export. *)
Definition cancelling_env : env :=
  with_operator (fun _ => true) (fun _ => "")
    (sample_env (report_service [ada_late])).

(** [needle in hay] on strings *)
Fixpoint str_contains (needle hay : string) : bool :=
  String.prefix needle hay
  || match hay with
     | EmptyString => false
     | String _ rest => str_contains needle rest
     end.

(** [v.lower()] of an attribute value: only a string has the method. *)
Definition attr_lower (str_lower : string -> string) (v : attr) : reply string :=
  match v with
  | AStr s => Returns (str_lower s)
  | ANum _ => Raises "'decimal.Decimal' object has no attribute 'lower'"
  | ABool _ => Raises "'bool' object has no attribute 'lower'"
  | ANull => Raises "'NoneType' object has no attribute 'lower'"
  end.

(** The test of lines 1903-1906 on the fields in turn: [or] stops at the
    first field that holds the term. *)
Fixpoint term_in_fields (str_lower : string -> string) (search_term : string)
    (fields : list string) (user : item) : reply bool :=
  match fields with
  | [] => Returns false
  | field :: rest =>
      match attr_lower str_lower (default (AStr "") (user !! field)) with
      | Raises e => Raises e
      | Returns text =>
          if str_contains search_term text then Returns true
          else term_in_fields str_lower search_term rest user
      end
  end.

(** The fields the search looks into, in the order of lines 1903-1906. *)
Definition searched_fields : list string :=
  ["user_id"; "name"; "email"; "department"].

(** The [except] clause of [search_users], lines 1927-1933. *)
Definition search_users_except (e : exn) : M unit :=
  log (showerror "Error" ("Failed to search users: " +:+ e));;
  if_debug (log (print ("Error searching users: " +:+ e));; log print_exc).

(** The [try] block of [search_users], lines 1898-1925. *)
Definition search_users_try (L : pylib) (E : env)
    (str_lower : string -> string) (search_term : string) : M unit :=
  items ← call E (scan USERS_TABLE None);
  for_each items (fun user =>
    found ← lift (term_in_fields str_lower search_term searched_fields user);
    if found then
      rows ← get users_table;
      modify (set_users_table (rows ++ [user_row L E user]))
    else ret tt).

(** [search_users(event)], lines 1890-1933, for the text of the search entry;
    [str_lower] is [str.lower]. *)
Definition search_users (L : pylib) (E : env) (str_lower : string -> string)
    (user_search_entry : string) : M unit :=
  let search_term := str_lower user_search_entry in
  modify (set_users_table []);;
  try_except (search_users_try L E str_lower search_term) search_users_except.

(** The rows the loop of [search_users] inserts: those of the users that hold
    the term, up to the first user the test raises on. *)
Fixpoint search_rows (L : pylib) (E : env) (str_lower : string -> string)
    (search_term : string) (items : list item) : list row :=
  match items with
  | [] => []
  | user :: rest =>
      match term_in_fields str_lower search_term searched_fields user with
      | Returns true =>
          user_row L E user :: search_rows L E str_lower search_term rest
      | Returns false => search_rows L E str_lower search_term rest
      | Raises _ => []
      end
  end.

(** The fields a search looks at are strings, where the user has them. *)
Definition text_fields (user : item) : Prop :=
  Forall (fun field => exists text, default (AStr "") (user !! field) = AStr text)
    searched_fields.

(** The user holds the term in one of the fields, letter case apart. *)
Definition holds_term (str_lower : string -> string) (search_term : string)
    (user : item) : bool :=
  existsb (fun field =>
             match default (AStr "") (user !! field) with
             | AStr text => str_contains search_term (str_lower text)
             | _ => false
             end)
    searched_fields.

(** [str.lower] on ASCII letters, for the concrete runs. *)
Definition ascii_lower (c : ascii) : ascii :=
  let n := nat_of_ascii c in
  if (65 <=? n)%nat && (n <=? 90)%nat then ascii_of_nat (n + 32) else c.

(** The same on a string. *)
Fixpoint sample_lower (s : string) : string :=
  match s with
  | EmptyString => EmptyString
  | String c r => String (ascii_lower c) (sample_lower r)
  end.

(** A thread is started. *)
Definition is_thread_start (e : event) : bool :=
  match e with Thread_start _ => true | _ => false end.

(** An error box is on the screen. *)
Definition is_showerror (e : event) : bool :=
  match e with showerror _ _ => true | _ => false end.

(** The camera running for the register tab, its thread about to read its
    first frame. *)
Definition filming : app :=
  set_is_camera_running true
    (set_camera (Some {| capture_index := 0; isOpened := true |})
       (set_camera_thread (Some 0)
          (set_threads
             [{| thread_label := register_camera_label; is_alive := true;
                 frame_count := 0 |}]
             initial_app))).

(** The sample world with a display label 400 pixels wide and 40 high. *)
Definition low_label_env : env :=
  let E := sample_env empty_service in
  {| answer := answer E;
     clock := clock E;
     operator_yes := operator_yes E;
     operator_path := operator_path E;
     file_opens := file_opens E;
     file_written := file_written E;
     camera_opens := camera_opens E;
     camera_frame := camera_frame E;
     image_call := image_call E;
     winfo_size := fun _ => (400, 40)%Z;
     fps_text := fps_text E;
     py_sorted := py_sorted E;
     py_set_len := py_set_len E;
     fromisoformat := fromisoformat E;
     strptime_ymd := strptime_ymd E;
     json_dumps_records := json_dumps_records E;
     json_dumps_matches := json_dumps_matches E |}.

(** [y] is [x] up to the relative error [eps]. *)
Definition close_to (eps x y : Q) : Prop :=
  (Qabs (y - x) <= eps * Qabs x)%Q.

(** The largest dimension of an image or of a display considered. *)
Definition pixels : Z := 2 ^ 31.

(** Float arithmetic on the operands [resize_image] has: the quotient of two
    integers and the product of an integer and a float are the exact results
    up to a relative error [eps], rounding included. *)
Definition accurate_division (L : pylib) (eps : Q) : Prop :=
  forall a b : Z,
    (- pixels <= a <= pixels)%Z -> (0 < b <= pixels)%Z ->
    close_to eps (inject_Z a / inject_Z b)
      (float_div L (inject_Z a) (inject_Z b)).

(** The float is zero or of a size between [2^-40] and [2^40]: far from
    underflow and overflow. *)
Definition accurate_product (L : pylib) (eps : Q) : Prop :=
  forall (a : Z) (y : Q),
    (- pixels <= a <= pixels)%Z ->
    (y == 0 \/ (1 # 2 ^ 40) <= Qabs y <= inject_Z (2 ^ 40))%Q ->
    close_to eps (inject_Z a * y) (float_mul L (inject_Z a) y).

(** * Properties *)

(** ** [float_to_decimal] *)

Section pyval_induction.
Variable P : pyval -> Prop.
Hypothesis HNone : P PyNone.
Hypothesis HBool : forall b, P (PyBool b).
Hypothesis HInt : forall n, P (PyInt n).
Hypothesis HFloat : forall x, P (PyFloat x).
Hypothesis HStr : forall s, P (PyStr s).
Hypothesis HDecimal : forall d, P (PyDecimal d).
Hypothesis HList : forall l, Forall P l -> P (PyList l).
Hypothesis HTuple : forall l, Forall P l -> P (PyTuple l).
Hypothesis HSet : forall l, Forall P l -> P (PySet l).
Hypothesis HDict :
  forall kvs, Forall (fun kv => P kv.1 /\ P kv.2) kvs -> P (PyDict kvs).

Fixpoint pyval_nested_ind (v : pyval) : P v :=
  let all :=
    fix all (l : list pyval) : Forall P l :=
      match l with
      | [] => Forall_nil_2 P
      | x :: r => Forall_cons_2 P x r (pyval_nested_ind x) (all r)
      end in
  match v with
  | PyNone => HNone
  | PyBool b => HBool b
  | PyInt n => HInt n
  | PyFloat x => HFloat x
  | PyStr s => HStr s
  | PyDecimal d => HDecimal d
  | PyList l => HList l (all l)
  | PyTuple l => HTuple l (all l)
  | PySet l => HSet l (all l)
  | PyDict kvs =>
      HDict kvs
        ((fix both (l : list (pyval * pyval)) :
            Forall (fun kv => P kv.1 /\ P kv.2) l :=
            match l with
            | [] => Forall_nil_2 _
            | kv :: r =>
                Forall_cons_2 _ kv r
                  (conj (pyval_nested_ind kv.1) (pyval_nested_ind kv.2))
                  (both r)
            end) kvs)
  end.
End pyval_induction.

Lemma existsb_map_ext {A B : Type} (f : B -> bool) (g : A -> bool)
    (h : A -> B) (l : list A) :
  Forall (fun a => f (h a) = g a) l ->
  existsb f (List.map h l) = existsb g l.
Proof.
  induction 1 as [|a l Ha _ IH]; simpl; [reflexivity|].
  now rewrite Ha, IH.
Qed.

(** The output has a float exactly where the input has one out of the
    conversion's reach. *)
Lemma has_float_float_to_decimal (str : Q -> string) (obj : pyval) :
  has_float (float_to_decimal str obj) = has_unreached_float obj.
Proof.
  induction obj as [| | | | | |l IH|l IH|l IH|kvs IH] using pyval_nested_ind;
    simpl; try reflexivity.
  - apply existsb_map_ext. exact IH.
  - apply (existsb_map_ext
             (fun kv => has_float kv.1 || has_float kv.2)
             (fun kv => has_float kv.1 || has_unreached_float kv.2)).
    eapply Forall_impl; [exact IH|].
    intros [k v] [_ Hv]; simpl in *. now rewrite Hv.
Qed.

Lemma json_like_no_float_key (obj : pyval) :
  json_like obj = true -> has_unreached_float obj = false.
Proof.
  induction obj as [| | | | | |l IH|l IH|l IH|kvs IH] using pyval_nested_ind;
    simpl; try reflexivity; try discriminate.
  - intros Hall. induction IH as [|x l Hx _ IHl]; simpl in *; [reflexivity|].
    apply andb_prop in Hall as [H1 H2]. now rewrite Hx, IHl.
  - intros Hall. induction IH as [|[k v] l [_ Hv] _ IHl]; simpl in *;
      [reflexivity|].
    apply andb_prop in Hall as [H1 H2].
    apply andb_prop in H1 as [Hk Hj].
    rewrite Hv, IHl by assumption.
    destruct k; simpl in *; try discriminate; reflexivity.
Qed.

(** C1 (as amended).  [float_to_decimal] turns a float [x] into
    [Decimal(str(x))]; turns a dict into a dict with the same keys in the same
    order, each value converted; turns a list into a list of the same length
    whose elements are the converted elements, in order; and returns an
    object of any other type as it is.  Its output holds a float exactly when
    the input holds one inside a tuple, inside a set or in a dict key; an
    input that is JSON-like (scalars, lists, dicts with string keys) gives an
    output without any float. *)
Theorem float_to_decimal_spec (str : Q -> string) (obj : pyval) :
  (forall x, obj = PyFloat x ->
     float_to_decimal str obj = PyDecimal (Decimal (str x)))
  /\ (forall items, obj = PyDict items ->
        exists items',
          float_to_decimal str obj = PyDict items'
          /\ List.map fst items' = List.map fst items
          /\ List.map snd items' = List.map (float_to_decimal str) (List.map snd items))
  /\ (forall items, obj = PyList items ->
        exists items',
          float_to_decimal str obj = PyList items'
          /\ length items' = length items
          /\ forall i, items' !! i = float_to_decimal str <$> items !! i)
  /\ (is_float obj = false -> is_dict obj = false -> is_list obj = false ->
      float_to_decimal str obj = obj)
  /\ has_float (float_to_decimal str obj) = has_unreached_float obj
  /\ (json_like obj = true -> has_float (float_to_decimal str obj) = false).
Proof.
  repeat split.
  - intros x ->. reflexivity.
  - intros items ->. eexists. split; [reflexivity|].
    rewrite !List.map_map. split; reflexivity.
  - intros items ->. eexists. split; [reflexivity|].
    split; [apply List.length_map|].
    intros i. apply list_lookup_fmap.
  - destruct obj; simpl; intros; try reflexivity; discriminate.
  - apply has_float_float_to_decimal.
  - intros Hj. rewrite has_float_float_to_decimal.
    now apply json_like_no_float_key.
Qed.

(** The conversion of a JSON response: its floats become Decimals and
    nothing else changes. *)
Lemma float_to_decimal_spec_witness :
  json_like json_response = true
  /\ has_float (float_to_decimal (fun _ => "99.5") json_response) = false.
Proof.
  split; [reflexivity|].
  apply (float_to_decimal_spec (fun _ => "99.5") json_response).
  reflexivity.
Defined.

(** C1 as stated fails: a float inside a tuple is returned as it is, since a
    tuple is neither a dict nor a list. *)
Lemma float_to_decimal_keeps_tuple_float :
  ~ (forall (str : Q -> string) (obj : pyval),
       has_float (float_to_decimal str obj) = false).
Proof.
  intros H. specialize (H (fun _ => "1.5") tuple_with_float).
  discriminate H.
Qed.

(** ** Rules for the judgements *)

Section rules.
Context {I : app -> Prop} {P : event -> Prop}.

Lemma emits_ret {A : Type} (a : A) : emits I P (ret a).
Proof. intros s Hs. split; [exact Hs|]. exists []. now rewrite app_nil_r. Qed.

Lemma emits_raise {A : Type} (e : exn) : emits I P (@raise A e).
Proof. intros s Hs. split; [exact Hs|]. exists []. now rewrite app_nil_r. Qed.

Lemma emits_lift {A : Type} (r : reply A) : emits I P (lift r).
Proof. intros s Hs. split; [exact Hs|]. exists []. now rewrite app_nil_r. Qed.

Lemma emits_get {A : Type} (f : app -> A) : emits I P (get f).
Proof. intros s Hs. split; [exact Hs|]. exists []. now rewrite app_nil_r. Qed.

Lemma emits_bind {A B : Type} (m : M A) (k : A -> M B) :
  emits I P m -> (forall a, emits I P (k a)) -> emits I P (bind m k).
Proof.
  intros Hm Hk s Hs. unfold bind.
  destruct (Hm s Hs) as [HI (evs & Ht & HP)].
  destruct (m s) as [[a|e] s1]; simpl in *.
  - destruct (Hk a s1 HI) as [HI2 (evs2 & Ht2 & HP2)].
    split; [exact HI2|]. exists (evs ++ evs2).
    rewrite Ht2, Ht, app_assoc. split; [reflexivity|].
    apply Forall_app; split; assumption.
  - split; [exact HI|]. exists evs. split; assumption.
Qed.

(** A field that [I] fixes reads as the fixed value. *)
Lemma emits_bind_get {A B : Type} (f : app -> A) (v : A) (k : A -> M B) :
  (forall s, I s -> f s = v) -> emits I P (k v) -> emits I P (bind (get f) k).
Proof.
  intros Hf Hk s Hs. unfold bind, get. rewrite (Hf s Hs). exact (Hk s Hs).
Qed.

Lemma emits_try_except {A : Type} (m : M A) (h : exn -> M A) :
  emits I P m -> (forall e, emits I P (h e)) -> emits I P (try_except m h).
Proof.
  intros Hm Hh s Hs. unfold try_except.
  destruct (Hm s Hs) as [HI (evs & Ht & HP)].
  destruct (m s) as [[a|e] s1]; simpl in *.
  - split; [exact HI|]. exists evs. split; assumption.
  - destruct (Hh e s1 HI) as [HI2 (evs2 & Ht2 & HP2)].
    split; [exact HI2|]. exists (evs ++ evs2).
    rewrite Ht2, Ht, app_assoc. split; [reflexivity|].
    apply Forall_app; split; assumption.
Qed.

Lemma emits_modify (f : app -> app) :
  (forall s, I s -> I (f s)) -> (forall s, trace (f s) = trace s) ->
  emits I P (modify f).
Proof.
  intros HI Ht s Hs. split; [exact (HI s Hs)|].
  exists []. simpl. now rewrite Ht, app_nil_r.
Qed.

Lemma emits_log (e : event) : stable I -> P e -> emits I P (log e).
Proof.
  intros HI He s Hs. split; [apply (HI s Hs)|].
  exists [e]. split; [reflexivity|]. now constructor.
Qed.

Lemma emits_next_tick : stable I -> emits I P next_tick.
Proof.
  intros HI s Hs. split; [apply (HI s Hs)|].
  exists []. simpl. now rewrite app_nil_r.
Qed.

Lemma emits_call (E : env) {A : Type} (r : request A) :
  stable I -> (forall n, P (Request n r)) -> emits I P (call E r).
Proof.
  intros HI Hr. unfold call.
  apply emits_bind; [now apply emits_next_tick|]. intros n.
  apply emits_bind; [now apply emits_log|]. intros _.
  apply emits_lift.
Qed.

Lemma emits_now (E : env) : stable I -> emits I P (now E).
Proof.
  intros HI. unfold now.
  apply emits_bind; [now apply emits_next_tick|]. intros n. apply emits_ret.
Qed.

Lemma emits_bind_now (E : env) {B : Type} (k : datetime -> M B) :
  stable I -> (forall n, emits I P (k (clock E n))) ->
  emits I P (bind (now E) k).
Proof.
  intros HI Hk s Hs. unfold bind, now, next_tick, ret; simpl.
  destruct (Hk (tick s) (set_tick (S (tick s)) s)) as [HI2 (evs & Ht & HP)].
  { apply (HI s Hs). }
  split; [exact HI2|]. exists evs. split; [exact Ht|exact HP].
Qed.

Lemma emits_ask_yes_no (E : env) (title message : string) :
  stable I -> P (askyesno title message) ->
  emits I P (ask_yes_no E title message).
Proof.
  intros HI Hp. unfold ask_yes_no.
  apply emits_bind; [now apply emits_next_tick|]. intros n.
  apply emits_bind; [now apply emits_log|]. intros _. apply emits_ret.
Qed.

Lemma emits_if_debug (m : M unit) : emits I P m -> emits I P (if_debug m).
Proof.
  intros Hm. unfold if_debug.
  apply emits_bind; [apply emits_get|]. intros [|]; [exact Hm|apply emits_ret].
Qed.

Lemma emits_for_each {A : Type} (l : list A) (body : A -> M unit) :
  (forall x, emits I P (body x)) -> emits I P (for_each l body).
Proof.
  intros Hb. induction l as [|x l IH]; simpl; [apply emits_ret|].
  apply emits_bind; [apply Hb|]. intros _. exact IH.
Qed.

(** What the judgement says of the events of one run. *)
Lemma emits_events_since {A : Type} (m : M A) (s : app) :
  emits I P m -> I s -> Forall P (events_since s (m s).2).
Proof.
  intros Hm Hs. destruct (Hm s Hs) as [_ (evs & Ht & HP)].
  unfold events_since. rewrite Ht, drop_app_length. exact HP.
Qed.

End rules.

Lemma safe_ret {A : Type} (a : A) : safe (ret a).
Proof. intros s. now exists a. Qed.

Lemma safe_get {A : Type} (f : app -> A) : safe (get f).
Proof. intros s. now eexists. Qed.

Lemma safe_modify (f : app -> app) : safe (modify f).
Proof. intros s. now exists tt. Qed.

Lemma safe_log (e : event) : safe (log e).
Proof. intros s. now exists tt. Qed.

Lemma safe_next_tick : safe next_tick.
Proof. intros s. now eexists. Qed.

Lemma safe_bind {A B : Type} (m : M A) (k : A -> M B) :
  safe m -> (forall a, safe (k a)) -> safe (bind m k).
Proof.
  intros Hm Hk s. unfold bind. destruct (Hm s) as [a Ha].
  destruct (m s) as [[a'|e] s1]; simpl in *; [apply Hk|discriminate].
Qed.

Lemma safe_try_except {A : Type} (m : M A) (h : exn -> M A) :
  (forall e, safe (h e)) -> safe (try_except m h).
Proof.
  intros Hh s. unfold try_except.
  destruct (m s) as [[a|e] s1]; simpl; [now exists a|apply Hh].
Qed.

Lemma safe_if_debug (m : M unit) : safe m -> safe (if_debug m).
Proof.
  intros Hm. unfold if_debug. apply safe_bind; [apply safe_get|].
  intros [|]; [exact Hm|apply safe_ret].
Qed.

Lemma stable_True : stable (fun _ => True).
Proof. intros s _. split; intros; exact Logic.I. Qed.

(** ** Walking through a callback *)

Create HintDb callbacks.

#[local] Hint Unfold
  detect_faces_in_image detect_faces_in_image_except check_face_in_image
  reset_register_image load_verify_users load_verify_users_except
  load_users load_users_try load_users_except
  update_dashboard_stats update_dashboard_stats_except
  register_user register_user_try register_user_except
  verify_face verify_face_try verify_face_except
  process_attendance process_attendance_try process_attendance_except
  load_attendance_report load_attendance_report_try
  load_attendance_report_except
  export_attendance_report export_attendance_report_try
  export_attendance_report_except
  initialize_aws_resources : callbacks.

(** A side condition of a rule: the invariant is about fields the step leaves
    alone; the event is of a kind the property says nothing about. *)
Ltac emits_side :=
  first
    [ exact Logic.I
    | assumption
    | reflexivity
    | solve [intros; simpl in *; auto]
    | solve [intros ? ?; split; intros; simpl in *; auto] ].

Ltac emits_step :=
  lazymatch goal with
  | |- emits _ _ (bind (get _) _) =>
      first
        [ eapply emits_bind_get; [solve [intros ? H; simpl in *; exact H] |]
        | apply emits_bind; [apply emits_get | intros ?] ]
  | |- emits _ _ (bind (now _) _) =>
      apply emits_bind_now; [emits_side | intros ?]
  | |- emits _ _ (bind _ _) => apply emits_bind; [| intros ?]
  | |- emits _ _ (ret _) => apply emits_ret
  | |- emits _ _ (raise _) => apply emits_raise
  | |- emits _ _ (lift _) => apply emits_lift
  | |- emits _ _ (get _) => apply emits_get
  | |- emits _ _ (modify _) => apply emits_modify; [emits_side | emits_side]
  | |- emits _ _ (log _) => apply emits_log; [emits_side |]
  | |- emits _ _ next_tick => apply emits_next_tick; emits_side
  | |- emits _ _ (call _ _) => apply emits_call; [emits_side | intros ?]
  | |- emits _ _ (now _) => apply emits_now; emits_side
  | |- emits _ _ (ask_yes_no _ _ _) => apply emits_ask_yes_no; [emits_side |]
  | |- emits _ _ (if_debug _) => apply emits_if_debug
  | |- emits _ _ (try_except _ _) => apply emits_try_except; [| intros ?]
  | |- emits _ _ (for_each _ _) => apply emits_for_each; intros ?
  | |- emits _ _ (match ?x with _ => _ end) => destruct x
  | |- emits _ _ _ => progress autounfold with callbacks
  end.

Ltac emits_walk := repeat emits_step.

(** ** Running a callback along one path *)

(** Unfolds the monad and the assignments, nothing else. *)
Ltac run_simpl :=
  repeat progress
    (unfold try_except, bind, ret, get, modify, log, next_tick, lift, if_debug,
       call, now, ask_yes_no, raise in *;
     cbn [trace tick debug_mode_var register_user_id register_name
       register_email register_department quality_threshold
       register_captured_image match_threshold attendance_captured_image
       verify_user_id verify_captured_image users_table attendance_table
       report_date_var is_camera_running camera current_frame camera_thread
       threads set_trace set_tick set_register_user_id set_register_name
       set_register_email set_register_department set_register_captured_image
       set_verify_user_id set_users_table set_attendance_table
       set_is_camera_running set_camera set_current_frame set_camera_thread
       set_threads set_attendance_captured_image set_verify_captured_image
       set_debug_mode_var set_report_date_var set_quality_threshold
       set_match_threshold fst snd for_each] in * ).

(** After a run: its events, read off the log. *)
Ltac run_events :=
  run_simpl; rewrite <- ?app_assoc, ?drop_app_length, ?drop_all;
  cbn [Datatypes.app].

(** One more test of a run decided: by an equation at hand, or both ways. *)
Ltac split_step :=
  run_simpl;
  first
    [ match goal with
      | H : ?x = _ |- context [match ?x with _ => _ end] => rewrite H
      end
    | match goal with
      | |- context [match ?x with _ => _ end] =>
          lazymatch x with
          | context [match _ with _ => _ end] => fail
          | _ => destruct x eqn:?
          end
      end ].

Ltac split_all := repeat split_step; run_simpl.

(** Events a projection says nothing of leave nothing among what it
    collects. *)
Lemma omap_quiet {B : Type} (f : event -> option B) (l : list event) :
  Forall (fun e => f e = None) l -> omap f l = [].
Proof.
  induction 1 as [|e l He _ IH]; [reflexivity|].
  cbn [omap list_omap]. rewrite He. exact IH.
Qed.

(** What [f] collects from the events of a run: from the events listed, the
    rest coming from a callback known to give [f] nothing. *)
Ltac sent_by f :=
  try match goal with
      | Hf : emits _ _ ?m, H : ?m ?s1 = (_, ?s2) |- _ =>
          let evs := fresh "evs" in
          let Ht := fresh "Ht" in
          let Hq := fresh "Hq" in
          destruct (Hf s1 Logic.I) as [_ (evs & Ht & Hq)];
          rewrite H in Ht; cbn [snd] in Ht; run_simpl;
          rewrite ?Ht; apply (omap_quiet f) in Hq
      end;
  rewrite <- ?app_assoc, ?drop_app_length, ?drop_all;
  repeat (cbn [omap list_omap f Datatypes.app]; rewrite ?omap_app);
  repeat match goal with Hq : omap f _ = [] |- _ => rewrite Hq; clear Hq end;
  cbn [Datatypes.app].

(** ** The face search requests *)

Lemma process_attendance_searches (L : pylib) (E : env) (sc : scale) :
  emits (fun s => match_threshold s = sc)
    (fun e => forall cap thr, search_arguments e = Some (cap, thr) ->
                cap = 1%Z /\ thr = py_int (scale_value sc))
    (process_attendance L E).
Proof.
  emits_walk; simpl; try discriminate.
  intros cap thr [= <- <-]. split; reflexivity.
Qed.

Lemma verify_face_searches (L : pylib) (E : env) :
  emits (fun _ => True)
    (fun e => forall cap thr, search_arguments e = Some (cap, thr) ->
                cap = 10%Z /\ thr = 50%Z)
    (verify_face L E).
Proof.
  emits_walk; simpl; try discriminate.
  intros cap thr [= <- <-]. split; reflexivity.
Qed.

(** [int(x)] of a float between two integers that are not negative lies
    between them. *)
Lemma py_int_bounds (x : Q) (a b : Z) :
  (0 <= a)%Z -> (inject_Z a <= x)%Q -> (x <= inject_Z b)%Q ->
  (a <= py_int x <= b)%Z.
Proof.
  destruct x as [num den]. unfold Qle, py_int; simpl.
  rewrite !Z.mul_1_r. intros Ha Hlo Hhi.
  assert (0 <= num)%Z by nia.
  rewrite Z.quot_div_nonneg by lia.
  split.
  - apply Z.div_le_lower_bound; lia.
  - apply Z.div_le_upper_bound; lia.
Qed.

(** The searches [process_attendance] sends: one when a picture is there
    and a face is detected in it, none otherwise. *)
Lemma process_attendance_sends_one_search (L : pylib) (E : env) (s : app) :
  omap search_arguments (events_since s (process_attendance L E s).2)
  = match attendance_captured_image s with
    | Some img =>
        match detected L E (tick s) img with
        | [] => []
        | _ :: _ => [(1%Z, py_int (scale_value (match_threshold s)))]
        end
    | None => []
    end.
Proof.
  assert (Hrefresh : emits (fun _ => True) (fun e => search_arguments e = None)
                       (update_dashboard_stats L E)).
  { emits_walk; reflexivity. }
  match goal with |- ?l = _ => pattern l end.
  match goal with |- ?Q _ => set (shape := Q) end.
  unfold process_attendance, process_attendance_try, process_attendance_except,
    detect_faces_in_image, detect_faces_in_image_except, external_image_id,
    getitem.
  revert Hrefresh. generalize (update_dashboard_stats L E).
  intros refresh Hrefresh.
  unfold events_since.
  split_all.
  all: sent_by search_arguments.
  all: subst shape; cbn beta; unfold detected.
  all: repeat match goal with
       | H : attendance_captured_image _ = _ |- _ => rewrite H; clear H
       | H : answer _ _ _ (detect_faces _ _) = _ |- _ => rewrite H; clear H
       end.
  all: reflexivity.
Qed.

(** The searches [verify_face] sends: one when a picture is there, a user is
    selected and exactly one face is detected, none otherwise. *)
Lemma verify_face_sends_one_search (L : pylib) (E : env) (s : app) :
  omap search_arguments (events_since s (verify_face L E s).2)
  = match verify_captured_image s with
    | Some img =>
        if bool_decide (combo_text (verify_user_id s) = "") then [] else
        match detected L E (tick s) img with
        | [_] => [(10%Z, 50%Z)]
        | _ => []
        end
    | None => []
    end.
Proof.
  match goal with |- ?l = _ => pattern l end.
  match goal with |- ?Q _ => set (shape := Q) end.
  unfold verify_face, verify_face_try, verify_face_except,
    detect_faces_in_image, detect_faces_in_image_except, external_image_id.
  unfold events_since.
  split_all.
  all: sent_by search_arguments.
  all: subst shape; cbn beta; unfold detected.
  all: repeat match goal with
       | H : verify_captured_image _ = _ |- _ => rewrite H; clear H
       | H : bool_decide _ = _ |- _ => rewrite H; clear H
       | H : answer _ _ _ (detect_faces _ _) = _ |- _ => rewrite H; clear H
       end.
  all: reflexivity.
Qed.

(** C4.  [process_attendance] sends a face search when a picture has been
    captured and a face is detected in it, and then exactly one, with
    [MaxFaces = 1] and [FaceMatchThreshold] the integer value of the
    match-threshold slider; otherwise it sends none.  [verify_face] sends a
    face search when a picture is there, a user is selected and exactly one
    face is detected, and then exactly one, with [MaxFaces = 10] and
    [FaceMatchThreshold = 50]; otherwise it sends none.  So every face search
    request carries a match cap and a similarity threshold.  The slider is
    built with the range 50 to 99 and the value 70, and while its value is in
    that range its integer value is between 50 and 99. *)
Theorem search_requests_carry_threshold_and_cap
    (L : pylib) (E : env) (s : app) :
  omap search_arguments (events_since s (process_attendance L E s).2)
  = match attendance_captured_image s with
    | Some img =>
        match detected L E (tick s) img with
        | [] => []
        | _ :: _ => [(1%Z, py_int (scale_value (match_threshold s)))]
        end
    | None => []
    end
  /\ omap search_arguments (events_since s (verify_face L E s).2)
     = match verify_captured_image s with
       | Some img =>
           if bool_decide (combo_text (verify_user_id s) = "") then [] else
           match detected L E (tick s) img with
           | [_] => [(10%Z, 50%Z)]
           | _ => []
           end
       | None => []
       end
  /\ Forall (fun e => forall cap thr, search_arguments e = Some (cap, thr) ->
               cap = 1%Z /\ thr = py_int (scale_value (match_threshold s)))
       (events_since s (process_attendance L E s).2)
  /\ Forall (fun e => forall cap thr, search_arguments e = Some (cap, thr) ->
               cap = 10%Z /\ thr = 50%Z)
       (events_since s (verify_face L E s).2)
  /\ (from_ init_match_threshold = 50%Q /\ to init_match_threshold = 99%Q
      /\ scale_value init_match_threshold = 70%Q
      /\ py_int (scale_value init_match_threshold) = 70%Z)
  /\ (from_ (match_threshold s) = 50%Q -> to (match_threshold s) = 99%Q ->
      in_range (match_threshold s) ->
      (50 <= py_int (scale_value (match_threshold s)) <= 99)%Z).
Proof.
  split; [apply process_attendance_sends_one_search|].
  split; [apply verify_face_sends_one_search|].
  split; [|split; [|split]].
  - apply (emits_events_since (I := fun s' => match_threshold s' = match_threshold s)).
    + apply process_attendance_searches.
    + reflexivity.
  - apply (emits_events_since (I := fun _ => True)).
    + apply verify_face_searches.
    + exact Logic.I.
  - repeat split; reflexivity.
  - intros Hfrom Hto [Hlo Hhi]. rewrite Hfrom in Hlo. rewrite Hto in Hhi.
    apply py_int_bounds; [lia|exact Hlo|exact Hhi].
Qed.

(** A run of [process_attendance] at ten past ten, the slider at 70: one
    face found, searched with cap 1 and threshold 70, the user looked up, the
    record written as late. *)
Example process_attendance_run :
  List.filter is_request
    (trace (process_attendance sample_lib (sample_env one_user_service)
              picture_taken).2)
  = [ Request 0 (detect_faces "picture" ["ALL"]);
      Request 1 (search_faces_by_image COLLECTION_ID "picture" 1 70);
      Request 2 (get_item USERS_TABLE "u1");
      Request 4 (put_item ATTENDANCE_TABLE
                   (attendance_record "u1" (AStr "Ada") morning (Decimal "95/1")));
      Request 5 (scan_count USERS_TABLE);
      Request 7 (scan ATTENDANCE_TABLE (Some "2024-05-02")) ].
Proof. vm_compute. reflexivity. Qed.

(** With a picture taken and the slider as built, at 70 within its range,
    [process_attendance] sends one search, with cap 1 and threshold 70; with a
    picture and a user selected, [verify_face] sends one with cap 10 and
    threshold 50. *)
Lemma search_requests_witness :
  omap search_arguments
    (events_since picture_taken
       (process_attendance sample_lib (sample_env one_user_service)
          picture_taken).2)
  = [(1%Z, 70%Z)]
  /\ omap search_arguments
       (events_since verify_ready
          (verify_face sample_lib (sample_env one_user_service)
             verify_ready).2)
     = [(10%Z, 50%Z)]
  /\ in_range (match_threshold picture_taken)
  /\ (50 <= py_int (scale_value (match_threshold picture_taken)) <= 99)%Z.
Proof.
  assert (H : in_range (match_threshold picture_taken)).
  { split; unfold Qle; simpl; lia. }
  split; [|split; [|split; [exact H|]]].
  - rewrite (proj1 (search_requests_carry_threshold_and_cap sample_lib
                      (sample_env one_user_service) picture_taken)).
    reflexivity.
  - rewrite (proj1 (proj2 (search_requests_carry_threshold_and_cap sample_lib
                             (sample_env one_user_service) verify_ready))).
    reflexivity.
  - apply (search_requests_carry_threshold_and_cap sample_lib
             (sample_env one_user_service) picture_taken);
      [reflexivity|reflexivity|exact H].
Defined.

(** ** The quality filter of the indexing requests *)

Lemma register_user_quality_filter (L : pylib) (E : env) (sc : scale) :
  emits (fun s => quality_threshold s = sc)
    (fun e => forall qf, index_quality_filter e = Some qf ->
                qf = quality_filter_of (py_int (scale_value sc)))
    (register_user L E).
Proof.
  emits_walk; simpl; try discriminate.
  intros qf [= <-]. reflexivity.
Qed.

Lemma quality_filter_of_cases (t : Z) :
  ((90 <= t)%Z -> quality_filter_of t = "HIGH")
  /\ ((70 <= t < 90)%Z -> quality_filter_of t = "MEDIUM")
  /\ ((50 <= t < 70)%Z -> quality_filter_of t = "LOW")
  /\ ((t < 50)%Z -> quality_filter_of t = "NONE").
Proof.
  unfold quality_filter_of.
  repeat split; intros H;
    repeat match goal with
    | |- context [(?a <=? ?b)%Z] => destruct (Z.leb_spec a b); try lia
    end; reflexivity.
Qed.

(** With the form filled in for a user the table does not hold, one face in
    the picture and a face of quality or an operator who goes on,
    [register_user] sends one indexing request, with the filter of the
    slider. *)
Lemma register_user_sends_one_index (L : pylib) (E : env) (s : app)
    (img : image) (face : face_detail) :
  form_filled L s ->
  register_captured_image s = Some img ->
  answer E _ (tick s) (get_item USERS_TABLE (str_strip L (register_user_id s)))
  = Returns None ->
  answer E _ (S (tick s)) (detect_faces (imencode_jpg L img) ["ALL"])
  = Returns [face] ->
  low_quality L face = false \/ operator_yes E (S (S (tick s))) = true ->
  omap index_quality_filter (events_since s (register_user L E s).2)
  = [quality_filter_of (py_int (scale_value (quality_threshold s)))].
Proof.
  intros (H1 & H2 & H3 & H4) Himg Hget Hdetect Hgo.
  apply (bool_decide_eq_false_2 _) in H1, H2, H3, H4.
  assert (Hrefresh : emits (fun _ => True)
                       (fun e => index_quality_filter e = None)
                       (bind (load_users L E)
                          (fun _ => update_dashboard_stats L E))).
  { emits_walk; reflexivity. }
  match goal with |- ?l = _ => pattern l end.
  match goal with |- ?Q _ => set (shape := Q) end.
  unfold register_user, register_user_try, register_user_except,
    detect_faces_in_image, detect_faces_in_image_except, reset_register_image.
  revert Hrefresh.
  generalize (bind (load_users L E) (fun _ => update_dashboard_stats L E)).
  intros refresh Hrefresh.
  unfold events_since.
  run_simpl. rewrite H1, H2, H3, H4. cbn [orb]. run_simpl.
  rewrite Himg. run_simpl.
  split_all.
  all: sent_by index_quality_filter.
  all: subst shape; cbn beta.
  all: try reflexivity.
  all: try (cbn [negb] in *; discriminate).
  all: destruct Hgo as [Hgo|Hgo]; [congruence|].
  all: rewrite Hgo in *; discriminate.
Qed.

(** C8.  The quality filter is a function of the quality threshold [t]:
    HIGH when [t >= 90], MEDIUM when [70 <= t < 90], LOW when
    [50 <= t < 70], NONE otherwise.  With the form filled in for a user the
    users table does not hold, one face detected in the captured picture, and
    that face of quality or the operator agreeing to go on, [register_user]
    sends exactly one indexing request, and it carries the filter of the
    integer value of the quality slider.  Every indexing request of
    [register_user] carries that filter; the slider is built with the range
    70 to 99, and while its value is in that range the filter is MEDIUM or
    HIGH. *)
Theorem index_requests_quality_filter (L : pylib) (E : env) (s : app) :
  (forall t : Z,
     ((90 <= t)%Z -> quality_filter_of t = "HIGH")
     /\ ((70 <= t < 90)%Z -> quality_filter_of t = "MEDIUM")
     /\ ((50 <= t < 70)%Z -> quality_filter_of t = "LOW")
     /\ ((t < 50)%Z -> quality_filter_of t = "NONE"))
  /\ (forall img face,
        form_filled L s ->
        register_captured_image s = Some img ->
        answer E _ (tick s)
          (get_item USERS_TABLE (str_strip L (register_user_id s)))
        = Returns None ->
        answer E _ (S (tick s)) (detect_faces (imencode_jpg L img) ["ALL"])
        = Returns [face] ->
        low_quality L face = false \/ operator_yes E (S (S (tick s))) = true ->
        omap index_quality_filter (events_since s (register_user L E s).2)
        = [quality_filter_of (py_int (scale_value (quality_threshold s)))])
  /\ Forall (fun e => forall qf, index_quality_filter e = Some qf ->
               qf = quality_filter_of (py_int (scale_value (quality_threshold s))))
       (events_since s (register_user L E s).2)
  /\ (from_ init_quality_threshold = 70%Q /\ to init_quality_threshold = 99%Q)
  /\ (from_ (quality_threshold s) = 70%Q -> to (quality_threshold s) = 99%Q ->
      in_range (quality_threshold s) ->
      (quality_filter_of (py_int (scale_value (quality_threshold s))) = "MEDIUM"
       \/ quality_filter_of (py_int (scale_value (quality_threshold s))) = "HIGH")
      /\ Forall (fun e => forall qf, index_quality_filter e = Some qf ->
                   qf = "MEDIUM" \/ qf = "HIGH")
           (events_since s (register_user L E s).2)).
Proof.
  assert (Hall : Forall (fun e => forall qf, index_quality_filter e = Some qf ->
               qf = quality_filter_of (py_int (scale_value (quality_threshold s))))
       (events_since s (register_user L E s).2)).
  { apply (emits_events_since (I := fun s' => quality_threshold s' = quality_threshold s)).
    - apply register_user_quality_filter.
    - reflexivity. }
  split; [exact quality_filter_of_cases|].
  split; [intros img face; apply register_user_sends_one_index|].
  split; [exact Hall|].
  split; [split; reflexivity|].
  intros Hfrom Hto [Hlo Hhi]. rewrite Hfrom in Hlo. rewrite Hto in Hhi.
  pose proof (py_int_bounds _ 70 99 ltac:(lia) Hlo Hhi) as Hb.
  assert (Htier :
    quality_filter_of (py_int (scale_value (quality_threshold s))) = "MEDIUM"
    \/ quality_filter_of (py_int (scale_value (quality_threshold s))) = "HIGH").
  { destruct (Z_lt_le_dec (py_int (scale_value (quality_threshold s))) 90).
    - left. apply quality_filter_of_cases. lia.
    - right. apply quality_filter_of_cases. lia. }
  split; [exact Htier|].
  eapply Forall_impl; [exact Hall|].
  intros e He qf Hqf. rewrite (He qf Hqf). exact Htier.
Qed.

(** A registration with the slider at 80: the face is indexed with the filter
    MEDIUM, then the user is stored. *)
Example register_user_run :
  List.filter is_mutation
    (trace (register_user sample_lib (sample_env one_user_service)
              new_user_form).2)
  = [ Request 2 (index_faces COLLECTION_ID "picture" "u2" ["ALL"] "MEDIUM");
      Request 4 (put_item USERS_TABLE
                   (list_to_map
                      [("user_id", AStr "u2"); ("name", AStr "Ada");
                       ("email", AStr "ada@example.org"); ("department", AStr "IT");
                       ("face_id", AStr "f-1"); ("confidence", ANum (Decimal "99/1"));
                       ("created_at", AStr "2024-05-02T10:10:00")])) ].
Proof. vm_compute. reflexivity. Qed.

(** A new user, one good face in the picture, the slider as built at 80: the
    registration sends one indexing request, with the filter MEDIUM. *)
Lemma index_requests_witness :
  form_filled sample_lib new_user_form
  /\ in_range (quality_threshold new_user_form)
  /\ omap index_quality_filter
       (events_since new_user_form
          (register_user sample_lib (sample_env one_user_service)
             new_user_form).2)
     = ["MEDIUM"].
Proof.
  assert (Hform : form_filled sample_lib new_user_form).
  { repeat split; discriminate. }
  assert (H : in_range (quality_threshold new_user_form)).
  { split; unfold Qle; simpl; lia. }
  split; [exact Hform|]. split; [exact H|].
  rewrite (proj1 (proj2 (index_requests_quality_filter sample_lib
                           (sample_env one_user_service) new_user_form))
             "picture" good_face Hform eq_refl eq_refl eq_refl
             (or_introl eq_refl)).
  reflexivity.
Defined.

(** ** The status of the attendance records *)


Lemma other_callbacks_write_no_attendance (L : pylib) (E : env) :
  let none := fun e => attendance_written e = None in
  emits (fun _ => True) none (register_user L E)
  /\ emits (fun _ => True) none (verify_face L E)
  /\ emits (fun _ => True) none (load_users L E)
  /\ emits (fun _ => True) none (load_attendance_report L E)
  /\ emits (fun _ => True) none (export_attendance_report L E)
  /\ emits (fun _ => True) none (initialize_aws_resources E).
Proof.
  intros none; subst none.
  repeat apply conj; emits_walk; reflexivity.
Qed.

(** The attendance records of a run of [process_attendance]: none, or one,
    stamped with the clock as read after the user was looked up. *)
Lemma process_attendance_writes_at_most_once (L : pylib) (E : env) (s : app) :
  let written :=
    omap attendance_written (events_since s (process_attendance L E s).2) in
  written = []
  \/ exists user_id name confidence,
       written = [attendance_record user_id name (clock E (S (S (S (tick s)))))
                    confidence].
Proof.
  cbn zeta.
  assert (Hrefresh : emits (fun _ => True)
                       (fun e => attendance_written e = None)
                       (update_dashboard_stats L E)).
  { emits_walk; reflexivity. }
  match goal with |- context [omap attendance_written ?l] =>
    pattern (omap attendance_written l) end.
  match goal with |- ?Q _ => set (shape := Q) end.
  unfold process_attendance, process_attendance_try, process_attendance_except,
    detect_faces_in_image, detect_faces_in_image_except, external_image_id,
    getitem.
  revert Hrefresh. generalize (update_dashboard_stats L E).
  intros refresh Hrefresh.
  unfold events_since.
  split_all.
  all: sent_by attendance_written.
  all: subst shape; cbn beta.
  all: try (left; reflexivity).
  all: right; eexists _, _, _; reflexivity.
Qed.

(** A face detected, matched to a user the users table holds with a name:
    [process_attendance] writes the record of that user. *)
Lemma process_attendance_writes_the_match (L : pylib) (E : env) (s : app)
    (img : image) (face : face_detail) (faces : list face_detail)
    (m : face_match) (rest : list face_match) (user_id : string) (user : item)
    (name : attr) :
  attendance_captured_image s = Some img ->
  answer E _ (tick s) (detect_faces (imencode_jpg L img) ["ALL"])
  = Returns (face :: faces) ->
  answer E _ (S (tick s))
    (search_faces_by_image COLLECTION_ID (imencode_jpg L img) 1
       (py_int (scale_value (match_threshold s))))
  = Returns (m :: rest) ->
  ExternalImageId m = Some user_id ->
  answer E _ (S (S (tick s))) (get_item USERS_TABLE user_id)
  = Returns (Some user) ->
  user !! "name" = Some name ->
  omap attendance_written (events_since s (process_attendance L E s).2)
  = [attendance_record user_id name (clock E (S (S (S (tick s)))))
       (Decimal (str_float L (Similarity m)))].
Proof.
  intros Himg Hdetect Hsearch Hid Hget Hname.
  assert (Hrefresh : emits (fun _ => True)
                       (fun e => attendance_written e = None)
                       (update_dashboard_stats L E)).
  { emits_walk; reflexivity. }
  match goal with |- ?l = _ => pattern l end.
  match goal with |- ?Q _ => set (shape := Q) end.
  unfold process_attendance, process_attendance_try, process_attendance_except,
    detect_faces_in_image, detect_faces_in_image_except, external_image_id,
    getitem.
  revert Hrefresh. generalize (update_dashboard_stats L E).
  intros refresh Hrefresh.
  unfold events_since.
  split_all.
  all: sent_by attendance_written.
  all: subst shape; cbn beta.
  all: reflexivity.
Qed.

(** The time stamp and the status of a record. *)
Lemma attendance_record_status (user_id : string) (name : attr) (t : datetime)
    (confidence : decimal) :
  attendance_record user_id name t confidence !! "timestamp"
  = Some (AStr (isoformat t))
  /\ attendance_record user_id name t confidence !! "status"
     = Some (AStr (if bool_decide (9 <= hour t)%Z then "late" else "present")).
Proof.
  split; [reflexivity|].
  replace (if bool_decide (9 <= hour t)%Z then "late" else "present")
    with (attendance_status (hour t)); [reflexivity|].
  unfold attendance_status.
  destruct (Z.leb_spec 9 (hour t));
    [rewrite bool_decide_eq_true_2|rewrite bool_decide_eq_false_2];
    auto; lia.
Qed.

(** C10.  When a face is detected in the captured picture, the face search
    answers with a match, and the users table holds the user of the first
    match, with a name, [process_attendance] writes exactly one record to the
    attendance table: that user's, stamped with the local clock as read in
    the run, after the user was looked up.  In any run it writes at most one
    record, stamped with that reading.  The status of a record is [late] when
    the hour of its reading is 9 or more and [present] otherwise.  No other
    callback writes to the attendance table, so no other status is stored. *)
Theorem attendance_status_follows_the_hour (L : pylib) (E : env) (s : app) :
  let t := clock E (S (S (S (tick s)))) in
  let written :=
    omap attendance_written (events_since s (process_attendance L E s).2) in
  (forall img face faces m rest user_id user name,
     attendance_captured_image s = Some img ->
     answer E _ (tick s) (detect_faces (imencode_jpg L img) ["ALL"])
     = Returns (face :: faces) ->
     answer E _ (S (tick s))
       (search_faces_by_image COLLECTION_ID (imencode_jpg L img) 1
          (py_int (scale_value (match_threshold s))))
     = Returns (m :: rest) ->
     ExternalImageId m = Some user_id ->
     answer E _ (S (S (tick s))) (get_item USERS_TABLE user_id)
     = Returns (Some user) ->
     user !! "name" = Some name ->
     written = [attendance_record user_id name t
                  (Decimal (str_float L (Similarity m)))])
  /\ (written = []
      \/ exists user_id name confidence,
           written = [attendance_record user_id name t confidence])
  /\ (forall user_id name confidence,
        attendance_record user_id name t confidence !! "timestamp"
        = Some (AStr (isoformat t))
        /\ attendance_record user_id name t confidence !! "status"
           = Some (AStr (if bool_decide (9 <= hour t)%Z
                         then "late" else "present")))
  /\ Forall (fun e => attendance_written e = None)
       (events_since s (register_user L E s).2
        ++ events_since s (verify_face L E s).2
        ++ events_since s (load_users L E s).2
        ++ events_since s (load_attendance_report L E s).2
        ++ events_since s (export_attendance_report L E s).2
        ++ events_since s (initialize_aws_resources E s).2).
Proof.
  cbn zeta.
  split; [intros img face faces m rest user_id user name;
          apply process_attendance_writes_the_match|].
  split; [apply process_attendance_writes_at_most_once|].
  split; [intros; apply attendance_record_status|].
  destruct (other_callbacks_write_no_attendance L E)
    as (H1 & H2 & H3 & H4 & H5 & H6).
  repeat (apply Forall_app; split);
    apply (emits_events_since (I := fun _ => True));
    auto using Logic.I.
Qed.

(** Ada's face at ten past ten: one record is written, hers, as late. *)
Lemma attendance_status_witness :
  omap attendance_written
    (events_since picture_taken
       (process_attendance sample_lib (sample_env one_user_service)
          picture_taken).2)
  = [attendance_record "u1" (AStr "Ada") morning (Decimal "95/1")]
  /\ attendance_record "u1" (AStr "Ada") morning (Decimal "95/1") !! "status"
     = Some (AStr "late").
Proof.
  pose proof (attendance_status_follows_the_hour sample_lib
                (sample_env one_user_service) picture_taken)
    as (Hwrites & _ & Hstatus & _).
  split.
  - exact (Hwrites "picture" good_face []
             {| Similarity := 95%Q; ExternalImageId := Some "u1" |} []
             "u1" ada (AStr "Ada") eq_refl eq_refl eq_refl eq_refl eq_refl
             eq_refl).
  - exact (proj2 (Hstatus "u1" (AStr "Ada") (Decimal "95/1"))).
Defined.

(** ** The early exits of [register_user] *)

(** C9.  When the table store answers the lookup of the submitted identifier
    with an item, or the face detection of the captured picture reports no
    face or more than one, [register_user] returns, having set a text on the
    status label and having sent no request that changes the face collection
    or a table: no [index_faces] and no [put_item]. *)
Theorem register_user_early_exit (L : pylib) (E : env) (s : app) :
  let user_id := str_strip L (register_user_id s) in
  (exists it,
      answer E _ (tick s) (get_item USERS_TABLE user_id) = Returns (Some it))
  \/ (exists img, register_captured_image s = Some img
        /\ length (detected L E (S (tick s)) img) <> 1) ->
  let s' := (register_user L E s).2 in
  (register_user L E s).1 = Returns tt
  /\ Exists sets_register_status (events_since s s')
  /\ Forall (fun e => is_mutation e = false) (events_since s s').
Proof.
  assert (Hclose : forall evs : list event,
            Exists sets_register_status evs ->
            forallb (fun e => negb (is_mutation e)) evs = true ->
            Returns tt = Returns tt :> reply unit
            /\ Exists sets_register_status evs
            /\ Forall (fun e => is_mutation e = false) evs).
  { intros evs Hex Hall. split; [reflexivity|]. split; [exact Hex|].
    apply Forall_forall. intros e He.
    apply negb_true_iff.
    rewrite forallb_forall in Hall. apply Hall. now apply list_elem_of_In. }
  assert (Hhd : forall text rest,
            Exists sets_register_status
              (config register_status [("text", OText text)] :: rest)).
  { intros text rest. apply Exists_cons_hd. now exists text. }
  intros user_id H s'. subst s'.
  unfold events_since, register_user. run_simpl. fold user_id.
  destruct (_ || _) eqn:Hf; run_simpl;
    [run_events; apply Hclose; [apply Hhd|reflexivity]|].
  destruct (register_captured_image s) as [img|] eqn:Himg; run_simpl;
    [|run_events; apply Hclose; [apply Hhd|reflexivity]].
  unfold register_user_try, register_user_except, detect_faces_in_image,
    detect_faces_in_image_except.
  fold user_id.
  destruct (debug_mode_var s) eqn:Hd;
    destruct (answer E _ (tick s) (get_item USERS_TABLE user_id))
      as [[it|]|e] eqn:Hget;
    repeat (progress (run_simpl; rewrite ?Hd, ?Hget));
    try (run_events; apply Hclose;
         [repeat first [apply Hhd | apply Exists_cons_tl]|reflexivity]).
  all: destruct H as [[it' Hit]|(img' & [= <-] & Hlen)]; [congruence|].
  all: unfold detected in Hlen.
  all: destruct (answer E _ (S (tick s)) _) as [[|f [|f2 more]]|e] eqn:Hdet;
    repeat (progress (run_simpl; rewrite ?Hd, ?Hget, ?Hdet));
    cbn in Hlen; try congruence;
    run_events;
    (apply Hclose; [repeat first [apply Hhd | apply Exists_cons_tl]|reflexivity]).
Qed.

(** The identifier exists: the registration stops at the lookup. *)
Example register_user_existing_run :
  trace (register_user sample_lib (sample_env one_user_service) filled_form).2
  = [ Request 0 (get_item USERS_TABLE "u1");
      config register_status [("text", OText "User ID u1 already exists")] ].
Proof. vm_compute. reflexivity. Qed.

Lemma register_user_early_exit_witness :
  (exists it,
      answer (sample_env one_user_service) _ (tick filled_form)
        (get_item USERS_TABLE "u1") = Returns (Some it))
  /\ Forall (fun e => is_mutation e = false)
       (events_since filled_form
          (register_user sample_lib (sample_env one_user_service) filled_form).2).
Proof.
  assert (H : exists it,
             answer (sample_env one_user_service) _ (tick filled_form)
               (get_item USERS_TABLE "u1") = Returns (Some it)).
  { eexists. reflexivity. }
  split; [exact H|].
  apply (register_user_early_exit sample_lib (sample_env one_user_service)
           filled_form).
  left. exact H.
Defined.

(** ** How failures are reported *)

Ltac safe_step :=
  lazymatch goal with
  | |- safe (bind _ _) => apply safe_bind; [| intros ?]
  | |- safe (ret _) => apply safe_ret
  | |- safe (get _) => apply safe_get
  | |- safe (modify _) => apply safe_modify
  | |- safe (log _) => apply safe_log
  | |- safe next_tick => apply safe_next_tick
  | |- safe (if_debug _) => apply safe_if_debug
  | |- safe (try_except _ _) => apply safe_try_except; intros ?
  | |- safe (match ?x with _ => _ end) => destruct x
  | |- safe _ => progress autounfold with callbacks
  end.

Ltac safe_walk := repeat safe_step.

Lemma callbacks_are_safe (L : pylib) (E : env) :
  (forall img, safe (detect_faces_in_image L E img))
  /\ safe (register_user L E) /\ safe (verify_face L E)
  /\ safe (process_attendance L E)
  /\ safe (load_users L E) /\ safe (load_attendance_report L E)
  /\ safe (export_attendance_report L E).
Proof.
  split; [intros img|repeat apply conj]; safe_walk.
Qed.

(** A request that fails is an exception where it is made. *)
Lemma call_raises (E : env) {A : Type} (r : request A) (s : app) (e : exn) :
  answer E A (tick s) r = Raises e -> (call E r s).1 = Raises e.
Proof. intros H. unfold call. run_simpl. now rewrite H. Qed.

Ltac reports_failure_tac :=
  intros s e s1 Hraise; unfold events_since, try_except; rewrite Hraise;
  autounfold with callbacks; run_simpl;
  destruct (debug_mode_var s1); run_events; split; reflexivity.

(** C2 (as amended).  No exception leaves [detect_faces_in_image],
    [register_user], [verify_face] or [process_attendance]: whatever is raised
    in their [try] block, a failing remote request included, is caught by the
    [except] clause of the same function, and is printed to the console, with
    its traceback, exactly when the debug toggle is on.  None of the four
    shows it in a message box: [detect_faces_in_image] shows nothing and
    returns the empty list, [register_user] writes it to its status label,
    [verify_face] writes it in red to its result label, and
    [process_attendance] puts it in a label of the results frame.  The views
    ([load_users], [load_attendance_report], [export_attendance_report]) do
    show it in an error box. *)
Theorem failures_are_caught_and_reported (L : pylib) (E : env) :
  ((forall img, safe (detect_faces_in_image L E img))
   /\ safe (register_user L E) /\ safe (verify_face L E)
   /\ safe (process_attendance L E))
  /\ (forall (A : Type) (r : request A) s e,
        answer E A (tick s) r = Raises e -> (call E r s).1 = Raises e)
  /\ (forall img,
        reports_failure
          (call E (detect_faces (imencode_jpg L img) ["ALL"]))
          detect_faces_in_image_except []
          (fun _ => [])
          (fun e => [print ("Error detecting faces: " +:+ e); print_exc]))
  /\ (forall user_id name email department img,
        reports_failure
          (register_user_try L E user_id name email department img)
          register_user_except tt
          (fun e => [config register_status [("text", OText ("Error: " +:+ e))]])
          (fun e => [print ("Registration error details: " +:+ e); print_exc]))
  /\ (forall user_id img,
        reports_failure (verify_face_try L E user_id img) verify_face_except tt
          (fun e => [config verify_results
                       [("text", OText ("Error: " +:+ e));
                        ("foreground", OText "red")]])
          (fun e => [print ("Verification error: " +:+ e); print_exc]))
  /\ (forall img,
        reports_failure (process_attendance_try L E img)
          process_attendance_except tt
          (fun e => [destroy processing_label;
                     Label results_frame ("Error processing attendance: " +:+ e)])
          (fun e => [print ("Attendance processing error: " +:+ e); print_exc]))
  /\ reports_failure (load_users_try L E) load_users_except tt
       (fun e => [showerror "Error" ("Failed to load users: " +:+ e)])
       (fun e => [print ("Error loading users: " +:+ e); print_exc])
  /\ reports_failure (load_attendance_report_try L E)
       load_attendance_report_except tt
       (fun e => [showerror "Error" ("Failed to load attendance report: " +:+ e)])
       (fun e => [print ("Error loading attendance report: " +:+ e); print_exc])
  /\ reports_failure (export_attendance_report_try L E)
       export_attendance_report_except tt
       (fun e => [showerror "Error" ("Failed to export report: " +:+ e)])
       (fun e => [print ("Error exporting report: " +:+ e); print_exc]).
Proof.
  destruct (callbacks_are_safe L E) as (H1 & H2 & H3 & H4 & _).
  split; [auto|].
  split; [intros A r s e; apply call_raises|].
  repeat apply conj; intros; reports_failure_tac.
Qed.

(** A registration while the service cannot be reached: the lookup fails, the
    status label says so, and no message box opens. *)
Lemma failures_are_reported_witness :
  exists s1,
    register_user_try sample_lib (sample_env unreachable_service)
      "u1" "Ada" "ada@example.org" "IT" "picture" filled_form
    = (Raises "Could not connect to the endpoint URL", s1)
    /\ events_since s1
         (try_except
            (register_user_try sample_lib (sample_env unreachable_service)
               "u1" "Ada" "ada@example.org" "IT" "picture")
            register_user_except filled_form).2
       = [config register_status
            [("text", OText "Error: Could not connect to the endpoint URL")]].
Proof.
  assert (H : register_user_try sample_lib (sample_env unreachable_service)
                "u1" "Ada" "ada@example.org" "IT" "picture" filled_form
              = (Raises "Could not connect to the endpoint URL",
                 (register_user_try sample_lib (sample_env unreachable_service)
                    "u1" "Ada" "ada@example.org" "IT" "picture" filled_form).2)).
  { vm_compute. reflexivity. }
  eexists. split; [exact H|].
  pose proof (failures_are_caught_and_reported sample_lib
                (sample_env unreachable_service)) as (_ & _ & _ & Hreg & _).
  exact (proj2 (Hreg "u1" "Ada" "ada@example.org" "IT" "picture" _ _ _ H)).
Defined.

(** C2 as stated fails: when the lookup of [register_user] fails, the
    failure is caught and written to the status label; no message box is
    shown. *)
Lemma register_user_failure_opens_no_dialog :
  ~ (forall (L : pylib) (E : env) (s : app) (e : exn),
       answer E _ (tick s) (get_item USERS_TABLE (str_strip L (register_user_id s)))
       = Raises e ->
       In (Request (tick s)
             (get_item USERS_TABLE (str_strip L (register_user_id s))))
          (trace (register_user L E s).2) ->
       existsb is_dialog (trace (register_user L E s).2) = true).
Proof.
  intros H.
  specialize (H sample_lib (sample_env unreachable_service) filled_form
                "Could not connect to the endpoint URL" eq_refl).
  assert (Hrun :
    trace (register_user sample_lib (sample_env unreachable_service)
             filled_form).2
    = [ Request 0 (get_item USERS_TABLE "u1");
        config register_status
          [("text", OText "Error: Could not connect to the endpoint URL")] ]).
  { vm_compute. reflexivity. }
  rewrite Hrun in H. specialize (H (or_introl eq_refl)). discriminate H.
Qed.

(** ** Refreshing the views *)

Lemma set_users_table_eta (s : app) : set_users_table (users_table s) s = s.
Proof. now destruct s. Qed.

Lemma set_attendance_table_eta (s : app) :
  set_attendance_table (attendance_table s) s = s.
Proof. now destruct s. Qed.

Lemma for_each_user_rows (L : pylib) (E : env) (items : list item) (s : app) :
  for_each items (fun user =>
    bind (get users_table) (fun rows =>
      modify (set_users_table (rows ++ [user_row L E user])))) s
  = (Returns tt,
     set_users_table (users_table s ++ List.map (user_row L E) items) s).
Proof.
  revert s. induction items as [|user items IH]; intros s.
  - simpl. rewrite app_nil_r, set_users_table_eta. reflexivity.
  - cbn [for_each]. unfold bind at 1. unfold bind at 1. unfold get, modify.
    rewrite IH. cbn [users_table set_users_table List.map].
    rewrite <- app_assoc. reflexivity.
Qed.

Lemma for_each_report_rows (L : pylib) (E : env) (records : list item) (s : app) :
  let s' := (for_each records (fun record =>
               bind (lift (confidence_display L record)) (fun confidence =>
                 bind (get attendance_table) (fun rows =>
                   modify (set_attendance_table
                             (rows ++ [attendance_row L E record confidence])))))
               s).2 in
  s' = set_attendance_table (attendance_table s ++ report_rows L E records) s.
Proof.
  revert s. induction records as [|record records IH]; intros s; cbn zeta.
  - simpl. rewrite app_nil_r, set_attendance_table_eta. reflexivity.
  - cbn [for_each report_rows]. unfold bind at 1. unfold bind at 1.
    unfold lift at 1.
    destruct (confidence_display L record) as [confidence|e].
    + unfold bind at 1. unfold get at 1. unfold modify at 1.
      cbn zeta in IH.
      destruct (for_each records _ _) as [r s2] eqn:Hrun.
      pose proof (IH (set_attendance_table
                        (attendance_table s ++ [attendance_row L E record confidence])
                        s)) as IH'.
      rewrite Hrun in IH'. cbn [snd] in IH'.
      destruct r; cbn [snd]; rewrite IH';
        cbn [attendance_table set_attendance_table];
        rewrite <- app_assoc; reflexivity.
    + cbn [snd]. rewrite app_nil_r, set_attendance_table_eta. reflexivity.
Qed.

Lemma load_verify_users_keeps_rows (L : pylib) (E : env) (rows : list row) :
  emits (fun s => users_table s = rows) (fun _ => True) (load_verify_users L E).
Proof. emits_walk; exact Logic.I. Qed.

(** What [load_users] leaves in the table of the users tab. *)
Lemma load_users_rows (L : pylib) (E : env) (s : app) :
  users_table (load_users L E s).2
  = match answer E _ (tick s) (scan USERS_TABLE None) with
    | Returns items => List.map (user_row L E) items
    | Raises _ => []
    end.
Proof.
  unfold load_users, load_users_try.
  unfold try_except, call.
  unfold bind at 1. unfold modify at 1.
  unfold bind at 1. unfold bind at 1. unfold next_tick at 1.
  unfold bind at 1. unfold log at 1. unfold modify at 1. unfold lift at 1.
  cbn [tick trace set_trace set_tick set_users_table].
  destruct (answer E _ (tick s) (scan USERS_TABLE None)) as [items|e].
  - unfold bind at 1. rewrite for_each_user_rows.
    cbn [users_table set_users_table set_trace set_tick Datatypes.app].
    match goal with
    | |- users_table (let (_, _) := load_verify_users L E ?s0 in _).2 = _ =>
        pose proof (load_verify_users_keeps_rows L E _ s0 eq_refl) as [Hrows _];
        destruct (load_verify_users L E s0) as [[[]|e] s1]
    end.
    + exact Hrows.
    + cbn [snd] in *. unfold load_users_except. run_simpl.
      destruct (debug_mode_var s1); run_simpl; exact Hrows.
  - unfold load_users_except. run_simpl.
    destruct (debug_mode_var s); reflexivity.
Qed.


(** What [load_attendance_report] leaves in the table of the reports tab. *)
Lemma load_attendance_report_rows (L : pylib) (E : env) (s : app) :
  attendance_table (load_attendance_report L E s).2
  = if strptime_ymd E (report_date_var s) then
      match answer E _ (tick s)
              (scan ATTENDANCE_TABLE (Some (report_date_var s))) with
      | Returns records =>
          match answer E _ (S (tick s)) (scan USERS_TABLE None) with
          | Returns _ => report_rows L E records
          | Raises _ => []
          end
      | Raises _ => []
      end
    else [].
Proof.
  unfold load_attendance_report, load_attendance_report_try,
    load_attendance_report_except.
  unfold try_except, call.
  unfold bind at 1. unfold modify at 1.
  unfold bind at 1. unfold get at 1.
  cbn [report_date_var set_attendance_table].
  destruct (strptime_ymd E (report_date_var s)); cbn [negb].
  2:{ run_simpl. reflexivity. }
  unfold bind at 1. unfold bind at 1. unfold next_tick at 1.
  unfold bind at 1. unfold log at 1. unfold modify at 1. unfold lift at 1.
  cbn [tick trace set_trace set_tick set_attendance_table].
  destruct (answer E _ (tick s) (scan ATTENDANCE_TABLE _)) as [records|e].
  2:{ run_simpl. destruct (debug_mode_var s); reflexivity. }
  unfold bind at 1. unfold bind at 1. unfold next_tick at 1.
  unfold bind at 1. unfold log at 1. unfold modify at 1. unfold lift at 1.
  cbn [tick trace set_trace set_tick set_attendance_table].
  destruct (answer E _ (S (tick s)) (scan USERS_TABLE None)) as [all_users|e].
  2:{ run_simpl. destruct (debug_mode_var s); reflexivity. }
  unfold bind at 1. unfold log at 1. unfold modify at 1.
  unfold bind at 1. unfold log at 1. unfold modify at 1.
  unfold bind at 1. unfold log at 1. unfold modify at 1.
  match goal with
  | |- context [for_each records ?body ?s0] =>
      pose proof (for_each_report_rows L E records s0) as Hloop;
      cbn zeta in Hloop;
      assert (Hempty : attendance_table s0 = []) by reflexivity;
      destruct (for_each records body s0) as [r s1]
  end.
  cbn [snd] in Hloop. rewrite Hempty in Hloop. cbn [Datatypes.app] in Hloop.
  destruct r as [[]|e]; cbn [snd].
  - rewrite Hloop. reflexivity.
  - run_simpl. destruct (debug_mode_var s1); run_simpl; rewrite Hloop;
      reflexivity.
Qed.

(** A [try] block that starts with a request: the request is the first event
    of the run. *)
Lemma first_event_of_call (E : env) {A B : Type} (r : request A)
    (k : A -> M B) (h : exn -> M B) (s : app) :
  (forall a, emits (fun _ => True) (fun _ => True) (k a)) ->
  (forall e, emits (fun _ => True) (fun _ => True) (h e)) ->
  exists rest,
    events_since s (try_except (bind (call E r) k) h s).2
    = Request (tick s) r :: rest.
Proof.
  intros Hk Hh.
  set (s0 := set_trace (trace s ++ [Request (tick s) r])
               (set_tick (S (tick s)) s)).
  assert (Hrun : try_except (bind (call E r) k) h s
                 = match answer E A (tick s) r with
                   | Returns a => try_except (k a) h s0
                   | Raises e => h e s0
                   end).
  { unfold try_except, call. run_simpl.
    destruct (answer E A (tick s) r); reflexivity. }
  rewrite Hrun. unfold events_since.
  assert (Hrest : exists evs,
            trace (match answer E A (tick s) r with
                   | Returns a => try_except (k a) h s0
                   | Raises e => h e s0
                   end).2 = trace s0 ++ evs).
  { destruct (answer E A (tick s) r) as [a|e].
    - destruct (emits_try_except (k a) h (Hk a) Hh s0 Logic.I)
        as [_ (evs & Ht & _)]. now exists evs.
    - destruct (Hh e s0 Logic.I) as [_ (evs & Ht & _)]. now exists evs. }
  destruct Hrest as [evs Ht]. exists evs. rewrite Ht.
  subst s0. cbn [trace set_trace]. rewrite <- app_assoc, drop_app_length.
  reflexivity.
Qed.

Lemma load_users_scans_first (L : pylib) (E : env) (s : app) :
  exists rest,
    events_since s (load_users L E s).2
    = Request (tick s) (scan USERS_TABLE None) :: rest.
Proof.
  unfold load_users. unfold bind at 1. unfold modify at 1.
  unfold load_users_try.
  apply (first_event_of_call E (scan USERS_TABLE None) _ _
           (set_users_table [] s)).
  - intros items. emits_walk; exact Logic.I.
  - intros e. emits_walk; exact Logic.I.
Qed.

Lemma load_attendance_report_scans_first (L : pylib) (E : env) (s : app) :
  strptime_ymd E (report_date_var s) = true ->
  exists rest,
    events_since s (load_attendance_report L E s).2
    = Request (tick s) (scan ATTENDANCE_TABLE (Some (report_date_var s)))
      :: rest.
Proof.
  intros Hdate.
  assert (Hrun :
    load_attendance_report L E s
    = try_except
        (bind (call E (scan ATTENDANCE_TABLE (Some (report_date_var s))))
           (fun records =>
              bind (call E (scan USERS_TABLE None))
                (fun all_users =>
                   log (config report_present_card
                          [("text", OText (pretty (py_set_len E
                             (users_with_status "present" records))))]);;
                   log (config report_late_card
                          [("text", OText (pretty (py_set_len E
                             (users_with_status "late" records))))]);;
                   log (config report_absent_card
                          [("text", OText (pretty
                             (Z.of_nat (length all_users)
                              - Z.of_nat (py_set_len E
                                  (users_with_status "present" records))
                              - Z.of_nat (py_set_len E
                                  (users_with_status "late" records)))%Z))]);;
                   for_each records (fun record =>
                     confidence ← lift (confidence_display L record);
                     rows ← get attendance_table;
                     modify (set_attendance_table
                               (rows ++ [attendance_row L E record confidence]))))))
        (load_attendance_report_except)
        (set_attendance_table [] s)).
  { unfold load_attendance_report, load_attendance_report_try.
    unfold bind at 1. unfold modify at 1.
    unfold try_except. unfold bind at 1. unfold get at 1.
    cbn [report_date_var set_attendance_table]. rewrite Hdate. reflexivity. }
  rewrite Hrun.
  apply (first_event_of_call E _ _ _ (set_attendance_table [] s)).
  - intros records. emits_walk; exact Logic.I.
  - intros e. emits_walk; exact Logic.I.
Qed.

Lemma load_attendance_report_bad_date (L : pylib) (E : env) (s : app) :
  strptime_ymd E (report_date_var s) = false ->
  events_since s (load_attendance_report L E s).2
  = [showerror "Error" "Invalid date format. Please use YYYY-MM-DD"].
Proof.
  intros Hdate. unfold events_since, load_attendance_report,
    load_attendance_report_try.
  run_simpl. rewrite Hdate. cbn [negb]. run_events. reflexivity.
Qed.

Lemma report_rows_formattable (L : pylib) (E : env) (records : list item) :
  Forall (formattable L) records ->
  Forall2 (fun record r =>
             exists confidence,
               confidence_display L record = Returns confidence
               /\ r = attendance_row L E record confidence)
    records (report_rows L E records).
Proof.
  induction 1 as [|record records [c Hc] _ IH]; simpl; [constructor|].
  rewrite Hc. constructor; [now exists c|exact IH].
Qed.

(** C3 (as amended).  [load_users] always scans the users table, and leaves
    in the view exactly one row per item the scan returned, in order (none
    when the scan fails).  [load_attendance_report] scans only when the date
    of the report parses: then it scans the attendance table for the records
    of that date and the users table, and when both scans answer it leaves in
    the view one row per record returned, in order, up to the first record
    whose confidence cannot be formatted, so one per record when every
    confidence can; when a scan fails the view is empty.  When the date does
    not parse it sends no request and shows an error box, and the view is
    empty.  Either way the rows shown before the refresh do not survive
    it. *)
Theorem views_are_rebuilt_from_scans (L : pylib) (E : env) (s : app) :
  (exists rest,
      events_since s (load_users L E s).2
      = Request (tick s) (scan USERS_TABLE None) :: rest)
  /\ users_table (load_users L E s).2
     = match answer E _ (tick s) (scan USERS_TABLE None) with
       | Returns items => List.map (user_row L E) items
       | Raises _ => []
       end
  /\ attendance_table (load_attendance_report L E s).2
     = (if strptime_ymd E (report_date_var s) then
          match answer E _ (tick s)
                  (scan ATTENDANCE_TABLE (Some (report_date_var s))) with
          | Returns records =>
              match answer E _ (S (tick s)) (scan USERS_TABLE None) with
              | Returns _ => report_rows L E records
              | Raises _ => []
              end
          | Raises _ => []
          end
        else [])
  /\ (forall records,
        Forall (formattable L) records ->
        Forall2 (fun record r =>
                   exists confidence,
                     confidence_display L record = Returns confidence
                     /\ r = attendance_row L E record confidence)
          records (report_rows L E records))
  /\ (strptime_ymd E (report_date_var s) = true ->
      exists rest,
        events_since s (load_attendance_report L E s).2
        = Request (tick s) (scan ATTENDANCE_TABLE (Some (report_date_var s)))
          :: rest)
  /\ (strptime_ymd E (report_date_var s) = false ->
      events_since s (load_attendance_report L E s).2
      = [showerror "Error" "Invalid date format. Please use YYYY-MM-DD"])
  /\ (forall shown,
        users_table (load_users L E (set_users_table shown s)).2
        = users_table (load_users L E s).2)
  /\ (forall shown,
        attendance_table
          (load_attendance_report L E (set_attendance_table shown s)).2
        = attendance_table (load_attendance_report L E s).2).
Proof.
  split; [apply load_users_scans_first|].
  split; [apply load_users_rows|].
  split; [apply load_attendance_report_rows|].
  split; [intros records; apply report_rows_formattable|].
  split; [apply load_attendance_report_scans_first|].
  split; [apply load_attendance_report_bad_date|].
  split; intros shown.
  - rewrite !load_users_rows. reflexivity.
  - rewrite !load_attendance_report_rows. reflexivity.
Qed.

(** The users tab after a refresh, with one user in the table. *)
Example load_users_run :
  users_table (load_users sample_lib (sample_env one_user_service)
                 (set_users_table [[AStr "stale"]] initial_app)).2
  = [[AStr "u1"; AStr "Ada"; AStr "ada@example.org"; AStr "IT"; AStr ""]].
Proof. vm_compute. reflexivity. Qed.

Lemma views_are_rebuilt_witness :
  strptime_ymd (sample_env one_user_service) (report_date_var initial_app) = true
  /\ exists rest,
       events_since initial_app
         (load_attendance_report sample_lib (sample_env one_user_service)
            initial_app).2
       = Request 0 (scan ATTENDANCE_TABLE (Some "2024-05-02")) :: rest.
Proof.
  split; [reflexivity|].
  apply (views_are_rebuilt_from_scans sample_lib (sample_env one_user_service)
           initial_app).
  reflexivity.
Defined.

(** C3 as stated fails: with a report date that does not parse, the refresh
    of the reports tab clears the view and asks the table store nothing. *)
Lemma load_attendance_report_without_scan :
  ~ (forall (L : pylib) (E : env) (s : app),
       existsb is_request (events_since s (load_attendance_report L E s).2)
       = true).
Proof.
  intros H.
  specialize (H sample_lib (sample_env one_user_service) bad_date).
  assert (Hrun :
    events_since bad_date
      (load_attendance_report sample_lib (sample_env one_user_service)
         bad_date).2
    = [showerror "Error" "Invalid date format. Please use YYYY-MM-DD"]).
  { vm_compute. reflexivity. }
  rewrite Hrun in H. discriminate H.
Qed.

(** ** The exported report *)

Lemma string_app_cons (c : ascii) (a b : string) :
  String c a +:+ b = String c (a +:+ b).
Proof. reflexivity. Qed.

Lemma string_app_nil_r (s : string) : s +:+ "" = s.
Proof.
  induction s as [|c s IH]; [reflexivity|].
  now rewrite string_app_cons, IH.
Qed.

Lemma string_app_assoc (a b c : string) : (a +:+ b) +:+ c = a +:+ b +:+ c.
Proof.
  induction a as [|x a IH]; [reflexivity|].
  now rewrite !string_app_cons, IH.
Qed.

Lemma lines_from_line (current h x : string) :
  has_line_feed h = false ->
  lines_from current (h +:+ LF +:+ x) = (current +:+ h) :: lines_from "" x.
Proof.
  revert current. induction h as [|c h IH]; intros current Hh.
  - change ("" +:+ LF +:+ x) with (String "010" x).
    cbn [lines_from]. rewrite bool_decide_eq_true_2 by reflexivity.
    now rewrite string_app_nil_r.
  - cbn [has_line_feed] in Hh. apply orb_false_elim in Hh as [Hc Hh].
    rewrite string_app_cons. cbn [lines_from]. rewrite Hc.
    rewrite (IH _ Hh), string_app_assoc. reflexivity.
Qed.

Lemma lines_concat_lines (ls : list string) :
  Forall (fun l => has_line_feed l = false) ls ->
  lines_from "" (concat_lines ls) = ls ++ [""].
Proof.
  induction 1 as [|l ls Hl _ IH]; [reflexivity|].
  cbn [concat_lines]. rewrite (lines_from_line "" l _ Hl), IH. reflexivity.
Qed.

Lemma csv_rows_spec (L : pylib) (E : env) (records : list item) (rows : string) :
  csv_rows L E records = Returns rows ->
  exists cells,
    confidences L records cells
    /\ rows = concat_lines (zip_with (csv_line L E) records cells).
Proof.
  revert rows. induction records as [|record records IH]; intros rows.
  - intros [= <-]. exists []. split; [constructor|reflexivity].
  - cbn [csv_rows].
    destruct (confidence_display L record) as [cell|e] eqn:Hcell; [|discriminate].
    destruct (csv_rows L E records) as [tail|e]; [|discriminate].
    intros [= <-]. destruct (IH tail eq_refl) as (cells & Hcells & ->).
    exists (cell :: cells). split; [now constructor|]. reflexivity.
Qed.

Lemma csv_rows_of_cells (L : pylib) (E : env) (records : list item)
    (cells : list string) :
  confidences L records cells ->
  csv_rows L E records
  = Returns (concat_lines (zip_with (csv_line L E) records cells)).
Proof.
  induction 1 as [|record cell records cells Hcell _ IH]; [reflexivity|].
  cbn [csv_rows zip_with concat_lines]. now rewrite Hcell, IH.
Qed.

(** A file written in full holds the header and the rows of the records the
    scan returned. *)
Lemma export_attendance_report_files (L : pylib) (E : env) (s : app)
    (path content : string) :
  In (write_file path content)
     (events_since s (export_attendance_report L E s).2) ->
  exists records cells,
    answer E _ (tick s) (scan ATTENDANCE_TABLE (Some (report_date_var s)))
    = Returns records
    /\ records <> [] /\ confidences L records cells
    /\ content = csv_content L E records cells.
Proof.
  unfold events_since, export_attendance_report, export_attendance_report_try,
    export_attendance_report_except.
  run_simpl.
  destruct (answer E _ (tick s) _) as [[|record records]|e] eqn:Hscan;
    run_simpl.
  - run_events. cbn [In]. intros [H|[H|[]]]; discriminate H.
  - destruct (bool_decide _); run_simpl.
    { run_events. cbn [In]. intros [H|[H|[]]]; discriminate H. }
    destruct (csv_rows L E (record :: records)) as [rows|e] eqn:Hrows;
      run_simpl.
    2:{ destruct (debug_mode_var s); run_events; cbn [In];
        intros H; repeat (destruct H as [H|H]; try discriminate H);
        destruct H. }
    destruct (file_opens E _) as [[]|e]; run_simpl.
    2:{ destruct (debug_mode_var s); run_events; cbn [In];
        intros H; repeat (destruct H as [H|H]; try discriminate H);
        destruct H. }
    destruct (file_written E _) as [[]|e]; run_simpl.
    2:{ destruct (debug_mode_var s); run_events; cbn [In];
        intros H; repeat (destruct H as [H|H]; try discriminate H);
        destruct H. }
    run_events. cbn [In].
    intros H; repeat (destruct H as [H|H]; try discriminate H);
      [|destruct H].
    injection H as _ <-.
    destruct (csv_rows_spec L E _ _ Hrows) as (cells & Hcells & ->).
    exists (record :: records), cells.
    split; [reflexivity|]. split; [discriminate|]. split; [exact Hcells|].
    reflexivity.
  - destruct (debug_mode_var s); run_events; cbn [In];
      intros H; repeat (destruct H as [H|H]; try discriminate H);
      destruct H.
Qed.

Lemma lines_after_header (x : string) :
  lines (CSV_HEADER +:+ LF +:+ x) = CSV_HEADER :: lines x.
Proof.
  unfold lines. rewrite (lines_from_line "" CSV_HEADER x) by reflexivity.
  reflexivity.
Qed.

Lemma export_attendance_report_empty (L : pylib) (E : env) (s : app) :
  answer E _ (tick s) (scan ATTENDANCE_TABLE (Some (report_date_var s)))
  = Returns [] ->
  events_since s (export_attendance_report L E s).2
  = [ Request (tick s) (scan ATTENDANCE_TABLE (Some (report_date_var s)));
      showinfo "Info" "No records to export" ].
Proof.
  intros Hscan.
  unfold events_since, export_attendance_report, export_attendance_report_try.
  run_simpl. rewrite Hscan. run_events. reflexivity.
Qed.

(** The export of records that can be formatted, to a path the operator
    picked: the file is opened, and then written or not as the file system
    has it. *)
Lemma export_attendance_report_opens (L : pylib) (E : env) (s : app)
    (records : list item) (cells : list string) :
  answer E _ (tick s) (scan ATTENDANCE_TABLE (Some (report_date_var s)))
  = Returns records ->
  records <> [] ->
  operator_path E (S (tick s)) <> "" ->
  confidences L records cells ->
  file_opens E (S (S (tick s))) = Returns tt ->
  events_since s (export_attendance_report L E s).2
  = [ Request (tick s) (scan ATTENDANCE_TABLE (Some (report_date_var s)));
      asksaveasfilename ("attendance_" +:+ report_date_var s +:+ ".csv");
      open_file (operator_path E (S (tick s))) ]
    ++ match file_written E (S (S (S (tick s)))) with
       | Returns _ =>
           [ write_file (operator_path E (S (tick s)))
               (csv_content L E records cells);
             showinfo "Success"
               ("Report exported to " +:+ operator_path E (S (tick s))) ]
       | Raises e =>
           showerror "Error" ("Failed to export report: " +:+ e)
           :: (if debug_mode_var s
               then [print ("Error exporting report: " +:+ e); print_exc]
               else [])
       end.
Proof.
  intros Hscan Hsome Hpath Hcells Hopen.
  unfold events_since, export_attendance_report, export_attendance_report_try,
    export_attendance_report_except.
  run_simpl. rewrite Hscan.
  destruct records as [|record records]; [contradiction|]. run_simpl.
  rewrite (bool_decide_eq_false_2 _ Hpath). run_simpl.
  rewrite (csv_rows_of_cells L E _ _ Hcells). run_simpl.
  rewrite Hopen. run_simpl.
  destruct (file_written E _) as [[]|e]; run_simpl;
    [|destruct (debug_mode_var s)]; run_events; reflexivity.
Qed.

(** C5 (as amended).  With records to export that can be formatted, a path
    picked by the operator and a file system that opens the file and takes
    the text, [export_attendance_report] opens the file at that path and
    writes to it the header [User ID,Name,Time,Status,Confidence] and a line
    feed, followed, for each record the scan returned, in order, by the
    record's user identifier, name, formatted time, status and confidence,
    separated by commas and ended by a line feed; it then tells the operator.
    When the write fails after the file was opened, the file is left made or
    emptied, without the text in full, and the failure is shown in an error
    dialog.  Every file written in full has the content above, the
    list of records being not empty.  The first line of that content is the
    header; the lines after it are one per record whenever no field of a
    record holds a line feed.  When the scan returns no record, no file is
    opened or written. *)
Theorem export_writes_header_then_rows (L : pylib) (E : env) (s : app) :
  let date := report_date_var s in
  let path := operator_path E (S (tick s)) in
  let events := events_since s (export_attendance_report L E s).2 in
  let asked :=
    [ Request (tick s) (scan ATTENDANCE_TABLE (Some date));
      asksaveasfilename ("attendance_" +:+ date +:+ ".csv") ] in
  (forall records cells,
     answer E _ (tick s) (scan ATTENDANCE_TABLE (Some date)) = Returns records ->
     records <> [] -> path <> "" -> confidences L records cells ->
     file_opens E (S (S (tick s))) = Returns tt ->
     (file_written E (S (S (S (tick s)))) = Returns tt ->
      events
      = asked
        ++ [ open_file path;
             write_file path (csv_content L E records cells);
             showinfo "Success" ("Report exported to " +:+ path) ])
     /\ (forall e,
           file_written E (S (S (S (tick s)))) = Raises e ->
           events
           = asked
             ++ [ open_file path;
                  showerror "Error" ("Failed to export report: " +:+ e) ]
             ++ (if debug_mode_var s
                 then [print ("Error exporting report: " +:+ e); print_exc]
                 else [])))
  /\ (forall file content,
        In (write_file file content) events ->
        exists records cells,
          answer E _ (tick s) (scan ATTENDANCE_TABLE (Some date))
          = Returns records
          /\ records <> [] /\ confidences L records cells
          /\ content = csv_content L E records cells)
  /\ (forall records cells,
        lines (csv_content L E records cells)
        = CSV_HEADER :: lines (concat_lines (zip_with (csv_line L E) records cells)))
  /\ (forall records cells,
        Forall (fun l => has_line_feed l = false)
          (zip_with (csv_line L E) records cells) ->
        lines (csv_content L E records cells)
        = CSV_HEADER :: zip_with (csv_line L E) records cells ++ [""])
  /\ (forall record cell,
        csv_line L E record cell
        = py_str L (default (AStr "") (record !! "user_id")) +:+ ","
          +:+ py_str L (default (AStr "") (record !! "name")) +:+ ","
          +:+ py_str L (formatted_time L E record) +:+ ","
          +:+ py_str L (default (AStr "") (record !! "status")) +:+ ","
          +:+ cell)
  /\ (answer E _ (tick s) (scan ATTENDANCE_TABLE (Some date)) = Returns [] ->
      events
      = [ Request (tick s) (scan ATTENDANCE_TABLE (Some date));
          showinfo "Info" "No records to export" ]).
Proof.
  cbn zeta.
  split.
  { intros records cells Hscan Hsome Hpath Hcells Hopen.
    rewrite (export_attendance_report_opens L E s records cells
               Hscan Hsome Hpath Hcells Hopen).
    split; [intros ->; reflexivity|intros e ->; reflexivity]. }
  split; [apply export_attendance_report_files|].
  split; [intros; apply lines_after_header|].
  split.
  { intros records cells Hlf. unfold csv_content.
    rewrite lines_after_header. unfold lines.
    now rewrite lines_concat_lines. }
  split; [reflexivity|].
  apply export_attendance_report_empty.
Qed.

(** The export of a day with one record. *)
Example export_attendance_report_run :
  events_since initial_app
    (export_attendance_report sample_lib (sample_env (report_service [ada_late]))
       initial_app).2
  = [ Request 0 (scan ATTENDANCE_TABLE (Some "2024-05-02"));
      asksaveasfilename "attendance_2024-05-02.csv";
      open_file "report.csv";
      write_file "report.csv"
        ("User ID,Name,Time,Status,Confidence" +:+ LF
         +:+ "u1,Ada,2024-05-02T10:10:00,late,50%" +:+ LF);
      showinfo "Success" "Report exported to report.csv" ].
Proof. vm_compute. reflexivity. Qed.

(** The day with one record: the file is opened and written, and holds the
    header line and the line of the record. *)
Lemma export_writes_header_then_rows_witness :
  events_since initial_app
    (export_attendance_report sample_lib (sample_env (report_service [ada_late]))
       initial_app).2
  = [ Request 0 (scan ATTENDANCE_TABLE (Some "2024-05-02"));
      asksaveasfilename "attendance_2024-05-02.csv";
      open_file "report.csv";
      write_file "report.csv"
        (csv_content sample_lib (sample_env (report_service [ada_late]))
           [ada_late] ["50%"]);
      showinfo "Success" "Report exported to report.csv" ]
  /\ lines (csv_content sample_lib (sample_env (report_service [ada_late]))
              [ada_late] ["50%"])
     = [CSV_HEADER; "u1,Ada,2024-05-02T10:10:00,late,50%"; ""].
Proof.
  pose proof (export_writes_header_then_rows sample_lib
                (sample_env (report_service [ada_late])) initial_app)
    as (Hwrites & _ & _ & Hlines & _).
  split.
  - refine (proj1 (Hwrites [ada_late] ["50%"] eq_refl _ _ _ eq_refl) eq_refl).
    + discriminate.
    + discriminate.
    + repeat constructor.
  - rewrite (Hlines [ada_late] ["50%"]); [vm_compute; reflexivity|].
    repeat constructor.
Defined.

(** C5 as stated fails: a record whose name holds a line feed takes two
    lines of the file, since no field is quoted. *)
Lemma export_splits_a_record_over_lines :
  ~ (forall (L : pylib) (E : env) (s : app) path content records,
       In (write_file path content)
          (events_since s (export_attendance_report L E s).2) ->
       answer E _ (tick s) (scan ATTENDANCE_TABLE (Some (report_date_var s)))
       = Returns records ->
       length (lines content) = length records + 2).
Proof.
  intros H.
  specialize (H sample_lib (sample_env (report_service [two_line_name]))
                initial_app "report.csv"
                ("User ID,Name,Time,Status,Confidence" +:+ LF
                 +:+ "u1,A" +:+ LF +:+ "B,10:10,late,0.00%" +:+ LF)
                [two_line_name]).
  assert (Hrun :
    events_since initial_app
      (export_attendance_report sample_lib
         (sample_env (report_service [two_line_name])) initial_app).2
    = [ Request 0 (scan ATTENDANCE_TABLE (Some "2024-05-02"));
        asksaveasfilename "attendance_2024-05-02.csv";
        open_file "report.csv";
        write_file "report.csv"
          ("User ID,Name,Time,Status,Confidence" +:+ LF
           +:+ "u1,A" +:+ LF +:+ "B,10:10,late,0.00%" +:+ LF);
        showinfo "Success" "Report exported to report.csv" ]).
  { vm_compute. reflexivity. }
  rewrite Hrun in H.
  specialize (H (or_intror (or_intror (or_intror (or_introl eq_refl)))) eq_refl).
  vm_compute in H. discriminate H.
Qed.

(** ** Creating the tables *)

(** All the paths of a run: every answer and every test, both ways. *)
Ltac split_paths :=
  repeat (run_simpl;
          match goal with
          | |- context [match answer ?E ?A ?n ?r with _ => _ end] =>
              destruct (answer E A n r) eqn:?
          | |- context [if ?b then _ else _] => destruct b eqn:?
          end);
  run_simpl.

(** Which of the listed events creates a table. *)
Ltac created_tables H :=
  cbn [In] in H;
  repeat match type of H with
  | _ \/ _ => destruct H as [H|H]
  | False => destruct H
  end;
  try (subst; cbn [is_create_table] in *; discriminate).

Ltac pick_event := cbn [In]; ((left; reflexivity) + (right; pick_event)).

Lemma initialize_aws_resources_creates (E : env) (s : app) (names : list string) :
  answer E _ (tick s) tables_all = Returns names ->
  let evs := events_since s (initialize_aws_resources E s).2 in
  (forall spec, creates spec evs ->
     (spec = users_table_spec /\ USERS_TABLE ∉ names)
     \/ (spec = attendance_table_spec /\ ATTENDANCE_TABLE ∉ names))
  /\ (forall b, (initialize_aws_resources E s).1 = Returns b ->
        (USERS_TABLE ∉ names -> creates users_table_spec evs)
        /\ (ATTENDANCE_TABLE ∉ names -> creates attendance_table_spec evs)).
Proof.
  intros Hnames evs. subst evs.
  unfold events_since, initialize_aws_resources. run_simpl.
  rewrite Hnames. run_simpl.
  destruct (bool_decide (USERS_TABLE ∈ names)) eqn:Hu;
    [apply bool_decide_eq_true in Hu|apply bool_decide_eq_false in Hu];
    (destruct (bool_decide (ATTENDANCE_TABLE ∈ names)) eqn:Ha;
     [apply bool_decide_eq_true in Ha|apply bool_decide_eq_false in Ha]);
    split_paths; run_events.
  all: split;
    [ intros spec (ev & Hin & Hspec); created_tables Hin;
      subst ev; cbn [is_create_table] in Hspec; injection Hspec as <-;
      first [ left; split; [reflexivity|assumption]
            | right; split; [reflexivity|assumption] ]
    | intros b Hb; try discriminate Hb;
      split; intros Hno; try contradiction;
      eexists; (split; [pick_event|reflexivity]) ].
Qed.

(** C6 (as amended).  [initialize_aws_resources] creates the users table
    with the single hash key [user_id], a string, and the attendance table
    with the hash key [user_id] and the range key [timestamp], both strings.
    It asks to create only these two tables, and a table only when its name is
    not in the list of the existing tables; and when no exception leaves it,
    it has asked to create each of the two whose name is not in the list.
    With both names in the list it asks to create nothing. *)
Theorem tables_are_created_when_absent (E : env) (s : app) (names : list string) :
  answer E _ (tick s) tables_all = Returns names ->
  let evs := events_since s (initialize_aws_resources E s).2 in
  (KeySchema users_table_spec = [("user_id", HASH)]
   /\ AttributeDefinitions users_table_spec = [("user_id", "S")]
   /\ KeySchema attendance_table_spec = [("user_id", HASH); ("timestamp", RANGE)]
   /\ AttributeDefinitions attendance_table_spec
      = [("user_id", "S"); ("timestamp", "S")])
  /\ (forall spec, creates spec evs ->
        (spec = users_table_spec /\ USERS_TABLE ∉ names)
        \/ (spec = attendance_table_spec /\ ATTENDANCE_TABLE ∉ names))
  /\ (forall b, (initialize_aws_resources E s).1 = Returns b ->
        (USERS_TABLE ∉ names <-> creates users_table_spec evs)
        /\ (ATTENDANCE_TABLE ∉ names <-> creates attendance_table_spec evs))
  /\ (USERS_TABLE ∈ names -> ATTENDANCE_TABLE ∈ names ->
      forall spec, ~ creates spec evs).
Proof.
  intros Hnames evs.
  destruct (initialize_aws_resources_creates E s names Hnames) as [Hsound Hall].
  fold evs in Hsound, Hall.
  split; [repeat split; reflexivity|].
  split; [exact Hsound|].
  split.
  - intros b Hb. destruct (Hall b Hb) as [Hu Ha].
    split; (split; [assumption|]); intros Hc;
      destruct (Hsound _ Hc) as [[Heq Hno]|[Heq Hno]];
      first [exact Hno | discriminate Heq].
  - intros Hu Ha spec Hc.
    destruct (Hsound _ Hc) as [[_ Hno]|[_ Hno]]; contradiction.
Qed.

(** The first start, with no table yet: both are created. *)
Example initialize_aws_resources_run :
  List.filter is_mutation
    (trace (initialize_aws_resources (sample_env empty_service) initial_app).2)
  = [ Request 1 (create_table users_table_spec);
      Request 3 (create_table attendance_table_spec);
      Request 6 (create_collection COLLECTION_ID) ].
Proof. vm_compute. reflexivity. Qed.

(** A later start, with both tables there: nothing is created. *)
Lemma tables_are_created_witness :
  answer (sample_env one_user_service) _ (tick initial_app) tables_all
  = Returns [USERS_TABLE; ATTENDANCE_TABLE]
  /\ forall spec,
       ~ creates spec
           (events_since initial_app
              (initialize_aws_resources (sample_env one_user_service)
                 initial_app).2).
Proof.
  split; [reflexivity|].
  apply (tables_are_created_when_absent (sample_env one_user_service)
           initial_app [USERS_TABLE; ATTENDANCE_TABLE] eq_refl).
  - apply list_elem_of_In. left. reflexivity.
  - apply list_elem_of_In. right. left. reflexivity.
Defined.

(** C6 as stated fails: when the request to create the users table is
    refused, the exception leaves the function, and the attendance table,
    absent as well, is not asked for. *)
Lemma attendance_table_not_created_after_failure :
  ~ (forall (E : env) (s : app) (names : list string),
       answer E _ (tick s) tables_all = Returns names ->
       (ATTENDANCE_TABLE ∉ names <->
        creates attendance_table_spec
          (events_since s (initialize_aws_resources E s).2))).
Proof.
  intros H.
  specialize (H (sample_env denied_service) initial_app [] eq_refl).
  assert (Hrun :
    events_since initial_app
      (initialize_aws_resources (sample_env denied_service) initial_app).2
    = [ Request 0 tables_all; Request 1 (create_table users_table_spec) ]).
  { vm_compute. reflexivity. }
  rewrite Hrun in H.
  destruct H as [H _].
  destruct H as (ev & Hin & Hspec).
  { intros Hin. apply list_elem_of_In in Hin. destruct Hin. }
  cbn [In] in Hin. destruct Hin as [<-|[<-|[]]]; discriminate Hspec.
Qed.

(** ** The camera thread *)

(** [start_camera] with the flag set: lines 1045-1047, nothing happens. *)
Lemma start_camera_when_running (L : pylib) (E : env) (label : widget) (s : app) :
  is_camera_running s = true -> start_camera L E label s = (Returns tt, s).
Proof. intros H. unfold start_camera. run_simpl. now rewrite H. Qed.

(** Every path through a callback run on a state. *)
Ltac split_matches :=
  repeat (run_simpl;
          cbn [isOpened capture_index from_option negb] in *;
          match goal with
          | |- context [match ?x with _ => _ end] =>
              lazymatch x with
              | context [match _ with _ => _ end] => fail
              | _ => destruct x eqn:?
              end
          end);
  run_simpl.

(** [start_camera] either leaves the threads, the last thread and the flag
    as they are, or, from a flag that is off, starts one thread, remembers
    it as the last and leaves the flag on. *)
Lemma start_camera_threads (L : pylib) (E : env) (label : widget) (s : app) :
  let s' := (start_camera L E label s).2 in
  (threads s' = threads s /\ camera_thread s' = camera_thread s
   /\ is_camera_running s' = is_camera_running s)
  \/ (is_camera_running s = false
      /\ threads s'
         = threads s ++ [{| thread_label := label; is_alive := true;
                            frame_count := 0 |}]
      /\ camera_thread s' = Some (length (threads s))
      /\ is_camera_running s' = true).
Proof.
  cbn zeta.
  unfold start_camera, start_camera_try, start_camera_except, open_capture,
    read_camera, release_camera, spawn_camera_thread.
  split_matches;
    first [ left; repeat split; solve [reflexivity | intros; congruence]
          | right; repeat split; solve [reflexivity | congruence] ].
Qed.

Lemma alive_after_alter (f : thread -> thread) (id : nat) (l : list thread)
    (i : nat) (th' : thread) :
  (forall th, is_alive (f th) = true -> is_alive th = true) ->
  alter f id l !! i = Some th' -> is_alive th' = true ->
  exists th, l !! i = Some th /\ is_alive th = true.
Proof.
  intros Hf Hlook Halive. rewrite list_lookup_alter in Hlook.
  destruct (decide (id = i)) as [->|_].
  - destruct (l !! i) as [th|] eqn:Hl; simpl in Hlook; [|discriminate Hlook].
    injection Hlook as <-. exists th. split; [reflexivity|now apply Hf].
  - exists th'. split; assumption.
Qed.

(** After a turn of a camera thread, a thread that runs was running before;
    nothing else about the threads has changed. *)
(** A turn of the loop keeps the last thread and the flag; a thread alive
    after it was alive before. *)
Lemma update_camera_turn_threads (L : pylib) (E : env) (id : nat) (s : app) :
  let s' := (update_camera_turn L E id s).2 in
  camera_thread s' = camera_thread s
  /\ is_camera_running s' = is_camera_running s
  /\ (forall i th', threads s' !! i = Some th' -> is_alive th' = true ->
        exists th, threads s !! i = Some th /\ is_alive th = true).
Proof.
  cbn zeta.
  unfold update_camera_turn, update_camera_exit, update_camera_try,
    update_camera_except, read_camera, img_resize, image_op.
  split_matches;
    (split; [reflexivity|]; split; [reflexivity|]; intros i0 th' Hlook Halive);
    first [ now exists th'
          | eapply alive_after_alter; [|exact Hlook|exact Halive];
            intros th; cbn [is_alive]; congruence ].
Qed.

(** The end of [stop_camera] touches neither the threads nor the flag. *)
Lemma stop_camera_finish_threads (label : widget) (s : app) :
  let s' := (stop_camera_finish label s).2 in
  threads s' = threads s /\ camera_thread s' = camera_thread s
  /\ is_camera_running s' = is_camera_running s.
Proof.
  cbn zeta. unfold stop_camera_finish, release_camera.
  split_matches; repeat split; reflexivity.
Qed.

(** Every action other than a join that returns on its timeout keeps
    [one_camera_thread]. *)
Lemma perform_keeps_one_camera_thread (L : pylib) (E : env) (a : action)
    (sys sys' : system) :
  is_timeout a = false -> one_camera_thread sys ->
  perform L E a sys = Some sys' -> one_camera_thread sys'.
Proof.
  intros Hno [HA HB] Hstep. unfold perform in Hstep.
  destruct a as [label|label|timed_out|id], (ui sys) as [|joining] eqn:Hui;
    try discriminate Hstep.
  - (* Start *)
    injection Hstep as <-. unfold one_camera_thread. cbn [the_app ui].
    destruct (start_camera_threads L E label (the_app sys))
      as [(Hth & Hcam & Hflag)|(Hflag & Hth & Hcam & Hon)];
      cbn zeta in *; rewrite Hth, Hcam.
    + split; [exact HA|]. rewrite Hflag. intros _. now apply HB.
    + split.
      * intros id th Hlook Halive.
        apply lookup_app_Some in Hlook as [Hold|[Hlen Hnew]].
        -- rewrite (HB eq_refl Hflag id th Hold) in Halive. discriminate.
        -- apply list_lookup_singleton_Some in Hnew as [Hid _].
           f_equal. lia.
      * intros _ Hoff. congruence.
  - (* Stop *)
    injection Hstep as <-. unfold one_camera_thread. cbn [the_app ui].
    split; [exact HA|]. intros Habs. discriminate Habs.
  - (* the join returns *)
    destruct timed_out; [discriminate Hno|].
    destruct (bool_decide _) eqn:Hjoin; [|discriminate Hstep].
    apply bool_decide_eq_true in Hjoin.
    injection Hstep as <-. unfold one_camera_thread. cbn [the_app ui].
    destruct (stop_camera_finish_threads joining (the_app sys))
      as (Hth & Hcam & _); cbn zeta in *. rewrite Hth, Hcam.
    split; [exact HA|]. intros _ _ id th Hlook.
    destruct (is_alive th) eqn:Halive; [|reflexivity].
    pose proof (HA id th Hlook Halive) as Hlast.
    unfold camera_thread_alive in Hjoin. rewrite Hlast, Hlook in Hjoin.
    cbn in Hjoin. congruence.
  - (* a turn of a thread, the interface thread idle *)
    injection Hstep as <-. unfold one_camera_thread. cbn [the_app ui].
    destruct (update_camera_turn_threads L E id (the_app sys))
      as (Hcam & Hflag & Hsub); cbn zeta in *. rewrite Hcam, Hflag.
    split.
    + intros i th' Hlook Halive.
      destruct (Hsub i th' Hlook Halive) as (th & Hl & Ha). eauto.
    + intros _ Hoff i th' Hlook.
      destruct (is_alive th') eqn:Halive; [|reflexivity].
      destruct (Hsub i th' Hlook Halive) as (th & Hl & Ha).
      rewrite (HB eq_refl Hoff i th Hl) in Ha. discriminate.
  - (* a turn of a thread, the interface thread in the join *)
    injection Hstep as <-. unfold one_camera_thread. cbn [the_app ui].
    destruct (update_camera_turn_threads L E id (the_app sys))
      as (Hcam & Hflag & Hsub); cbn zeta in *. rewrite Hcam.
    split.
    + intros i th' Hlook Halive.
      destruct (Hsub i th' Hlook Halive) as (th & Hl & Ha). eauto.
    + intros Habs. discriminate Habs.
Qed.

Lemma run_keeps_one_camera_thread (L : pylib) (E : env) (acts : list action)
    (sys sys' : system) :
  forallb (fun a => negb (is_timeout a)) acts = true ->
  one_camera_thread sys -> run L E acts sys = Some sys' ->
  one_camera_thread sys'.
Proof.
  revert sys. induction acts as [|a acts IH]; intros sys Hno Hinv Hrun.
  - injection Hrun as <-. exact Hinv.
  - cbn [forallb] in Hno. apply andb_prop in Hno as [Ha Hrest].
    apply negb_true_iff in Ha. cbn [run] in Hrun.
    destruct (perform L E a sys) as [sys1|] eqn:Hstep; [|discriminate Hrun].
    eapply IH; [exact Hrest| |exact Hrun].
    eapply perform_keeps_one_camera_thread; eassumption.
Qed.

(** When every thread alive is the last one started, at most one is alive. *)
Lemma at_most_one_alive (l : list thread) (last : option nat) :
  (forall id th, l !! id = Some th -> is_alive th = true -> last = Some id) ->
  length (List.filter is_alive l) <= 1.
Proof.
  revert last. induction l as [|th l IH]; intros last Hlast; [simpl; lia|].
  cbn [List.filter]. destruct (is_alive th) eqn:Halive.
  - assert (Hnone : List.filter is_alive l = []).
    { pose proof (Hlast 0 th eq_refl Halive) as H0.
      clear IH. induction l as [|th2 l IHl]; [reflexivity|].
      cbn [List.filter]. destruct (is_alive th2) eqn:H2.
      - pose proof (Hlast 1 th2 eq_refl H2). congruence.
      - apply IHl. intros [|id] th3 Hlook H3.
        + eapply Hlast; [|exact H3]. exact Hlook.
        + pose proof (Hlast (S (S id)) th3 Hlook H3). congruence. }
    rewrite Hnone. simpl. lia.
  - apply (IH (pred <$> last)).
    intros id th2 Hlook H2. rewrite (Hlast (S id) th2 Hlook H2). reflexivity.
Qed.

(** A turn of the loop reads the camera, posts callbacks and prints; it
    changes no widget. *)
Lemma update_camera_turn_posts (L : pylib) (E : env) (id : nat) :
  emits (fun _ => True) (fun e => is_widget_change e = false)
    (update_camera_turn L E id).
Proof.
  unfold update_camera_turn, update_camera_try, update_camera_except,
    update_camera_exit, read_camera, img_resize, image_op.
  emits_walk; reflexivity.
Qed.

Lemma update_camera_posts (L : pylib) (E : env) (turns id : nat) :
  emits (fun _ => True) (fun e => is_widget_change e = false)
    (update_camera L E turns id).
Proof.
  induction turns as [|turns IH]; cbn [update_camera]; emits_walk.
  - apply update_camera_turn_posts.
  - exact IH.
Qed.

(** A pass of the loop that reads a frame hands it to the interface thread
    with [after_idle] and goes on, or raises before it has posted anything. *)
Lemma update_camera_try_frame (L : pylib) (E : env) (label : widget)
    (count : nat) (frame : image) (s : app) :
  camera_frame E (tick s) = Returns (Some frame) ->
  let pass := update_camera_try L E label count s in
  (pass.1 = Returns (Some (S count))
   /\ exists size rest,
        events_since s pass.2
        = camera_read
          :: after_idle (cb_update_camera_display label
                           {| photo_of := frame; resized_to := size |})
          :: rest)
  \/ ((exists e, pass.1 = Raises e) /\ events_since s pass.2 = [camera_read]).
Proof.
  intros Hframe. cbn zeta.
  unfold update_camera_try, read_camera, img_resize, image_op, events_since.
  run_simpl. rewrite Hframe.
  split_matches;
    rewrite <- ?app_assoc, drop_app_length; cbn [Datatypes.app];
    first [ right; split; [eexists; reflexivity|reflexivity]
          | left; split; [reflexivity|]; eexists _, _; reflexivity ].
Qed.

(** X22.  [start_camera] returns at once, the application unchanged and no
    thread started, when [is_camera_running] is set.  [update_camera] changes
    no widget itself: a pass of its loop that reads a frame hands it to
    [update_camera_display] through [after_idle], unless a library call on the
    frame raises, and then nothing is posted.  From the start of the
    application, through any interleaving of [start_camera], [stop_camera]
    and the turns of the camera threads in which no [join] of [stop_camera]
    returns on its timeout, at most one camera thread is alive. *)
Theorem one_camera_thread_unless_join_times_out (L : pylib) (E : env) :
  (forall label s, is_camera_running s = true ->
     start_camera L E label s = (Returns tt, s))
  /\ (forall turns id,
        emits (fun _ => True) (fun e => is_widget_change e = false)
          (update_camera L E turns id))
  /\ (forall label count frame s,
        camera_frame E (tick s) = Returns (Some frame) ->
        let pass := update_camera_try L E label count s in
        (pass.1 = Returns (Some (S count))
         /\ exists size rest,
              events_since s pass.2
              = camera_read
                :: after_idle (cb_update_camera_display label
                                 {| photo_of := frame; resized_to := size |})
                :: rest)
        \/ ((exists e, pass.1 = Raises e)
            /\ events_since s pass.2 = [camera_read]))
  /\ (forall acts sys,
        forallb (fun a => negb (is_timeout a)) acts = true ->
        run L E acts initial_system = Some sys ->
        alive_threads (the_app sys) <= 1).
Proof.
  split; [intros label s; apply start_camera_when_running|].
  split; [apply update_camera_posts|].
  split; [intros label count frame s; apply update_camera_try_frame|].
  intros acts sys Hno Hrun.
  assert (Hinit : one_camera_thread initial_system).
  { split; [intros id th Hlook|intros _ _ id th Hlook]; discriminate Hlook. }
  destruct (run_keeps_one_camera_thread L E acts _ _ Hno Hinit Hrun) as [HA _].
  exact (at_most_one_alive _ _ HA).
Qed.

(** After the session one thread is alive, the second one started. *)
Example camera_session_run :
  (fun sys => (alive_threads (the_app sys), camera_thread (the_app sys)))
    <$> run sample_lib (sample_env empty_service) camera_session initial_system
  = Some (1, Some 1).
Proof. vm_compute. reflexivity. Qed.

(** The session, in which the join returns with the thread finished. *)
Lemma one_camera_thread_witness :
  exists sys,
    run sample_lib (sample_env empty_service) camera_session initial_system
    = Some sys
    /\ alive_threads (the_app sys) <= 1.
Proof.
  assert (Hrun : exists sys,
            run sample_lib (sample_env empty_service) camera_session
              initial_system = Some sys).
  { vm_compute. eexists. reflexivity. }
  destruct Hrun as [sys Hrun].
  exists sys. split; [exact Hrun|].
  exact (proj2 (proj2 (proj2
    (one_camera_thread_unless_join_times_out sample_lib
       (sample_env empty_service)))) camera_session sys eq_refl Hrun).
Defined.

(** With the join timed out, two threads are alive after the restart, and
    each has posted a frame since. *)
Example stalled_camera_session_run :
  (fun sys => (is_alive <$> threads (the_app sys),
               frame_count <$> threads (the_app sys)))
    <$> run sample_lib (sample_env empty_service) stalled_camera_session
          initial_system
  = Some ([true; true], [2; 1]).
Proof. vm_compute. reflexivity. Qed.

(** C7.  The code fails the claim: [join(timeout=1.0)], line 1123, can
    return with the thread still in its loop, and [stop_camera] does not look
    whether it has.  It goes on, the next [start_camera] finds the flag off
    and starts a second thread, and the first one, finding the flag on and a
    camera at its next test, goes on as well: two camera threads are
    alive. *)
Lemma two_camera_threads_after_join_timeout :
  exists sys,
    run sample_lib (sample_env empty_service) stalled_camera_session
      initial_system = Some sys
    /\ alive_threads (the_app sys) = 2
    /\ ~ (forall (L : pylib) (E : env) (acts : list action) (sys : system),
            run L E acts initial_system = Some sys ->
            alive_threads (the_app sys) <= 1).
Proof.
  assert (Hrun : exists sys,
            run sample_lib (sample_env empty_service) stalled_camera_session
              initial_system = Some sys).
  { vm_compute. eexists. reflexivity. }
  destruct Hrun as [sys Hrun].
  assert (Htwo : alive_threads (the_app sys) = 2).
  { apply (f_equal (fmap (fun sys => alive_threads (the_app sys)))) in Hrun.
    vm_compute in Hrun. injection Hrun as Hrun. symmetry. exact Hrun. }
  exists sys. split; [exact Hrun|]. split; [exact Htwo|].
  intros Hone. pose proof (Hone _ _ _ _ Hrun) as Hle. lia.
Qed.

(** * More properties of the code *)

(** ** [float_to_decimal] once more *)

(** A map leaves a list as it is exactly when it leaves every element. *)
Lemma map_fixed {A : Type} (f : A -> A) (l : list A) :
  List.map f l = l <-> Forall (fun a => f a = a) l.
Proof.
  induction l as [|a l IH]; simpl.
  - split; [intros _; apply Forall_nil_2|reflexivity].
  - split.
    + intros [= Ha Hl]. apply Forall_cons_2; [exact Ha|now apply IH].
    + intros H. apply Forall_cons_1 in H as [Ha Hl].
      rewrite Ha. f_equal. now apply IH.
Qed.

(** No element passes the test. *)
Lemma existsb_false_Forall {A : Type} (f : A -> bool) (l : list A) :
  existsb f l = false <-> Forall (fun a => f a = false) l.
Proof.
  induction l as [|a l IH]; simpl.
  - split; [intros _; apply Forall_nil_2|reflexivity].
  - rewrite orb_false_iff, IH. split.
    + intros [Ha Hl]. now apply Forall_cons_2.
    + intros H. now apply Forall_cons_1 in H.
Qed.

(** X1.  Converting an object twice gives what converting it once gives:
    the floats [float_to_decimal] reaches are gone after the first pass, and
    the rest is left as it is. *)
Theorem float_to_decimal_idempotent (str : Q -> string) (obj : pyval) :
  float_to_decimal str (float_to_decimal str obj) = float_to_decimal str obj.
Proof.
  induction obj as [| | | | | |l IH|l IH|l IH|kvs IH] using pyval_nested_ind;
    simpl; try reflexivity.
  - f_equal. rewrite List.map_map. apply List.map_ext_Forall. exact IH.
  - f_equal. rewrite List.map_map. apply List.map_ext_Forall.
    eapply Forall_impl; [exact IH|].
    intros [k v] [_ Hv]; simpl in *. now rewrite Hv.
Qed.

(** X2.  [float_to_decimal] returns its argument unchanged exactly when no
    float sits at a place it reaches: the object itself, an element of a list,
    a value of a dict, through lists and dict values at any depth. *)
Theorem float_to_decimal_fixed_points (str : Q -> string) (obj : pyval) :
  float_to_decimal str obj = obj <-> has_reached_float obj = false.
Proof.
  induction obj as [| | | | | |l IH|l IH|l IH|kvs IH] using pyval_nested_ind;
    simpl; try (split; [reflexivity|reflexivity]);
    try (split; [intros _; reflexivity|intros _; reflexivity]).
  - split; discriminate.
  - rewrite existsb_false_Forall. split.
    + intros [= Hl]. apply map_fixed in Hl.
      rewrite Forall_forall in *. intros x Hx. apply IH; auto.
    + intros H. f_equal. apply map_fixed.
      rewrite Forall_forall in *. intros x Hx. apply IH; auto.
  - rewrite existsb_false_Forall. split.
    + intros [= Hl]. apply map_fixed in Hl.
      rewrite Forall_forall in *. intros [k v] Hx.
      apply (IH _ Hx). simpl. specialize (Hl _ Hx). simpl in Hl. congruence.
    + intros H. f_equal. apply map_fixed.
      rewrite Forall_forall in *. intros [k v] Hx. simpl. f_equal.
      apply (IH _ Hx). exact (H _ Hx).
Qed.

(** ** The collection and the outcome of [initialize_aws_resources] *)

(** Which of the listed events it is. *)
Ltac in_cases H :=
  cbn [In] in H;
  repeat match type of H with
  | _ \/ _ => destruct H as [H|H]
  | False => destruct H
  end.

(** X3.  [initialize_aws_resources] returns [False] exactly when it has put a
    message box on the screen; the box is then its last action and says that
    the resources could not be initialised.  An exception leaves it only from
    the table part, lines 41-68: the last thing it did is then the listing,
    the creation or the wait of a table, and the exception is the one that
    request raised. *)
Theorem initialize_aws_resources_outcome (E : env) (s : app) :
  let r := initialize_aws_resources E s in
  let evs := events_since s r.2 in
  (r.1 = Returns false <-> existsb is_dialog evs = true)
  /\ (r.1 = Returns false ->
      exists e, last evs
                = Some (showerror "Error"
                          ("Failed to initialize AWS resources: " +:+ e)))
  /\ (forall e, r.1 = Raises e ->
        exists n A (q : request A),
          last evs = Some (Request n q)
          /\ answer E A n q = Raises e
          /\ is_table_request q = true).
Proof.
  cbn zeta. unfold events_since, initialize_aws_resources.
  split_paths; run_events; cbn [existsb is_dialog orb last];
    (split; [split; intros H; first [discriminate H | reflexivity]|]);
    (split; [intros H; first [discriminate H | eexists; reflexivity]|]);
    intros e' H; try discriminate H; injection H as <-;
    eexists _, _, _; (split; [reflexivity|]); (split; [eassumption|reflexivity]).
Qed.

(** X4.  [initialize_aws_resources] asks to create a collection only under
    the name [COLLECTION_ID], right after a listing of the collections that
    was answered without that name.  When it returns [True], the listing was
    answered, and either the name was in it or the creation was asked for and
    succeeded. *)
Theorem collection_is_created_when_absent (E : env) (s : app) :
  let r := initialize_aws_resources E s in
  let evs := events_since s r.2 in
  (forall e id, In e evs -> is_create_collection e = Some id ->
     id = COLLECTION_ID
     /\ exists n ids,
          e = Request (S n) (create_collection COLLECTION_ID)
          /\ In (Request n list_collections) evs
          /\ answer E _ n list_collections = Returns ids
          /\ COLLECTION_ID ∉ ids)
  /\ (r.1 = Returns true ->
      exists n ids,
        In (Request n list_collections) evs
        /\ answer E _ n list_collections = Returns ids
        /\ (COLLECTION_ID ∈ ids
            \/ (In (Request (S n) (create_collection COLLECTION_ID)) evs
                /\ answer E _ (S n) (create_collection COLLECTION_ID)
                   = Returns tt))).
Proof.
  cbn zeta. unfold events_since, initialize_aws_resources.
  split_paths; run_events;
    repeat match goal with
    | H : bool_decide _ = true |- _ => apply bool_decide_eq_true in H
    | H : bool_decide _ = false |- _ => apply bool_decide_eq_false in H
    end;
    (split;
     [ intros ev id Hin Hid; in_cases Hin; subst ev;
       cbn [is_create_collection] in Hid; try discriminate Hid;
       injection Hid as <-; (split; [reflexivity|]);
       eexists _, _; (split; [reflexivity|]);
       (split; [pick_event|]); (split; [eassumption|assumption])
     | intros H; try discriminate H;
       eexists _, _; (split; [pick_event|]); (split; [eassumption|]);
       first [ left; assumption
             | right; split; [pick_event|];
               match goal with
               | Hc : answer _ _ _ (create_collection _) = Returns ?u |- _ =>
                   destruct u; exact Hc
               end ] ]).
Qed.

(** ** Callbacks that only look *)
Lemma read_only_callbacks (L : pylib) (E : env) :
  let quiet := fun e => is_mutation e = false in
  (forall img, emits (fun _ => True) quiet (detect_faces_in_image L E img))
  /\ (forall img label, emits (fun _ => True) quiet (check_face_in_image L E img label))
  /\ emits (fun _ => True) quiet (load_verify_users L E)
  /\ emits (fun _ => True) quiet (load_users L E)
  /\ emits (fun _ => True) quiet (update_dashboard_stats L E)
  /\ emits (fun _ => True) quiet (verify_face L E)
  /\ emits (fun _ => True) quiet (load_attendance_report L E)
  /\ emits (fun _ => True) quiet (export_attendance_report L E).
Proof.
  intros quiet; subst quiet.
  split; [intros img|split; [intros img label|repeat apply conj]];
    emits_walk; reflexivity.
Qed.

(** X5.  Looking never writes: [detect_faces_in_image], [check_face_in_image],
    [load_verify_users], [load_users], [update_dashboard_stats],
    [verify_face], [load_attendance_report] and [export_attendance_report]
    send no request that changes the face collection or a table. *)
Theorem viewing_changes_nothing_remote (L : pylib) (E : env) (s : app) :
  let quiet := Forall (fun e => is_mutation e = false) in
  (forall img, quiet (events_since s (detect_faces_in_image L E img s).2))
  /\ (forall img label,
        quiet (events_since s (check_face_in_image L E img label s).2))
  /\ quiet (events_since s (load_verify_users L E s).2)
  /\ quiet (events_since s (load_users L E s).2)
  /\ quiet (events_since s (update_dashboard_stats L E s).2)
  /\ quiet (events_since s (verify_face L E s).2)
  /\ quiet (events_since s (load_attendance_report L E s).2)
  /\ quiet (events_since s (export_attendance_report L E s).2).
Proof.
  cbn zeta.
  destruct (read_only_callbacks L E) as (H1 & H2 & H3 & H4 & H5 & H6 & H7 & H8).
  split; [intros img|split; [intros img label|repeat apply conj]];
    apply (emits_events_since (I := fun _ => True)); auto using Logic.I.
Qed.

(** ** What [register_user] and [process_attendance] write *)

(** Events that change nothing remote leave nothing among the requests that
    do. *)
Lemma filter_quiet (l : list event) :
  Forall (fun e => is_mutation e = false) l -> List.filter is_mutation l = [].
Proof.
  induction 1 as [|e l He _ IH]; simpl; [reflexivity|]. now rewrite He.
Qed.

(** The refresh at the end of [register_user], lines 1541-1544. *)
Lemma refresh_is_quiet (L : pylib) (E : env) :
  emits (fun _ => True) (fun e => is_mutation e = false)
    (bind (load_users L E) (fun _ => update_dashboard_stats L E)).
Proof. emits_walk; reflexivity. Qed.

(** X6.  [register_user] changes the remote state at most twice, in this
    order: one [index_faces] request for the captured picture, with the
    stripped user id as [ExternalImageId]; and, when that was answered with a
    face record, one [put_item] on the users table, of the item made of the
    stripped form fields, the [FaceId] and the confidence of the first record,
    and the time of the clock read in between.  What it calls afterwards
    ([load_users], [update_dashboard_stats]) adds nothing. *)
Theorem register_user_writes_one_user (L : pylib) (E : env) (s : app) :
  let user_id := str_strip L (register_user_id s) in
  let name := str_strip L (register_name s) in
  let email := str_strip L (register_email s) in
  let department := str_strip L (register_department s) in
  let sent :=
    List.filter is_mutation (events_since s (register_user L E s).2) in
  sent = []
  \/ exists img n qf,
       register_captured_image s = Some img
       /\ let request :=
            index_faces COLLECTION_ID (imencode_jpg L img) user_id ["ALL"] qf in
          match answer E _ n request with
          | Returns (record :: _) =>
              sent = [ Request n request;
                       Request (S (S n))
                         (put_item USERS_TABLE
                            (user_record user_id name email department
                               (FaceId record)
                               (Decimal (str_float L (Confidence record)))
                               (clock E (S n)))) ]
          | _ => sent = [Request n request]
          end.
Proof.
  cbn zeta.
  pose proof (refresh_is_quiet L E) as Hrefresh.
  match goal with
  | |- context [List.filter is_mutation ?l] =>
      pattern (List.filter is_mutation l)
  end.
  match goal with |- ?Q _ => set (shape := Q) end.
  unfold register_user, register_user_try, register_user_except,
    detect_faces_in_image, detect_faces_in_image_except, reset_register_image.
  revert Hrefresh.
  generalize (bind (load_users L E) (fun _ => update_dashboard_stats L E)).
  intros refresh Hrefresh.
  unfold events_since.
  split_all.
  all: try match goal with
       | Hf : emits _ _ ?f, H : ?f ?s1 = (_, ?s2) |- _ =>
           let evs := fresh "evs" in
           let Ht := fresh "Ht" in
           let Hq := fresh "Hq" in
           destruct (Hf s1 Logic.I) as [_ (evs & Ht & Hq)];
           rewrite H in Ht; cbn [snd] in Ht; run_simpl;
           rewrite ?Ht; apply filter_quiet in Hq
       end.
  all: rewrite <- ?app_assoc; rewrite drop_app_length;
       repeat (cbn [List.filter is_mutation Datatypes.app];
               rewrite ?List.filter_app);
       repeat match goal with Hq : List.filter is_mutation _ = [] |- _ =>
                rewrite Hq; clear Hq end;
       cbn [Datatypes.app].
  all: subst shape; cbn beta.
  all: try (left; reflexivity).
  all: right;
       match goal with
       | Hi : answer _ _ ?n (index_faces _ _ _ _ ?qf) = _ |- _ =>
           eexists _, n, qf; split; [reflexivity|];
           cbn zeta; rewrite Hi; reflexivity
       end.
Qed.

(** The refresh at the end of [process_attendance], line 1833. *)
Lemma update_dashboard_stats_is_quiet (L : pylib) (E : env) :
  emits (fun _ => True) (fun e => is_mutation e = false)
    (update_dashboard_stats L E).
Proof. emits_walk; reflexivity. Qed.

(** The requests of a run that change the collection or a table: those of
    the events listed, the rest coming from callbacks that send none. *)
Ltac sent_requests :=
  try match goal with
      | Hf : emits _ _ ?f, H : ?f ?s1 = (_, ?s2) |- _ =>
          let evs := fresh "evs" in
          let Ht := fresh "Ht" in
          let Hq := fresh "Hq" in
          destruct (Hf s1 Logic.I) as [_ (evs & Ht & Hq)];
          rewrite H in Ht; cbn [snd] in Ht; run_simpl;
          rewrite ?Ht; apply filter_quiet in Hq
      end;
  rewrite <- ?app_assoc, ?drop_app_length, ?drop_all;
  repeat (cbn [List.filter is_mutation Datatypes.app];
          rewrite ?List.filter_app);
  repeat match goal with Hq : List.filter is_mutation _ = [] |- _ =>
           rewrite Hq; clear Hq end;
  cbn [Datatypes.app].

(** X7.  [process_attendance] changes the remote state at most once: one
    [put_item] on the attendance table, of the record of the first match of
    its face search, for the user the users table holds under the match's
    [ExternalImageId], with that user's name. *)
Theorem process_attendance_writes_one_record (L : pylib) (E : env) (s : app) :
  let sent :=
    List.filter is_mutation (events_since s (process_attendance L E s).2) in
  sent = []
  \/ exists img n m rest user_id user name,
       attendance_captured_image s = Some img
       /\ answer E _ n
            (search_faces_by_image COLLECTION_ID (imencode_jpg L img) 1
               (py_int (scale_value (match_threshold s))))
          = Returns (m :: rest)
       /\ ExternalImageId m = Some user_id
       /\ answer E _ (S n) (get_item USERS_TABLE user_id) = Returns (Some user)
       /\ user !! "name" = Some name
       /\ sent = [ Request (S (S (S n)))
                     (put_item ATTENDANCE_TABLE
                        (attendance_record user_id name (clock E (S (S n)))
                           (Decimal (str_float L (Similarity m))))) ].
Proof.
  cbn zeta.
  pose proof (update_dashboard_stats_is_quiet L E) as Hrefresh.
  match goal with
  | |- context [List.filter is_mutation ?l] =>
      pattern (List.filter is_mutation l)
  end.
  match goal with |- ?Q _ => set (shape := Q) end.
  unfold process_attendance, process_attendance_try, process_attendance_except,
    detect_faces_in_image, detect_faces_in_image_except, external_image_id,
    getitem.
  revert Hrefresh. generalize (update_dashboard_stats L E).
  intros refresh Hrefresh.
  unfold events_since.
  split_all.
  all: sent_requests.
  all: subst shape; cbn beta.
  all: try (left; reflexivity).
  all: right.
  all: match goal with
       | Hs : answer _ _ ?n (search_faces_by_image _ _ _ _)
              = Returns (?m :: ?rest),
         Hid : ExternalImageId ?m = Some ?u,
         Hg : answer _ _ _ (get_item _ ?u) = Returns (Some ?g),
         Hn : ?g !! "name" = Some ?nm |- _ =>
           eexists _, n, m, rest, u, g, nm;
           repeat (split; [first [reflexivity | eassumption]|]); reflexivity
       end.
Qed.

(** ** The items written and the tables created *)
Lemma writes_are_keyed (L : pylib) (E : env) :
  emits (fun _ => True) keyed (register_user L E)
  /\ emits (fun _ => True) keyed (process_attendance L E).
Proof.
  split; emits_walk; intros table it Hw; simpl in Hw; try discriminate Hw;
    injection Hw as <- <-.
  - exists users_table_spec. split; [left; reflexivity|].
    split; reflexivity.
  - exists attendance_table_spec. split; [right; left; reflexivity|].
    split; reflexivity.
Qed.

(** X8.  Every item [register_user] and [process_attendance] write goes to
    one of the two tables [initialize_aws_resources] creates, and carries each
    key attribute of that table's [KeySchema] as a string, the type its
    [AttributeDefinitions] declare. *)
Theorem written_items_carry_the_table_keys (L : pylib) (E : env) (s : app) :
  Forall keyed (events_since s (register_user L E s).2)
  /\ Forall keyed (events_since s (process_attendance L E s).2).
Proof.
  destruct (writes_are_keyed L E) as [H1 H2].
  split; apply (emits_events_since (I := fun _ => True)); auto using Logic.I.
Qed.





(** ** The dashboard timer *)

(** A callback that always returns, followed by one more event. *)
Lemma then_log {A : Type} (m : M A) (e : event) (P : event -> Prop) (s : app) :
  safe m -> emits (fun _ => True) P m ->
  (bind m (fun _ => log e) s).1 = Returns tt
  /\ exists evs,
       events_since s (bind m (fun _ => log e) s).2 = evs ++ [e]
       /\ Forall P evs.
Proof.
  intros Hsafe Hm. destruct (Hsafe s) as [a Ha].
  destruct (Hm s Logic.I) as [_ (evs & Ht & HP)].
  unfold bind, events_since. destruct (m s) as [[a'|e'] s1]; simpl in *;
    [|discriminate Ha].
  split; [reflexivity|]. exists evs. split; [|exact HP].
  rewrite Ht, <- app_assoc, drop_app_length. reflexivity.
Qed.

(** X10.  [update_dashboard_stats] always returns, whatever the services
    answer, and its last action is to schedule itself once more in 60000 ms;
    before that it schedules nothing and opens no message box. *)
Theorem update_dashboard_stats_reschedules (L : pylib) (E : env) (s : app) :
  (update_dashboard_stats L E s).1 = Returns tt
  /\ exists evs,
       events_since s (update_dashboard_stats L E s).2
       = evs ++ [after 60000 cb_update_dashboard_stats]
       /\ Forall (fun e => is_dialog e = false /\ is_after e = false) evs.
Proof.
  unfold update_dashboard_stats. apply then_log.
  - safe_walk.
  - emits_walk; split; reflexivity.
Qed.

(** ** The verdict of [verify_face] *)

(** The match found carries the user id looked for. *)
Lemma find_user_match_found (user_id : string) (matches : list face_match)
    (m : face_match) :
  find_user_match user_id matches = Returns (Some m) ->
  In m matches /\ ExternalImageId m = Some user_id.
Proof.
  induction matches as [|m0 matches IH]; cbn [find_user_match]; [discriminate|].
  destruct (ExternalImageId m0) as [u|] eqn:Hu; [|discriminate].
  destruct (bool_decide (u = user_id)) eqn:Heq.
  - apply bool_decide_eq_true in Heq. intros [= <-]. subst u.
    split; [now left|exact Hu].
  - intros H. destruct (IH H) as [Hin Hid]. split; [now right|exact Hid].
Qed.

(** X11.  [verify_face] shows its verdict in green only when the face search,
    with the captured picture, was answered with a match whose
    [ExternalImageId] is the selected user and whose similarity is not below
    80, and the users table holds that user. *)
Theorem verify_face_verifies_only_a_match (L : pylib) (E : env) (s : app) :
  Exists is_verified (events_since s (verify_face L E s).2) ->
  exists img n matches m user,
    verify_captured_image s = Some img
    /\ answer E _ n
         (search_faces_by_image COLLECTION_ID (imencode_jpg L img) 10 50)
       = Returns matches
    /\ In m matches
    /\ ExternalImageId m = Some (combo_text (verify_user_id s))
    /\ float_lt (float_of_decimal L (Decimal (str_float L (Similarity m)))) 80
       = false
    /\ answer E _ (S n) (get_item USERS_TABLE (combo_text (verify_user_id s)))
       = Returns (Some user).
Proof.
  unfold verify_face, verify_face_try, verify_face_except,
    detect_faces_in_image, detect_faces_in_image_except, external_image_id,
    events_since.
  split_all; rewrite <- ?app_assoc, ?drop_app_length, ?drop_all;
    cbn [Datatypes.app];
    intros Hex; apply Exists_exists in Hex as (ev & Hin & text & Hev);
    apply list_elem_of_In in Hin; in_cases Hin; subst ev;
    try discriminate Hev.
  all: match goal with
       | Hs : answer _ _ ?n (search_faces_by_image _ _ _ _) = Returns ?ms,
         Hf : find_user_match _ ?ms = Returns (Some ?m),
         Hg : answer _ _ _ (get_item _ _) = Returns (Some ?g),
         Hb : negb _ = true |- _ =>
           destruct (find_user_match_found _ _ _ Hf) as [Hin Hid];
           apply negb_true_iff in Hb;
           exists i, n, ms, m, g; repeat (split; [first [reflexivity | assumption]|]);
           assumption
       end.
Qed.

(** A match of 95 for the selected user is verified. *)
Lemma verify_face_verifies_witness :
  exists m,
    In m [{| Similarity := 95%Q; ExternalImageId := Some "u1" |}]
    /\ ExternalImageId m = Some "u1".
Proof.
  assert (Hex : Exists is_verified
            (events_since verify_ready
               (verify_face sure_lib (sample_env one_user_service)
                  verify_ready).2)).
  { set (evs := events_since _ _). vm_compute in evs. subst evs.
    repeat first [ apply Exists_cons_hd; eexists; reflexivity
                 | apply Exists_cons_tl ]. }
  destruct (verify_face_verifies_only_a_match sure_lib
              (sample_env one_user_service) verify_ready Hex)
    as (img & n & matches & m & user & _ & Hs & Hin & Hid & _).
  exists m. split; [|exact Hid].
  vm_compute in Hs. injection Hs as <-. exact Hin.
Defined.

(** ** Early returns *)

(** X12.  With the form filled in, a user id the table does not hold and one
    face detected whose brightness or sharpness is below 30,
    [register_user] asks the operator; when the operator declines it returns,
    having opened no other message box and having sent no request that
    changes the collection or a table. *)
Theorem register_user_asks_before_a_poor_picture (L : pylib) (E : env)
    (s : app) (img : image) (face : face_detail) :
  form_filled L s ->
  register_captured_image s = Some img ->
  answer E _ (tick s) (get_item USERS_TABLE (str_strip L (register_user_id s)))
  = Returns None ->
  answer E _ (S (tick s)) (detect_faces (imencode_jpg L img) ["ALL"])
  = Returns [face] ->
  low_quality L face = true ->
  operator_yes E (S (S (tick s))) = false ->
  (register_user L E s).1 = Returns tt
  /\ List.filter (fun e => is_dialog e || is_mutation e)
       (events_since s (register_user L E s).2)
     = [askyesno "Low Quality Face"
          ("The face image has low quality " +:+ quality_text L face +:+ "."
           +:+ LF +:+ "This may affect recognition accuracy. Continue anyway?")].
Proof.
  intros (H1 & H2 & H3 & H4) Himg Hget Hdetect Hlow Hno.
  apply (bool_decide_eq_false_2 _) in H1, H2, H3, H4.
  unfold register_user, register_user_try, register_user_except,
    detect_faces_in_image, detect_faces_in_image_except, events_since.
  run_simpl. rewrite H1, H2, H3, H4. cbn [orb]. run_simpl.
  rewrite Himg. run_simpl.
  destruct (debug_mode_var s) eqn:Hd; run_simpl;
    rewrite ?Hget; run_simpl; rewrite ?Hdetect; run_simpl;
    rewrite ?Hlow; run_simpl; rewrite ?Hno; cbn [negb]; run_events;
    split; reflexivity.
Qed.

(** X13.  When there are records to export and the operator closes the file
    dialog without a path, [export_attendance_report] returns after the scan
    and the dialog: no file is written, no message box follows. *)
Theorem export_cancelled_writes_nothing (L : pylib) (E : env) (s : app)
    (record : item) (records : list item) :
  answer E _ (tick s) (scan ATTENDANCE_TABLE (Some (report_date_var s)))
  = Returns (record :: records) ->
  operator_path E (S (tick s)) = "" ->
  (export_attendance_report L E s).1 = Returns tt
  /\ events_since s (export_attendance_report L E s).2
     = [ Request (tick s) (scan ATTENDANCE_TABLE (Some (report_date_var s)));
         asksaveasfilename ("attendance_" +:+ report_date_var s +:+ ".csv") ].
Proof.
  intros Hscan Hpath.
  unfold export_attendance_report, export_attendance_report_try,
    export_attendance_report_except, events_since.
  run_simpl. rewrite Hscan. run_simpl. rewrite Hpath.
  rewrite (bool_decide_eq_true_2 _ (eq_refl "")). run_events.
  split; reflexivity.
Qed.

(** A picture without a sharpness measure is a poor one. *)
Lemma register_user_asks_witness :
  low_quality sample_lib dim_face = true
  /\ (register_user sample_lib wary_env filled_form).1 = Returns tt.
Proof.
  split; [reflexivity|].
  refine (proj1 (register_user_asks_before_a_poor_picture sample_lib wary_env
                   filled_form "picture" dim_face _ eq_refl eq_refl eq_refl
                   eq_refl eq_refl)).
  repeat split; discriminate.
Defined.

(** One record, and the dialog closed. *)
Lemma export_cancelled_witness :
  events_since initial_app
    (export_attendance_report sample_lib cancelling_env initial_app).2
  = [ Request 0 (scan ATTENDANCE_TABLE (Some "2024-05-02"));
      asksaveasfilename "attendance_2024-05-02.csv" ].
Proof.
  exact (proj2 (export_cancelled_writes_nothing sample_lib cancelling_env
                  initial_app ada_late [] eq_refl eq_refl)).
Defined.

(** X14.  When the face detection request raises, [detect_faces_in_image]
    returns the empty list, and [check_face_in_image] returns [False] and
    writes [No face detected] in red on the label, with no message box: a
    failure of the service reads as a picture without a face. *)
Theorem detection_failure_reads_as_no_face (L : pylib) (E : env)
    (img : image) (label : widget) (s : app) (e : exn) :
  answer E _ (tick s) (detect_faces (imencode_jpg L img) ["ALL"]) = Raises e ->
  (detect_faces_in_image L E img s).1 = Returns []
  /\ (check_face_in_image L E img label s).1 = Returns false
  /\ List.filter (fun ev => is_dialog ev || is_widget_change ev)
       (events_since s (check_face_in_image L E img label s).2)
     = [config label
          [("text", OText "No face detected"); ("foreground", OText "red")]].
Proof.
  intros Hfail.
  unfold check_face_in_image, detect_faces_in_image,
    detect_faces_in_image_except, events_since.
  run_simpl. rewrite Hfail. run_simpl.
  destruct (debug_mode_var s); run_events; repeat split; reflexivity.
Qed.

(** The service out of reach. *)
Lemma detection_failure_witness :
  (check_face_in_image sample_lib (sample_env unreachable_service) "picture"
     face_detected_label initial_app).1 = Returns false.
Proof.
  exact (proj1 (proj2 (detection_failure_reads_as_no_face sample_lib
                         (sample_env unreachable_service) "picture"
                         face_detected_label initial_app _ eq_refl))).
Defined.

(** ** Searching the users *)

(** The empty string is in every string. *)
Lemma str_contains_empty (hay : string) : str_contains "" hay = true.
Proof. destruct hay; reflexivity. Qed.

(** The rows the loop of [search_users] adds. *)
Lemma for_each_search_rows (L : pylib) (E : env) (str_lower : string -> string)
    (term : string) (items : list item) (s : app) :
  users_table
    (for_each items (fun user =>
       bind (lift (term_in_fields str_lower term searched_fields user))
         (fun found =>
            if found then
              bind (get users_table) (fun rows =>
                modify (set_users_table (rows ++ [user_row L E user])))
            else ret tt)) s).2
  = users_table s ++ search_rows L E str_lower term items.
Proof.
  revert s. induction items as [|user items IH]; intros s.
  - cbn [for_each search_rows]. run_simpl. now rewrite app_nil_r.
  - cbn [for_each search_rows].
    destruct (term_in_fields str_lower term searched_fields user)
      as [[|]|e] eqn:Hfound; unfold bind at 1; unfold lift at 1.
    + unfold bind at 1. unfold bind at 1. unfold get at 1. unfold modify at 1.
      rewrite IH. cbn [users_table set_users_table].
      now rewrite <- app_assoc.
    + unfold ret at 1. apply IH.
    + cbn [snd]. now rewrite app_nil_r.
Qed.

(** What [search_users] leaves in the table of the users tab. *)
Lemma search_users_rows (L : pylib) (E : env) (str_lower : string -> string)
    (entry : string) (s : app) :
  users_table (search_users L E str_lower entry s).2
  = match answer E _ (tick s) (scan USERS_TABLE None) with
    | Returns items => search_rows L E str_lower (str_lower entry) items
    | Raises _ => []
    end.
Proof.
  unfold search_users, search_users_try, search_users_except.
  cbn zeta. unfold try_except, call.
  unfold bind at 1. unfold modify at 1.
  unfold bind at 1. unfold bind at 1. unfold next_tick at 1.
  unfold bind at 1. unfold log at 1. unfold modify at 1. unfold lift at 1.
  cbn [tick trace set_trace set_tick set_users_table].
  destruct (answer E _ (tick s) (scan USERS_TABLE None)) as [items|e].
  - match goal with
    | |- users_table (let (_, _) := for_each items ?body ?s0 in _).2 = _ =>
        pose proof (for_each_search_rows L E str_lower (str_lower entry)
                      items s0) as Hrows;
        destruct (for_each items body s0) as [[[]|e] s1]
    end; cbn [snd] in *.
    + exact Hrows.
    + run_simpl. destruct (debug_mode_var s1); run_simpl; exact Hrows.
  - run_simpl. destruct (debug_mode_var s); reflexivity.
Qed.

(** On strings the test raises nothing. *)
Lemma term_in_text_fields (str_lower : string -> string) (term : string)
    (user : item) :
  text_fields user ->
  term_in_fields str_lower term searched_fields user
  = Returns (holds_term str_lower term user).
Proof.
  unfold text_fields, holds_term. generalize searched_fields.
  intros fields. induction 1 as [|field fields [text Ht] _ IH];
    cbn [term_in_fields existsb]; [reflexivity|].
  rewrite Ht. cbn [attr_lower].
  destruct (str_contains term (str_lower text)); [reflexivity|exact IH].
Qed.

(** With strings everywhere, the rows are those of the users that hold the
    term. *)
Lemma search_rows_of_texts (L : pylib) (E : env) (str_lower : string -> string)
    (term : string) (items : list item) :
  Forall text_fields items ->
  search_rows L E str_lower term items
  = List.map (user_row L E) (List.filter (holds_term str_lower term) items).
Proof.
  induction 1 as [|user items Hu _ IH]; cbn [search_rows List.filter];
    [reflexivity|].
  rewrite (term_in_text_fields _ _ _ Hu).
  destruct (holds_term str_lower term user); cbn [List.map]; now rewrite IH.
Qed.

(** The rows are rows of scanned users, in the order of the scan. *)
Lemma search_rows_sublist (L : pylib) (E : env) (str_lower : string -> string)
    (term : string) (items : list item) :
  sublist (search_rows L E str_lower term items) (List.map (user_row L E) items).
Proof.
  induction items as [|user items IH]; cbn [search_rows List.map].
  - constructor.
  - destruct (term_in_fields str_lower term searched_fields user) as [[|]|e].
    + now apply sublist_skip.
    + now apply sublist_cons.
    + apply sublist_nil_l.
Qed.

(** X15.  The rows [search_users] shows are rows [load_users] would show, in
    the same order; when every field searched is a string (or absent) in every
    user scanned, they are the rows of exactly the users that hold the
    lower-cased search text in the lower-cased user id, name, email or
    department. *)
Theorem search_users_shows_the_matching_users (L : pylib) (E : env)
    (str_lower : string -> string) (entry : string) (s : app)
    (items : list item) :
  answer E _ (tick s) (scan USERS_TABLE None) = Returns items ->
  let shown := users_table (search_users L E str_lower entry s).2 in
  sublist shown (users_table (load_users L E s).2)
  /\ (Forall text_fields items ->
      shown = List.map (user_row L E)
                (List.filter (holds_term str_lower (str_lower entry)) items)).
Proof.
  intros Hscan shown. subst shown.
  rewrite search_users_rows, load_users_rows, Hscan.
  split; [apply search_rows_sublist|apply search_rows_of_texts].
Qed.

(** X16.  With an empty search text, [search_users] shows the rows
    [load_users] shows, when the user ids scanned are strings. *)
Theorem search_users_without_a_term_lists_all (L : pylib) (E : env)
    (str_lower : string -> string) (s : app) :
  str_lower "" = "" ->
  (forall items,
     answer E _ (tick s) (scan USERS_TABLE None) = Returns items ->
     Forall (fun user => exists id,
               default (AStr "") (user !! "user_id") = AStr id) items) ->
  users_table (search_users L E str_lower "" s).2
  = users_table (load_users L E s).2.
Proof.
  intros Hempty Hids. rewrite search_users_rows, load_users_rows, Hempty.
  destruct (answer E _ (tick s) (scan USERS_TABLE None)) as [items|e];
    [|reflexivity].
  specialize (Hids items eq_refl).
  induction Hids as [|user items [id Hid] _ IH]; [reflexivity|].
  cbn [search_rows List.map searched_fields term_in_fields].
  rewrite Hid. cbn [attr_lower]. rewrite str_contains_empty.
  now rewrite IH.
Qed.

(** Ada is found whatever the case; nobody is called Bob. *)
Lemma search_users_shows_witness :
  users_table
    (search_users sample_lib (sample_env one_user_service) sample_lower "ADA"
       initial_app).2
  = [user_row sample_lib (sample_env one_user_service) ada]
  /\ users_table
       (search_users sample_lib (sample_env one_user_service) sample_lower
          "bob" initial_app).2
     = [].
Proof.
  split.
  - refine (proj2 (search_users_shows_the_matching_users sample_lib
                     (sample_env one_user_service) sample_lower "ADA"
                     initial_app [ada] eq_refl) _).
    repeat constructor; eexists; reflexivity.
  - reflexivity.
Defined.

(** The empty search on the service that knows Ada. *)
Lemma search_users_without_a_term_witness :
  users_table
    (search_users sample_lib (sample_env one_user_service) sample_lower ""
       initial_app).2
  = users_table
      (load_users sample_lib (sample_env one_user_service) initial_app).2.
Proof.
  apply search_users_without_a_term_lists_all; [reflexivity|].
  intros items [= <-]. repeat constructor. eexists. reflexivity.
Defined.

(** ** Starting and stopping the camera *)

(** X17.  A camera thread is alive after a turn of its loop only if it was
    alive before, [is_camera_running] was set, a camera was there and the read
    gave a frame; its frame counter has then gone up by one.  Otherwise the
    turn is its last: the thread ends at the first test of its loop after
    [stop_camera] has cleared the flag. *)
Theorem camera_thread_goes_on_only_while_running (L : pylib) (E : env)
    (id : nat) (s : app) (th' : thread) :
  threads (update_camera_turn L E id s).2 !! id = Some th' ->
  is_alive th' = true ->
  is_camera_running s = true
  /\ is_Some (camera s)
  /\ (exists frame, camera_frame E (tick s) = Returns (Some frame))
  /\ exists th, threads s !! id = Some th /\ is_alive th = true
                /\ frame_count th' = S (frame_count th).
Proof.
  unfold update_camera_turn, update_camera_exit, update_camera_try,
    update_camera_except, read_camera, img_resize, image_op.
  split_matches; intros Hlook Halive;
    try (rewrite list_lookup_alter in Hlook;
         destruct (decide (id = id)) as [_|Hne]; [|now destruct Hne]);
    repeat match goal with
    | H : threads s !! id = _ |- _ =>
        tryif constr_eq H Hlook then fail else (rewrite H in Hlook; clear H)
    end;
    cbn [fmap option_fmap option_map] in Hlook;
    try discriminate Hlook; injection Hlook as <-;
    cbn [is_alive frame_count] in *.
  all: try discriminate Halive.
  all: try (rewrite Halive in *; discriminate).
  all: match goal with
       | H : _ && bool_decide _ = true |- _ =>
           apply andb_prop in H as [Hflag Hcam];
           apply bool_decide_eq_true in Hcam
       end.
  all: repeat (split; [first [assumption | eexists; reflexivity]|]).
  all: eexists; repeat split; first [reflexivity | assumption].
Qed.

(** X18.  Called with the camera off, [start_camera] returns, and either it
    has started the camera (the flag set, one new thread, remembered as the
    last started, on an opened capture, no message box), or it has not (the
    flag off, no thread started, the threads and the last thread as before)
    and has shown an error box. *)
Theorem start_camera_starts_or_reports (L : pylib) (E : env) (label : widget)
    (s : app) :
  is_camera_running s = false ->
  let s' := (start_camera L E label s).2 in
  let evs := events_since s s' in
  (start_camera L E label s).1 = Returns tt
  /\ ((is_camera_running s' = true
       /\ threads s'
          = threads s ++ [{| thread_label := label; is_alive := true;
                             frame_count := 0 |}]
       /\ camera_thread s' = Some (length (threads s))
       /\ (exists c, camera s' = Some c /\ isOpened c = true)
       /\ existsb is_dialog evs = false
       /\ List.filter is_thread_start evs = [Thread_start (length (threads s))])
      \/ (is_camera_running s' = false
          /\ threads s' = threads s
          /\ camera_thread s' = camera_thread s
          /\ existsb is_showerror evs = true
          /\ List.filter is_thread_start evs = [])).
Proof.
  intros Hoff. cbn zeta.
  pattern (start_camera L E label s).
  match goal with |- ?Q _ => set (outcome := Q) end.
  unfold start_camera, start_camera_try, start_camera_except, open_capture,
    read_camera, release_camera, spawn_camera_thread.
  run_simpl. rewrite Hoff.
  split_matches; subst outcome; cbn beta; unfold events_since; run_events;
    repeat match goal with
    | H : negb ?b = _ |- _ => is_var b; destruct b; try discriminate H
    end;
    (split; [reflexivity|]);
    first [ left;
            repeat (split; [first [ reflexivity | assumption
                                  | eexists; split; reflexivity ]|]);
            reflexivity
          | right; repeat (split; [first [reflexivity | assumption]|]);
            reflexivity ].
Qed.

(** A turn of the loop leaves the capture and the flag alone. *)
Lemma update_camera_turn_keeps_camera (L : pylib) (E : env) (id : nat)
    (s : app) :
  camera (update_camera_turn L E id s).2 = camera s
  /\ is_camera_running (update_camera_turn L E id s).2 = is_camera_running s.
Proof.
  unfold update_camera_turn, update_camera_exit, update_camera_try,
    update_camera_except, read_camera, img_resize, image_op.
  split_matches; split; reflexivity.
Qed.

(** A run in two parts. *)
Lemma run_app (L : pylib) (E : env) (l1 l2 : list action) (sys sys' : system) :
  run L E (l1 ++ l2) sys = Some sys' ->
  exists sys1, run L E l1 sys = Some sys1 /\ run L E l2 sys1 = Some sys'.
Proof.
  revert sys. induction l1 as [|a l1 IH]; intros sys Hrun.
  - exists sys. split; [reflexivity|exact Hrun].
  - cbn [Datatypes.app run] in *.
    destruct (perform L E a sys) as [sys0|]; [|discriminate Hrun].
    apply IH, Hrun.
Qed.

(** Turns of the threads change neither the capture, the flag nor what the
    interface thread is doing. *)
Lemma turns_keep_camera (L : pylib) (E : env) (ids : list nat)
    (sys sys' : system) :
  run L E (List.map Turn ids) sys = Some sys' ->
  ui sys' = ui sys
  /\ camera (the_app sys') = camera (the_app sys)
  /\ is_camera_running (the_app sys') = is_camera_running (the_app sys).
Proof.
  revert sys. induction ids as [|id ids IH]; intros sys Hrun.
  - injection Hrun as <-. repeat split.
  - cbn [List.map run perform] in Hrun.
    destruct (IH _ Hrun) as (Hui & Hcam & Hflag).
    cbn [ui the_app] in *.
    destruct (update_camera_turn_keeps_camera L E id (the_app sys)) as [Hc Hf].
    repeat split; congruence.
Qed.

(** X19.  When [stop_camera] returns, whatever turns the camera threads took
    during its join and whether or not the join timed out, the capture is
    released: [self.camera] is [None], [is_camera_running] is off. *)
Theorem stop_camera_releases_the_camera (L : pylib) (E : env)
    (before : list action) (label : widget) (ids : list nat)
    (timed_out : bool) (sys sys' : system) :
  run L E (before ++ Stop label :: List.map Turn ids ++ [JoinReturns timed_out])
    sys = Some sys' ->
  camera (the_app sys') = None
  /\ is_camera_running (the_app sys') = false
  /\ ui sys' = Idle.
Proof.
  intros Hrun.
  apply run_app in Hrun as (sys0 & _ & Hrun).
  cbn [run] in Hrun.
  destruct (perform L E (Stop label) sys0) as [sys1|] eqn:Hstop;
    [|discriminate Hrun].
  apply run_app in Hrun as (sys2 & Hturns & Hjoin).
  apply turns_keep_camera in Hturns as (Hui & Hcam & Hflag).
  unfold perform in Hstop. destruct (ui sys0); [|discriminate Hstop].
  injection Hstop as <-. cbn [the_app ui] in *.
  cbn [run perform] in Hjoin. rewrite Hui in Hjoin.
  destruct (bool_decide _); [|discriminate Hjoin].
  injection Hjoin as <-. cbn [the_app ui].
  unfold stop_camera_begin in Hflag. run_simpl.
  unfold stop_camera_finish, release_camera.
  split_matches; repeat split; first [reflexivity | assumption].
Qed.

(** The camera started, a frame shown, and stopped. *)
Lemma stop_camera_releases_witness :
  exists sys',
    run sample_lib (sample_env empty_service)
      ([Start register_camera_label; Turn 0]
       ++ Stop register_camera_label :: List.map Turn [0; 0]
       ++ [JoinReturns false]) initial_system
    = Some sys'
    /\ camera (the_app sys') = None.
Proof.
  assert (Hrun : exists sys',
            run sample_lib (sample_env empty_service)
              ([Start register_camera_label; Turn 0]
               ++ Stop register_camera_label :: List.map Turn [0; 0]
               ++ [JoinReturns false]) initial_system
            = Some sys').
  { vm_compute. eexists. reflexivity. }
  destruct Hrun as [sys' Hrun].
  exists sys'. split; [exact Hrun|].
  exact (proj1 (stop_camera_releases_the_camera _ _ _ _ _ _ _ _ Hrun)).
Defined.

(** The first frame of a running camera. *)
Lemma camera_thread_goes_on_witness :
  threads (update_camera_turn sample_lib (sample_env empty_service) 0 filming).2 !! 0
  = Some {| thread_label := register_camera_label; is_alive := true;
            frame_count := 1 |}
  /\ exists frame,
       camera_frame (sample_env empty_service) (tick filming)
       = Returns (Some frame).
Proof.
  split; [reflexivity|].
  exact (proj1 (proj2 (proj2
    (camera_thread_goes_on_only_while_running sample_lib
       (sample_env empty_service) 0 filming _ eq_refl eq_refl)))).
Defined.

(** The first start. *)
Lemma start_camera_starts_witness :
  is_camera_running initial_app = false
  /\ (start_camera sample_lib (sample_env empty_service) register_camera_label
        initial_app).1 = Returns tt.
Proof.
  split; [reflexivity|].
  exact (proj1 (start_camera_starts_or_reports sample_lib
                  (sample_env empty_service) register_camera_label
                  initial_app eq_refl)).
Defined.

(** X23.  When [resize_image] computes a width or a height below 1 for the
    frame just read, as it does on a display label no more than 50 pixels
    high, [img.resize] raises: the pass posts nothing, the [except] clause
    prints the error when the debug toggle is on and only then, and the
    thread leaves its loop, with the flag still set and the camera still
    open. *)
Theorem camera_thread_ends_on_a_size_not_positive (L : pylib) (E : env)
    (id : nat) (s : app) (th : thread) (frame : image) (w h nw nh : Z) :
  threads s !! id = Some th -> is_alive th = true ->
  is_camera_running s = true -> is_Some (camera s) ->
  camera_frame E (tick s) = Returns (Some frame) ->
  image_call E (S (tick s)) = Returns tt ->
  image_call E (S (S (tick s))) = Returns tt ->
  winfo_size E (S (S (S (tick s)))) = (w, h) ->
  (1 < w)%Z -> (1 < h)%Z ->
  resize_image L (image_size L frame) w h = Returns (nw, nh) ->
  (nw < 1)%Z \/ (nh < 1)%Z ->
  let s' := (update_camera_turn L E id s).2 in
  threads s' !! id
  = Some {| thread_label := thread_label th; is_alive := false;
            frame_count := frame_count th |}
  /\ current_frame s' = Some frame
  /\ events_since s s'
     = camera_read
       :: (if debug_mode_var s
           then [ print "Error in camera thread: height and width must be > 0";
                  print "Camera thread stopped" ]
           else [])
  /\ is_camera_running s' = true
  /\ camera s' = camera s.
Proof.
  intros Hth Halive Hflag Hcam Hframe Hcvt Harr Hsize Hw Hh Hresize Hbad.
  cbn zeta.
  destruct (update_camera_turn_keeps_camera L E id s) as [Hkeep_camera Hkeep_flag].
  rewrite Hkeep_camera, Hkeep_flag.
  match goal with
  | |- ?A /\ ?B /\ ?C /\ _ /\ _ =>
      cut (A /\ B /\ C);
      [intros (HA & HB & HC);
       split; [exact HA|]; split; [exact HB|]; split; [exact HC|];
       split; [exact Hflag|reflexivity]|]
  end.
  clear Hkeep_camera Hkeep_flag.
  assert (Hsmall : (nw <? 1)%Z || (nh <? 1)%Z = true).
  { apply orb_true_iff. destruct Hbad; [left|right]; now apply Z.ltb_lt. }
  apply Z.ltb_lt in Hw, Hh.
  apply (bool_decide_eq_true_2 _) in Hcam.
  unfold update_camera_turn, update_camera_exit, update_camera_try,
    update_camera_except, read_camera, img_resize, image_op, events_since.
  run_simpl. rewrite Hth. run_simpl. rewrite Halive. cbn [negb]. run_simpl.
  rewrite Hflag, Hcam. cbn [andb]. run_simpl.
  rewrite Hframe. run_simpl. rewrite Hcvt. run_simpl. rewrite Harr. run_simpl.
  rewrite Hsize. run_simpl. rewrite Hw, Hh. cbn [andb]. run_simpl.
  rewrite Hresize. run_simpl. cbn [fst snd]. rewrite Hsmall. run_simpl.
  destruct (debug_mode_var s) eqn:Hd;
    repeat (progress (run_simpl; rewrite ?Hd));
    rewrite list_lookup_alter, decide_True by reflexivity;
    rewrite Hth; cbn [fmap option_fmap option_map];
    run_events; repeat split; reflexivity.
Qed.

(** On a label 400 pixels wide and 40 high the size asked for a frame of
    640 by 480 is negative, and the first turn of the thread is its last. *)
Lemma camera_thread_ends_witness :
  resize_image sample_lib (image_size sample_lib "frame") 400 40
  = Returns (-13, -10)%Z
  /\ (is_alive <$> threads (update_camera_turn sample_lib low_label_env 0
                             filming).2 !! 0) = Some false.
Proof.
  split; [reflexivity|].
  pose proof (camera_thread_ends_on_a_size_not_positive sample_lib low_label_env
                0 filming _ "frame" 400 40 (-13) (-10) eq_refl eq_refl eq_refl
                (ex_intro _ _ eq_refl) eq_refl eq_refl eq_refl eq_refl
                eq_refl eq_refl eq_refl (or_introl eq_refl)) as (Hth & _).
  cbn zeta in Hth. rewrite Hth. reflexivity.
Defined.

(** ** The size [resize_image] asks for *)

(** A rounded value, by the sign of the exact one. *)
Lemma close_to_nonneg (eps x y : Q) :
  (0 <= x)%Q -> close_to eps x y ->
  ((1 - eps) * x <= y /\ y <= (1 + eps) * x)%Q.
Proof.
  unfold close_to. intros Hx H. rewrite (Qabs_pos x Hx) in H.
  apply Qabs_Qle_condition in H. lra.
Qed.

Lemma close_to_nonpos (eps x y : Q) :
  (x <= 0)%Q -> close_to eps x y ->
  ((1 + eps) * x <= y /\ y <= (1 - eps) * x)%Q.
Proof.
  unfold close_to. intros Hx H. rewrite (Qabs_neg x Hx) in H.
  apply Qabs_Qle_condition in H. lra.
Qed.

(** [int] of a float keeps the sign and does not go beyond the next
    integer. *)
Lemma py_int_nonneg (x : Q) : (0 <= x)%Q -> (0 <= py_int x)%Z.
Proof.
  destruct x as [n d]. unfold Qle, py_int; simpl. intros H.
  apply Z.quot_pos; lia.
Qed.

Lemma py_int_nonpos (x : Q) : (x <= 0)%Q -> (py_int x <= 0)%Z.
Proof.
  destruct x as [n d]. unfold Qle, py_int; simpl. intros H.
  rewrite <- (Z.opp_involutive n), Z.quot_opp_l by lia.
  assert (0 <= Z.quot (- n) (Z.pos d))%Z by (apply Z.quot_pos; lia). lia.
Qed.

Lemma py_int_below (x : Q) (b : Z) :
  (0 <= b)%Z -> (x < inject_Z (b + 1))%Q -> (py_int x <= b)%Z.
Proof.
  intros Hb Hx. destruct (Qlt_le_dec x 0) as [Hneg|Hpos].
  - pose proof (py_int_nonpos x (Qlt_le_weak _ _ Hneg)). lia.
  - destruct x as [n d]. unfold Qle, Qlt, py_int in *; simpl in *.
    rewrite Z.quot_div_nonneg by lia.
    assert (n / Z.pos d < b + 1)%Z; [|lia].
    apply Z.div_lt_upper_bound; lia.
Qed.

(** The comparisons of floats are those of the rationals. *)
Lemma float_lt_spec (x y : Q) :
  (float_lt x y = true -> (x < y)%Q) /\ (float_lt x y = false -> (y <= x)%Q).
Proof.
  unfold float_lt. destruct (Qle_bool y x) eqn:H; simpl.
  - split; [discriminate|]. intros _. now apply Qle_bool_iff.
  - split; [|discriminate]. intros _. apply Qnot_le_lt. intros Hle.
    apply Qle_bool_iff in Hle. congruence.
Qed.

(** [min] is below both and is one of the two. *)
Lemma float_min_spec (x y : Q) :
  (float_min x y <= x)%Q /\ (float_min x y <= y)%Q
  /\ (float_min x y = x \/ float_min x y = y).
Proof.
  unfold float_min. destruct (float_lt_spec y x) as [Ht Hf].
  destruct (float_lt y x).
  - specialize (Ht eq_refl). repeat split; [lra|lra|now right].
  - specialize (Hf eq_refl). repeat split; [lra|lra|now left].
Qed.

(** The constants of the float model, written out for the arithmetic
    procedures. *)
Ltac float_constants :=
  unfold pixels in *;
  change (inject_Z (2 ^ 40)) with 1099511627776%Q in *;
  change (inject_Z (2 ^ 31)) with 2147483648%Q in *;
  change (2 ^ 52)%positive with 4503599627370496%positive in *;
  change (2 ^ 40)%positive with 1099511627776%positive in *;
  change (2 ^ 40)%Z with 1099511627776%Z in *;
  change (2 ^ 31)%Z with 2147483648%Z in *.

Section resize.
Context (L : pylib) (eps : Q).
Hypothesis eps_small : (0 <= eps /\ eps <= 1 # 2 ^ 52)%Q.
Hypothesis div_ok : accurate_division L eps.
Hypothesis mul_ok : accurate_product L eps.

(** The quotient of two sizes, times the divisor. *)
Lemma quotient_bounds (a b : Z) :
  (0 <= a <= pixels)%Z -> (0 < b <= pixels)%Z ->
  let r := float_div L (inject_Z a) (inject_Z b) in
  ((1 - eps) * inject_Z a <= r * inject_Z b
   /\ r * inject_Z b <= (1 + eps) * inject_Z a)%Q.
Proof using eps_small div_ok.
  intros Ha Hb r.
  assert (HbQ : (0 < inject_Z b)%Q) by (rewrite <- (Zlt_Qlt 0); lia).
  assert (HaQ : (0 <= inject_Z a)%Q) by (rewrite <- (Zle_Qle 0); lia).
  assert (Hq : (inject_Z a / inject_Z b * inject_Z b == inject_Z a)%Q)
    by (field; lra).
  assert (Hq0 : (0 <= inject_Z a / inject_Z b)%Q).
  { apply Qle_shift_div_l; [exact HbQ|lra]. }
  destruct (close_to_nonneg eps _ r Hq0 (div_ok a b ltac:(unfold pixels in *; lia) Hb))
    as [Hlo Hhi].
  set (q := (inject_Z a / inject_Z b)%Q) in *.
  split; nra.
Qed.

(** The same for a dividend that is not positive. *)
Lemma quotient_nonpos (a b : Z) :
  (- pixels <= a <= 0)%Z -> (0 < b <= pixels)%Z ->
  let r := float_div L (inject_Z a) (inject_Z b) in
  ((1 + eps) * inject_Z a <= r * inject_Z b
   /\ r * inject_Z b <= (1 - eps) * inject_Z a)%Q.
Proof using eps_small div_ok.
  intros Ha Hb r.
  assert (HbQ : (0 < inject_Z b)%Q) by (rewrite <- (Zlt_Qlt 0); lia).
  assert (HaQ : (inject_Z a <= 0)%Q) by (rewrite <- (Zle_Qle _ 0); lia).
  assert (Hq : (inject_Z a / inject_Z b * inject_Z b == inject_Z a)%Q)
    by (field; lra).
  assert (Hq0 : (inject_Z a / inject_Z b <= 0)%Q).
  { apply Qle_shift_div_r; [exact HbQ|lra]. }
  destruct (close_to_nonpos eps _ r Hq0 (div_ok a b ltac:(unfold pixels in *; lia) Hb))
    as [Hlo Hhi].
  set (q := (inject_Z a / inject_Z b)%Q) in *.
  split; nra.
Qed.

(** The product of a size and a ratio. *)
Lemma product_bounds (a : Z) (y : Q) :
  (0 <= a <= pixels)%Z -> (0 <= y)%Q ->
  (y == 0 \/ (1 # 2 ^ 40) <= y <= inject_Z (2 ^ 40))%Q ->
  let p := float_mul L (inject_Z a) y in
  ((1 - eps) * (inject_Z a * y) <= p /\ p <= (1 + eps) * (inject_Z a * y))%Q.
Proof using eps_small mul_ok.
  intros Ha Hy Hrange p.
  assert (HaQ : (0 <= inject_Z a)%Q) by (rewrite <- (Zle_Qle 0); lia).
  apply close_to_nonneg; [apply Qmult_le_0_compat; assumption|].
  apply mul_ok; [unfold pixels in *; lia|].
  destruct Hrange as [H0|H]; [left; exact H0|right].
  rewrite (Qabs_pos y Hy). exact H.
Qed.

(** The product of a size and a ratio that is not positive is not
    positive. *)
Lemma product_nonpos (a : Z) (y : Q) :
  (0 <= a <= pixels)%Z -> (y <= 0)%Q ->
  (y == 0 \/ (1 # 2 ^ 40) <= - y <= inject_Z (2 ^ 40))%Q ->
  (float_mul L (inject_Z a) y <= 0)%Q.
Proof using eps_small mul_ok.
  intros Ha Hy Hrange.
  assert (HaQ : (0 <= inject_Z a)%Q) by (rewrite <- (Zle_Qle 0); lia).
  assert (Hc : close_to eps (inject_Z a * y) (float_mul L (inject_Z a) y)).
  { apply mul_ok; [unfold pixels in *; lia|].
    destruct Hrange as [H0|H]; [left; exact H0|right].
    rewrite (Qabs_neg y Hy). exact H. }
  assert (Hprod : (inject_Z a * y <= 0)%Q).
  { clear - HaQ Hy. nra. }
  apply close_to_nonpos in Hc; [|exact Hprod].
  destruct Hc as [_ Hhi]. clear - Hhi Hprod eps_small. float_constants. nra.
Qed.

(** A rounded product of two values that are not negative is not
    negative. *)
Lemma rounded_nonneg (a b y : Q) :
  (0 <= a)%Q -> (0 <= b)%Q -> ((1 - eps) * (a * b) <= y)%Q -> (0 <= y)%Q.
Proof using eps_small.
  intros Ha Hb Hy.
  assert (0 <= a * b)%Q by (apply Qmult_le_0_compat; assumption).
  assert (0 <= (1 - eps) * (a * b))%Q.
  { apply Qmult_le_0_compat; [|assumption].
    clear - eps_small. float_constants. lra. }
  lra.
Qed.

(** One rounding enlarges a size by less than a millionth of a pixel. *)
Lemma rounding_step (x y : Q) :
  (0 <= x <= 4294967296)%Q -> (y <= (1 + eps) * x)%Q ->
  (y <= x + (1 # 1048576))%Q.
Proof using eps_small.
  intros Hx Hy. float_constants. nra.
Qed.

(** A ratio of two sizes is within the range of the product's accuracy. *)
Lemma ratio_in_range (r a b : Q) :
  (1 <= a <= 2147483648)%Q -> (1 <= b <= 2147483648)%Q ->
  ((1 - eps) * a <= r * b)%Q -> (r * b <= (1 + eps) * a)%Q ->
  (0 < r /\ (1 # 2 ^ 40) <= r <= inject_Z (2 ^ 40))%Q.
Proof using eps_small.
  intros Ha Hb Hlo Hhi. float_constants.
  assert (H1 : (1 # 2 <= r * b)%Q) by nra.
  assert (H2 : (r * b <= 4294967296)%Q) by nra.
  assert (H3 : (0 < r)%Q) by nra.
  split; [exact H3|]. split; nra.
Qed.

(** A size as a rational. *)
Lemma size_Q (a lo : Z) :
  (lo <= a <= pixels)%Z ->
  (inject_Z lo <= inject_Z a /\ inject_Z a <= 2147483648)%Q.
Proof.
  intros [H1 H2]. split; [now rewrite <- Zle_Qle|].
  change 2147483648%Q with (inject_Z pixels). now rewrite <- Zle_Qle.
Qed.

(** X20.  With float division and multiplication accurate to a relative error
    of [2^-52], for an image and a display of at most [2^31] pixels a side and
    a display more than 50 pixels high, the size [resize_image] asks for has a
    width between 0 and the display's width, and a height between 0 and the
    display's height less the 50 pixels left for the buttons. *)
Theorem resize_image_fits (w h tw th : Z) :
  (1 <= w <= pixels)%Z -> (1 <= h <= pixels)%Z ->
  (1 < tw <= pixels)%Z -> (50 < th <= pixels)%Z ->
  exists nw nh,
    resize_image L (w, h) tw th = Returns (nw, nh)
    /\ (0 <= nw <= tw)%Z /\ (0 <= nh <= th - 50)%Z.
Proof using eps_small div_ok mul_ok.
  intros Hw Hh Htw Hth. unfold resize_image.
  destruct (Z.eqb_spec w 0) as [->|_]; [lia|].
  destruct (Z.eqb_spec h 0) as [->|_]; [lia|].
  set (r1 := float_div L (inject_Z tw) (inject_Z w)).
  set (r2 := float_div L (inject_Z th) (inject_Z h)).
  set (r3 := float_div L (inject_Z (th - 50)) (inject_Z h)).
  set (ratio := float_min r1 r2).
  assert (Hmh : (1 <= th - 50 <= pixels)%Z) by lia.
  destruct (size_Q w 1 Hw) as [Hw1 Hw2].
  destruct (size_Q h 1 Hh) as [Hh1 Hh2].
  destruct (size_Q tw 1 ltac:(lia)) as [Htw1 Htw2].
  destruct (size_Q th 1 ltac:(lia)) as [Hth1 Hth2].
  destruct (size_Q (th - 50) 1 Hmh) as [Hmh1 Hmh2].
  destruct (quotient_bounds tw w ltac:(lia) ltac:(lia)) as [Hr1lo Hr1hi].
  destruct (quotient_bounds th h ltac:(lia) ltac:(lia)) as [Hr2lo Hr2hi].
  destruct (quotient_bounds (th - 50) h ltac:(lia) ltac:(lia)) as [Hr3lo Hr3hi].
  fold r1 in Hr1lo, Hr1hi. fold r2 in Hr2lo, Hr2hi. fold r3 in Hr3lo, Hr3hi.
  destruct (ratio_in_range r1 _ _ (conj Htw1 Htw2) (conj Hw1 Hw2) Hr1lo Hr1hi)
    as [Hr1pos Hr1range].
  destruct (ratio_in_range r2 _ _ (conj Hth1 Hth2) (conj Hh1 Hh2) Hr2lo Hr2hi)
    as [Hr2pos Hr2range].
  destruct (ratio_in_range r3 _ _ (conj Hmh1 Hmh2) (conj Hh1 Hh2) Hr3lo Hr3hi)
    as [Hr3pos Hr3range].
  assert (Hratio : (0 < ratio /\ ratio <= r1
                    /\ ((1 # 2 ^ 40) <= ratio <= inject_Z (2 ^ 40)))%Q).
  { subst ratio.
    destruct (float_min_spec r1 r2) as (H1 & H2 & [He|He]);
      rewrite He in *; repeat split; first [assumption | lra | tauto]. }
  destruct Hratio as (Hpos & Hle1 & Hrange).
  destruct (product_bounds h ratio ltac:(lia) ltac:(lra) (or_intror Hrange))
    as [Hplo Hphi].
  destruct (product_bounds w ratio ltac:(lia) ltac:(lra) (or_intror Hrange))
    as [Hqlo Hqhi].
  destruct (product_bounds h r3 ltac:(lia) ltac:(lra) (or_intror Hr3range))
    as [Hp3lo Hp3hi].
  destruct (product_bounds w r3 ltac:(lia) ltac:(lra) (or_intror Hr3range))
    as [Hq3lo Hq3hi].
  assert (Hu : (1 <= 1 + eps)%Q) by lra.
  set (u := (1 + eps)%Q) in *.
  set (W := inject_Z w) in *. set (H := inject_Z h) in *.
  set (TW := inject_Z tw) in *. set (MH := inject_Z (th - 50)) in *.
  change (inject_Z 1) with 1%Q in *.
  assert (HTW1 : inject_Z (tw + 1) = (TW + 1)%Q)
    by exact (inject_Z_plus tw 1).
  assert (HMH1 : inject_Z (th - 50 + 1) = (MH + 1)%Q)
    by exact (inject_Z_plus (th - 50) 1).
  (* the width through [ratio] *)
  assert (S2 : (W * ratio <= u * TW)%Q) by (clear - Hle1 Hw1 Hr1hi; nra).
  assert (N1 : (0 <= u * TW)%Q) by (apply Qmult_le_0_compat; lra).
  assert (N2 : (0 <= u * (u * TW))%Q) by (apply Qmult_le_0_compat; lra).
  assert (N3 : (0 <= u * (u * (u * TW)))%Q)
    by (apply Qmult_le_0_compat; lra).
  assert (N4 : (0 <= u * MH)%Q) by (apply Qmult_le_0_compat; lra).
  assert (T1 : (u * TW <= TW + (1 # 1048576))%Q).
  { apply (rounding_step TW); [lra|unfold u; lra]. }
  assert (T2 : (u * (u * TW) <= TW + (2 # 1048576))%Q).
  { assert (u * (u * TW) <= u * TW + (1 # 1048576))%Q;
      [apply (rounding_step (u * TW)); [lra|unfold u; lra]|lra]. }
  assert (T3 : (u * (u * (u * TW)) <= TW + (3 # 1048576))%Q).
  { assert (u * (u * (u * TW)) <= u * (u * TW) + (1 # 1048576))%Q;
      [apply (rounding_step (u * (u * TW))); [lra|unfold u; lra]|lra]. }
  assert (T4 : (u * (u * (u * (u * TW))) <= TW + (4 # 1048576))%Q).
  { assert (u * (u * (u * (u * TW))) <= u * (u * (u * TW)) + (1 # 1048576))%Q;
      [apply (rounding_step (u * (u * (u * TW)))); [lra|unfold u; lra]|lra]. }
  assert (M1 : (u * MH <= MH + (1 # 1048576))%Q).
  { apply (rounding_step MH); [lra|unfold u; lra]. }
  assert (M2 : (u * (u * MH) <= MH + (2 # 1048576))%Q).
  { assert (u * (u * MH) <= u * MH + (1 # 1048576))%Q;
      [apply (rounding_step (u * MH)); [lra|unfold u; lra]|lra]. }
  destruct (float_lt_spec MH (float_mul L H ratio)) as [Hlt Hge].
  destruct (float_lt MH (float_mul L H ratio)).
  - (* the height is cut down to leave the room for the buttons *)
    specialize (Hlt eq_refl). clear Hge.
    eexists _, _. split; [reflexivity|].
    assert (S3 : (r3 <= u * (u * ratio))%Q).
    { assert ((r3 - u * (u * ratio)) * H <= 0)%Q
        by (clear - Hr3hi Hlt Hphi Hu; nra).
      clear - H0 Hh1. nra. }
    assert (S4 : (W * r3 <= u * (u * (u * TW)))%Q).
    { assert (W * r3 <= u * (u * (W * ratio)))%Q by (clear - S3 Hw1; nra).
      assert (u * (u * (W * ratio)) <= u * (u * (u * TW)))%Q
        by (clear - S2 Hu; nra).
      lra. }
    assert (S5 : (float_mul L W r3 <= u * (u * (u * (u * TW))))%Q).
    { clear - Hq3hi S4 Hu. nra. }
    assert (S6 : (float_mul L H r3 <= u * (u * MH))%Q).
    { clear - Hp3hi Hr3hi Hu. nra. }
    split; split.
    + apply py_int_nonneg. apply (rounded_nonneg W r3); [lra|lra|exact Hq3lo].
    + apply py_int_below; [lia|]. rewrite HTW1. lra.
    + apply py_int_nonneg. apply (rounded_nonneg H r3); [lra|lra|exact Hp3lo].
    + apply py_int_below; [lia|]. rewrite HMH1. lra.
  - (* the image fits as it is *)
    specialize (Hge eq_refl). clear Hlt.
    eexists _, _. split; [reflexivity|].
    assert (S5 : (float_mul L W ratio <= u * (u * TW))%Q).
    { clear - Hqhi S2 Hu. nra. }
    split; split.
    + apply py_int_nonneg. apply (rounded_nonneg W ratio); [lra|lra|exact Hqlo].
    + apply py_int_below; [lia|]. rewrite HTW1. lra.
    + apply py_int_nonneg. apply (rounded_nonneg H ratio); [lra|lra|exact Hplo].
    + apply py_int_below; [lia|]. rewrite HMH1. lra.
Qed.

(** X21.  On a display at most 50 pixels high no room is left above the
    buttons: the width and the height [resize_image] asks for are zero or
    negative. *)
Theorem resize_image_on_a_low_display (w h tw th : Z) :
  (1 <= w <= pixels)%Z -> (1 <= h <= pixels)%Z ->
  (1 < tw <= pixels)%Z -> (1 < th <= 50)%Z ->
  exists nw nh,
    resize_image L (w, h) tw th = Returns (nw, nh)
    /\ (nw <= 0)%Z /\ (nh <= 0)%Z.
Proof using eps_small div_ok mul_ok.
  intros Hw Hh Htw Hth. unfold resize_image.
  destruct (Z.eqb_spec w 0) as [->|_]; [lia|].
  destruct (Z.eqb_spec h 0) as [->|_]; [lia|].
  set (r1 := float_div L (inject_Z tw) (inject_Z w)).
  set (r2 := float_div L (inject_Z th) (inject_Z h)).
  set (r3 := float_div L (inject_Z (th - 50)) (inject_Z h)).
  set (ratio := float_min r1 r2).
  destruct (size_Q w 1 Hw) as [Hw1 Hw2].
  destruct (size_Q h 1 Hh) as [Hh1 Hh2].
  destruct (size_Q tw 1 ltac:(unfold pixels in *; lia)) as [Htw1 Htw2].
  destruct (size_Q th 1 ltac:(unfold pixels in *; lia)) as [Hth1 Hth2].
  destruct (quotient_bounds tw w ltac:(lia) ltac:(lia)) as [Hr1lo Hr1hi].
  destruct (quotient_bounds th h ltac:(unfold pixels in *; lia) ltac:(lia))
    as [Hr2lo Hr2hi].
  destruct (quotient_nonpos (th - 50) h ltac:(unfold pixels in *; lia)
              ltac:(lia)) as [Hr3lo Hr3hi].
  fold r1 in Hr1lo, Hr1hi. fold r2 in Hr2lo, Hr2hi. fold r3 in Hr3lo, Hr3hi.
  destruct (ratio_in_range r1 _ _ (conj Htw1 Htw2) (conj Hw1 Hw2) Hr1lo Hr1hi)
    as [Hr1pos Hr1range].
  destruct (ratio_in_range r2 _ _ (conj Hth1 Hth2) (conj Hh1 Hh2) Hr2lo Hr2hi)
    as [Hr2pos Hr2range].
  assert (Hratio : (0 < ratio
                    /\ ((1 # 2 ^ 40) <= ratio <= inject_Z (2 ^ 40)))%Q).
  { subst ratio.
    destruct (float_min_spec r1 r2) as (_ & _ & [He|He]);
      rewrite He; split; assumption. }
  destruct Hratio as (Hpos & Hrange).
  change (inject_Z 1) with 1%Q in *.
  destruct (product_bounds h ratio ltac:(lia) ltac:(lra) (or_intror Hrange))
    as [Hplo _].
  assert (Hmh : (inject_Z (th - 50) <= 0)%Q)
    by (rewrite <- (Zle_Qle _ 0); lia).
  assert (Hr3 : (r3 <= 0)%Q).
  { assert (Hd : (0 <= 1 - eps)%Q)
      by (clear - eps_small; float_constants; lra).
    assert (Hprod : (r3 * inject_Z h <= 0)%Q)
      by (clear - Hr3hi Hmh Hd; nra).
    clear - Hprod Hh1. nra. }
  assert (Hr3range :
    (r3 == 0 \/ (1 # 2 ^ 40) <= - r3 <= inject_Z (2 ^ 40))%Q).
  { destruct (Z.eq_dec th 50%Z) as [->|Hne].
    - left. change (inject_Z (50 - 50)%Z) with 0%Q in *.
      assert (Hprod : (r3 * inject_Z h == 0)%Q) by lra.
      clear - Hprod Hh1. nra.
    - right.
      assert (Hneg : (1 <= - inject_Z (th - 50) <= 2147483648)%Q).
      { rewrite <- inject_Z_opp. change 1%Q with (inject_Z 1).
        change 2147483648%Q with (inject_Z pixels).
        rewrite <- !Zle_Qle. unfold pixels. lia. }
      apply (ratio_in_range (- r3) (- inject_Z (th - 50)) (inject_Z h));
        [exact Hneg|split; assumption|lra|lra]. }
  assert (Hp : (0 < float_mul L (inject_Z h) ratio)%Q).
  { assert (0 < (1 - eps) * (inject_Z h * ratio))%Q; [|lra].
    assert (Hd : (0 < 1 - eps)%Q)
      by (clear - eps_small; float_constants; lra).
    assert (Hprod : (0 < inject_Z h * ratio)%Q) by (clear - Hh1 Hpos; nra).
    clear - Hd Hprod. nra. }
  destruct (float_lt_spec (inject_Z (th - 50))
              (float_mul L (inject_Z h) ratio)) as [_ Hge].
  destruct (float_lt (inject_Z (th - 50)) (float_mul L (inject_Z h) ratio));
    [|specialize (Hge eq_refl); lra].
  eexists _, _. split; [reflexivity|].
  split; apply py_int_nonpos; apply product_nonpos;
    first [lia | assumption].
Qed.

End resize.

(** Exact arithmetic is accurate. *)
Lemma exact_is_close (eps x y : Q) : (0 <= eps)%Q -> (y == x)%Q -> close_to eps x y.
Proof.
  intros He Hxy. unfold close_to.
  assert (H0 : (y - x == 0)%Q) by lra.
  rewrite H0. change (Qabs 0) with 0%Q.
  apply Qmult_le_0_compat; [exact He|apply Qabs_nonneg].
Qed.

(** The stand-in library computes exactly. *)
Lemma sample_lib_is_accurate :
  (0 <= 0 /\ 0 <= 1 # 2 ^ 52)%Q
  /\ accurate_division sample_lib 0 /\ accurate_product sample_lib 0.
Proof.
  split; [split; discriminate|].
  split; intros a b; intros; apply exact_is_close;
    first [discriminate | reflexivity].
Qed.

(** A 640 by 480 frame on a 400 by 300 label. *)
Lemma resize_image_fits_witness :
  resize_image sample_lib (640, 480)%Z 400 300 = Returns (333, 250)%Z
  /\ exists nw nh,
       resize_image sample_lib (640, 480)%Z 400 300 = Returns (nw, nh)
       /\ (0 <= nw <= 400)%Z /\ (0 <= nh <= 300 - 50)%Z.
Proof.
  split; [reflexivity|].
  destruct sample_lib_is_accurate as (Heps & Hdiv & Hmul).
  apply (resize_image_fits sample_lib 0 Heps Hdiv Hmul 640 480 400 300);
    unfold pixels; lia.
Defined.

(** The same frame on a label 40 pixels high. *)
Lemma resize_image_on_a_low_display_witness :
  resize_image sample_lib (640, 480)%Z 400 40 = Returns (-13, -10)%Z
  /\ exists nw nh,
       resize_image sample_lib (640, 480)%Z 400 40 = Returns (nw, nh)
       /\ (nw <= 0)%Z /\ (nh <= 0)%Z.
Proof.
  split; [reflexivity|].
  destruct sample_lib_is_accurate as (Heps & Hdiv & Hmul).
  apply (resize_image_on_a_low_display sample_lib 0 Heps Hdiv Hmul
           640 480 400 40);
    unfold pixels; lia.
Defined.
